(** * ZenCode: orchestration core, build-plan parser and diff staging

    A shallow embedding of the parts of [zencode/core.py],
    [zencode/diff/engine.py], [zencode/tools/file_manager.py] and
    [zencode/config.py] that the behavioural specification talks about,
    followed by the theorems that settle each specified property.

    Conventions.
    - A Python [str] is a Rocq [string] that holds its UTF-8 encoding,
      and the bytes of a file are a [string] as well.  Writing a [str]
      stores it as it is: files are written with [encoding="utf-8"], on a
      system whose line separator is LF.  Reading decodes the bytes:
      with [errors="replace"] and universal newlines, ill-formed
      sequences become U+FFFD, and CR LF and CR become LF.  A [str] with
      a lone surrogate has no UTF-8 encoding and is not represented.
    - The character classes [\s], [\w], [\d], [str.lower], [str.strip]
      and the line boundaries of [str.splitlines] are given on code
      points below 128; the bytes of other code points are ordinary
      symbols to them.  A slice [s[:n]] counts code points.
    - A location on the disk is a list of components.  How a workspace
      and a tool's textual path name a location belongs to [pathlib] and
      the operating system, and is a parameter of the development:
      [locate] for a path that the code resolves first
      ([(ws / path).resolve()]), [join] for a path that it uses as it has
      joined it ([ws / path]).  Both are functions of the workspace and
      the path alone: a path whose meaning depends on what is on the disk
      (a [..] behind a directory that is not there, a symbolic link) is
      outside the model.  [repr] for a [str] is a parameter too.
    - The disk is a finite map from locations to nodes.
    - Code that raises returns a value of type [exc]; generators return the
      list of chunks they yield. *)

From Stdlib Require Import Ascii ZArith Lia.
From stdpp Require Import base option list strings pretty gmap.

Local Open Scope Z_scope.

(* ===================================================================== *)
(** ** Python strings *)
(* ===================================================================== *)

Module Py.

(** [str.isspace] on ASCII: TAB, LF, VT, FF, CR, FS, GS, RS, US, space.
    The same set is what [\s] matches in a [str] pattern. *)
Definition is_space (a : ascii) : bool :=
  let n := nat_of_ascii a in
  ((9 <=? n) && (n <=? 13) || (28 <=? n) && (n <=? 32))%nat.

Definition is_digit (a : ascii) : bool :=
  let n := nat_of_ascii a in ((48 <=? n) && (n <=? 57))%nat.

Definition is_upper (a : ascii) : bool :=
  let n := nat_of_ascii a in ((65 <=? n) && (n <=? 90))%nat.

Definition is_lower (a : ascii) : bool :=
  let n := nat_of_ascii a in ((97 <=? n) && (n <=? 122))%nat.

(** [\w]: letters, digits and the underscore. *)
Definition is_word (a : ascii) : bool :=
  is_upper a || is_lower a || is_digit a || (nat_of_ascii a =? 95)%nat.

Definition lower_char (a : ascii) : ascii :=
  if is_upper a then ascii_of_nat (nat_of_ascii a + 32) else a.

(** [s.lower()] *)
Fixpoint lower (s : string) : string :=
  match s with
  | EmptyString => EmptyString
  | String a s' => String (lower_char a) (lower s')
  end.

Definition upper_char (a : ascii) : ascii :=
  if is_lower a then ascii_of_nat (nat_of_ascii a - 32) else a.

(** [s.upper()] *)
Fixpoint upper (s : string) : string :=
  match s with
  | EmptyString => EmptyString
  | String a s' => String (upper_char a) (upper s')
  end.

(** [s.lstrip()] *)
Fixpoint lstrip (s : string) : string :=
  match s with
  | EmptyString => EmptyString
  | String a s' => if is_space a then lstrip s' else s
  end.

(** [s.rstrip()] *)
Fixpoint rstrip (s : string) : string :=
  match s with
  | EmptyString => EmptyString
  | String a s' =>
      match rstrip s' with
      | EmptyString => if is_space a then EmptyString else String a EmptyString
      | t => String a t
      end
  end.

(** [s.strip()] *)
Definition strip (s : string) : string := rstrip (lstrip s).

(** [s.startswith(p)] *)
Fixpoint startswith (p s : string) : bool :=
  match p, s with
  | EmptyString, _ => true
  | String a p', String b s' => if decide (a = b) then startswith p' s' else false
  | String _ _, EmptyString => false
  end.

(** [p in s] *)
Fixpoint contains (p s : string) : bool :=
  startswith p s ||
  match s with
  | EmptyString => false
  | String _ s' => contains p s'
  end.

(** The first [n] bytes of [s]. *)
Fixpoint take (n : nat) (s : string) : string :=
  match n, s with
  | O, _ => EmptyString
  | S _, EmptyString => EmptyString
  | S n', String a s' => String a (take n' s')
  end.

(** [s] without its first [n] bytes. *)
Fixpoint drop (n : nat) (s : string) : string :=
  match n, s with
  | O, _ => s
  | S _, EmptyString => EmptyString
  | S n', String _ s' => drop n' s'
  end.

(** [s.replace(old, new, 1)]: the leftmost occurrence of [old] is
    replaced, and [s] is returned as it is when there is none. *)
Fixpoint replace1 (old new s : string) : string :=
  if startswith old s then new +:+ drop (String.length old) s
  else match s with
       | EmptyString => EmptyString
       | String a s' => String a (replace1 old new s')
       end.

(** A byte [10xxxxxx] continues the code point that the bytes before it
    began. *)
Definition is_continuation (a : ascii) : bool :=
  let n := nat_of_ascii a in ((128 <=? n) && (n <=? 191))%nat.

(** [len(s)]: the number of code points. *)
Fixpoint len (s : string) : nat :=
  match s with
  | EmptyString => O
  | String a s' => if is_continuation a then len s' else S (len s')
  end.

(** [s[:n]] for a non-negative [n]: the first [n] code points, each with
    the bytes that continue it. *)
Fixpoint slice_to (n : nat) (s : string) : string :=
  match s with
  | EmptyString => EmptyString
  | String a s' =>
      if is_continuation a then String a (slice_to n s')
      else match n with
           | O => EmptyString
           | S n' => String a (slice_to n' s')
           end
  end.

(** U+FFFD, the replacement character. *)
Definition REPLACEMENT : string :=
  String (ascii_of_nat 239) (String (ascii_of_nat 191) (String (ascii_of_nat 189) EmptyString)).

(** The second byte that the first byte [a] of a sequence of three or
    four bytes admits: [E0] needs [A0..BF] and [F0] needs [90..BF] (no
    overlong forms), [ED] needs [80..9F] (no surrogates), [F4] needs
    [80..8F] (nothing above U+10FFFF); any continuation byte after the
    others. *)
Definition second_ok (a b : ascii) : bool :=
  let n := nat_of_ascii a in
  let m := nat_of_ascii b in
  is_continuation b &&
  (if (n =? 224)%nat then (160 <=? m)%nat
   else if (n =? 237)%nat then (m <=? 159)%nat
   else if (n =? 240)%nat then (144 <=? m)%nat
   else if (n =? 244)%nat then (m <=? 143)%nat
   else true).

(** [b.decode("utf-8", errors="replace")], the result again in UTF-8.
    A well-formed sequence is kept.  Of an ill-formed one the longest
    start that could begin a well-formed sequence (one byte at least)
    becomes one U+FFFD, and decoding goes on at the byte after it. *)
Fixpoint utf8_replace (s : string) : string :=
  match s with
  | EmptyString => EmptyString
  | String a s1 =>
      let n := nat_of_ascii a in
      if (n <? 128)%nat then String a (utf8_replace s1)
      else if ((n <? 194) || (244 <? n))%nat then REPLACEMENT +:+ utf8_replace s1
      else if (n <? 224)%nat then
        match s1 with
        | EmptyString => REPLACEMENT
        | String b s2 =>
            if is_continuation b then String a (String b (utf8_replace s2))
            else REPLACEMENT +:+ utf8_replace s1
        end
      else if (n <? 240)%nat then
        match s1 with
        | EmptyString => REPLACEMENT
        | String b s2 =>
            if second_ok a b then
              match s2 with
              | EmptyString => REPLACEMENT
              | String c s3 =>
                  if is_continuation c
                  then String a (String b (String c (utf8_replace s3)))
                  else REPLACEMENT +:+ utf8_replace s2
              end
            else REPLACEMENT +:+ utf8_replace s1
        end
      else
        match s1 with
        | EmptyString => REPLACEMENT
        | String b s2 =>
            if second_ok a b then
              match s2 with
              | EmptyString => REPLACEMENT
              | String c s3 =>
                  if is_continuation c then
                    match s3 with
                    | EmptyString => REPLACEMENT
                    | String e s4 =>
                        if is_continuation e
                        then String a (String b (String c (String e (utf8_replace s4))))
                        else REPLACEMENT +:+ utf8_replace s3
                    end
                  else REPLACEMENT +:+ utf8_replace s2
              end
            else REPLACEMENT +:+ utf8_replace s1
        end
  end.

(** What a text file opened with [newline=None] hands to the reader:
    CR LF and a CR alone are both given as LF. *)
Fixpoint universal_newlines (s : string) : string :=
  match s with
  | EmptyString => EmptyString
  | String a s' =>
      if bool_decide (a = "013"%char) then
        match s' with
        | String "010"%char s'' => String "010"%char (universal_newlines s'')
        | _ => String "010"%char (universal_newlines s')
        end
      else String a (universal_newlines s')
  end.

(** The text that reading the bytes [s] of a file gives:
    [open(p, encoding="utf-8", errors="replace").read()]. *)
Definition decode (s : string) : string := universal_newlines (utf8_replace s).

(** [len(s.splitlines())]: lines are ended by LF, CR, CRLF, VT, FF, FS,
    GS or RS; a last line without terminator counts, an empty one does
    not. *)
Definition is_linebreak (a : ascii) : bool :=
  let n := nat_of_ascii a in
  ((10 <=? n) && (n <=? 13) || (28 <=? n) && (n <=? 30))%nat.

Fixpoint count_lines_aux (pending : bool) (s : string) : nat :=
  match s with
  | EmptyString => if pending then 1%nat else 0%nat
  | String a s' =>
      if is_linebreak a then
        match a, s' with
        | "013"%char, String "010"%char s'' => S (count_lines_aux false s'')
        | _, _ => S (count_lines_aux false s')
        end
      else count_lines_aux true s'
  end.

Definition count_lines (s : string) : nat := count_lines_aux false s.

End Py.

(* ===================================================================== *)
(** ** Regular expressions, as [re] runs them *)
(* ===================================================================== *)

(** A backtracking matcher with Python's priorities: alternatives are
    tried left to right, a greedy repetition tries one more iteration
    before it tries to stop, a lazy one the other way round. *)
Module Re.

Inductive regex : Type :=
| Eps
| Chr (p : ascii → bool)            (* one character of a class *)
| Seq (r1 r2 : regex)
| Alt (r1 r2 : regex)
| Star (greedy : bool) (r : regex)
| Group (n : nat) (r : regex)       (* capturing group number [n] *)
| Eos.                              (* [$] without [re.MULTILINE] *)

Definition Plus (greedy : bool) (r : regex) : regex :=
  Seq r (Star greedy r).

Definition is_char (c : ascii) : ascii → bool :=
  fun a => bool_decide (a = c).

(** A literal string. *)
Fixpoint Lit (s : string) : regex :=
  match s with
  | EmptyString => Eps
  | String a s' => Seq (Chr (is_char a)) (Lit s')
  end.

(** [.] without [re.DOTALL]. *)
Definition dot : ascii → bool := fun a => negb (bool_decide (a = "010"%char)).

(** Captured groups, by number. *)
Definition caps := gmap nat string.

Definition orelse {A} (x y : option A) : option A :=
  match x with Some _ => x | None => y end.

(** [run r s c k]: match [r] at the front of [s], then continue with
    [k] on what is left; [None] asks the caller to backtrack. *)
Fixpoint run {R} (r : regex) (s : string) (c : caps)
    (k : string → caps → option R) : option R :=
  match r with
  | Eps => k s c
  | Chr p =>
      match s with
      | String a s' => if p a then k s' c else None
      | EmptyString => None
      end
  | Seq r1 r2 => run r1 s c (fun s' c' => run r2 s' c' k)
  | Alt r1 r2 => orelse (run r1 s c k) (run r2 s c k)
  | Star greedy r1 =>
      (fix loop (fuel : nat) (s : string) (c : caps) : option R :=
         match fuel with
         | O => k s c
         | S fuel' =>
             let more :=
               run r1 s c (fun s' c' =>
                 if (String.length s' <? String.length s)%nat
                 then loop fuel' s' c' else None) in
             if greedy then orelse more (k s c) else orelse (k s c) more
         end) (String.length s) s c
  | Group n r1 =>
      run r1 s c (fun s' c' =>
        k s' (<[n := Py.take (String.length s - String.length s') s]> c'))
  | Eos =>
      match s with
      | EmptyString => k s c
      | String "010"%char EmptyString => k s c
      | _ => None
      end
  end.

(** A match object: the text from the start of the match, the text
    after its end, and the groups. *)
Record mobj : Type := MObj { m_from : string; m_rest : string; m_groups : caps }.

Definition match_at (r : regex) (s : string) : option mobj :=
  run r s ∅ (fun s' c => Some (MObj s s' c)).

(** [re.search(r, s)]: the leftmost position where [r] matches. *)
Fixpoint search (r : regex) (s : string) : option mobj :=
  match match_at r s with
  | Some m => Some m
  | None =>
      match s with
      | EmptyString => None
      | String _ s' => search r s'
      end
  end.

(** [m.group(n)] of a group that took part in the match. *)
Definition group (m : mobj) (n : nat) : string := default "" (m_groups m !! n).

(** [re.finditer(r, s)]: successive non-overlapping matches; after an
    empty match the scan moves on by one character. *)
Fixpoint finditer_from (fuel : nat) (r : regex) (s : string) : list mobj :=
  match fuel with
  | O => []
  | S fuel' =>
      match search r s with
      | None => []
      | Some m =>
          m :: (if (String.length (m_rest m) <? String.length (m_from m))%nat
                then finditer_from fuel' r (m_rest m)
                else match m_from m with
                     | EmptyString => []
                     | String _ t => finditer_from fuel' r t
                     end)
      end
  end.

Definition finditer (r : regex) (s : string) : list mobj :=
  finditer_from (S (String.length s)) r s.

End Re.

(* ===================================================================== *)
(** ** Build plans: [core.py], [parse_build_plan] *)
(* ===================================================================== *)

Record BuildTask : Type := mkBuildTask {
  bt_agent : string;
  bt_label : string;
  bt_description : string
}.

Record BuildPlan : Type := mkBuildPlan {
  bp_name : string;
  bp_target_dir : string;
  bp_stack : string;
  bp_tasks : list BuildTask
}.

Global Instance BuildTask_eq_dec : EqDecision BuildTask.
Proof. solve_decision. Defined.

Global Instance BuildPlan_eq_dec : EqDecision BuildPlan.
Proof. solve_decision. Defined.

(** The keys of [AGENTS] ([agents/__init__.py]): the names of
    [AGENT_REGISTRY], in that order. *)
Definition AGENT_NAMES : list string :=
  ["chat"; "coder"; "debug"; "architect"; "researcher"; "git"].

Module Plan.
Import Re.

(** [(?:\n|$)] *)
Definition eol : regex := Alt (Chr (is_char "010"%char)) Eos.

(** [<label>\s*(.+?)(?:\n|$)] *)
Definition labelled (label : string) : regex :=
  Seq (Lit label)
    (Seq (Star true (Chr Py.is_space))
       (Seq (Group 1 (Plus false (Chr dot))) eol)).

Definition name_re : regex := labelled "BUILD PLAN:".
Definition target_re : regex := labelled "TARGET DIR:".
Definition stack_re : regex := labelled "STACK:".

(** [[A-Z]] under [re.I]. *)
Definition is_letter (a : ascii) : bool := Py.is_upper a || Py.is_lower a.

(** [\[(\w+)\]\s+([A-Z]\d+):\s*(.+?)(?:\n|$)] with [re.I] *)
Definition task_re : regex :=
  Seq (Chr (is_char "["%char))
    (Seq (Group 1 (Plus true (Chr Py.is_word)))
       (Seq (Chr (is_char "]"%char))
          (Seq (Plus true (Chr Py.is_space))
             (Seq (Group 2 (Seq (Chr is_letter) (Plus true (Chr Py.is_digit))))
                (Seq (Chr (is_char ":"%char))
                   (Seq (Star true (Chr Py.is_space))
                      (Seq (Group 3 (Plus false (Chr dot))) eol))))))).

(** [m.group(1).strip() if m else dflt] *)
Definition field_or (m : option mobj) (dflt : string) : string :=
  match m with
  | Some m => Py.strip (group m 1)
  | None => dflt
  end.

(** One turn of the loop over [re.finditer]. *)
Definition task_of (m : mobj) : option BuildTask :=
  let agent := Py.lower (group m 1) in
  if bool_decide (agent ∈ AGENT_NAMES)
  then Some (mkBuildTask agent (group m 2) (Py.strip (group m 3)))
  else None.

Definition extract_tasks (text : string) : list BuildTask :=
  omap task_of (finditer task_re text).

Definition parse_build_plan (text : string) : option BuildPlan :=
  if negb (Py.contains "BUILD PLAN:" text) then None
  else
    let name := field_or (search name_re text) "project" in
    let target := field_or (search target_re text) "." in
    let stack := field_or (search stack_re text) "Python" in
    let tasks := extract_tasks text in
    match tasks with
    | [] => None
    | _ => Some (mkBuildPlan name target stack tasks)
    end.

End Plan.

(* ===================================================================== *)
(** ** The disk, as [pathlib] sees it *)
(* ===================================================================== *)

(** A resolved location: the components below the root. *)
Definition path : Type := list string.

Inductive node : Type :=
| File (content : string)
| Dir.

Global Instance node_eq_dec : EqDecision node.
Proof. solve_decision. Defined.

Abbreviation disk := (gmap path node).

(** Python exceptions: the class that decides which [except] clause
    catches it, and [str(exc)]. *)
Inductive exc_class : Type := OSError | TypeError | ValueError | RuntimeError | IndexError.

Record exc : Type := Exc { exc_kind : exc_class; exc_str : string }.

Global Instance exc_class_eq_dec : EqDecision exc_class.
Proof. solve_decision. Defined.

(** Results of code that may raise. *)
Notation "'Raise' e" := (inl e) (at level 10, only parsing).
Notation "'Return' x" := (inr x) (at level 10, only parsing).

Module Fs.

(** [p.exists()] *)
Definition exists_ (d : disk) (p : path) : bool :=
  bool_decide (p = []) || bool_decide (is_Some (d !! p)).

(** [p.is_dir()] : the root is a directory. *)
Definition is_dir (d : disk) (p : path) : bool :=
  bool_decide (p = []) || bool_decide (d !! p = Some Dir).

(** [p.parent] *)
Definition parent (p : path) : path := removelast p.

(** [p.read_text(encoding="utf-8", errors="replace")]: the bytes of the
    file, decoded. *)
Definition read_text (d : disk) (p : path) : exc + string :=
  match d !! p with
  | Some (File c) => Return (Py.decode c)
  | Some Dir => Raise (Exc OSError "Is a directory")
  | None =>
      if bool_decide (p = []) then Raise (Exc OSError "Is a directory")
      else Raise (Exc OSError "No such file or directory")
  end.

(** [p.mkdir(parents=True, exist_ok=True)]: every missing directory on
    the way is created; a regular file on the way is an error. *)
Fixpoint mkdir_from (base : path) (rest : list string) (d : disk) : exc + disk :=
  match rest with
  | [] => Return d
  | x :: rest' =>
      let q := base ++ [x] in
      match d !! q with
      | Some (File _) =>
          Raise (Exc OSError (if rest' is [] then "File exists" else "Not a directory"))
      | Some Dir => mkdir_from q rest' d
      | None => mkdir_from q rest' (<[q := Dir]> d)
      end
  end.

Definition mkdir_parents (p : path) (d : disk) : exc + disk := mkdir_from [] p d.

(** Opening [p] for writing: its parent has to be a directory and [p]
    itself must not be one. *)
Definition writable (d : disk) (p : path) : exc + unit :=
  if is_dir d p then Raise (Exc OSError "Is a directory")
  else if is_dir d (parent p) then Return ()
  else Raise (Exc OSError "No such file or directory").

(** [p.write_text(content)] *)
Definition write_text (p : path) (content : string) (d : disk) : exc + disk :=
  match writable d p with
  | Raise e => Raise e
  | Return _ => Return (<[p := File content]> d)
  end.

(** [open(p, "a").write(content)] *)
Definition append_text (p : path) (content : string) (d : disk) : exc + disk :=
  match writable d p with
  | Raise e => Raise e
  | Return _ =>
      let old := match d !! p with Some (File c) => c | _ => "" end in
      Return (<[p := File (old +:+ content)]> d)
  end.

(** [p.unlink()] *)
Definition unlink (p : path) (d : disk) : exc + disk :=
  match d !! p with
  | Some (File _) => Return (delete p d)
  | Some Dir => Raise (Exc OSError "Is a directory")
  | None => Raise (Exc OSError "No such file or directory")
  end.

(** [shutil.rmtree(p)]: [p] and everything below it. *)
Definition rmtree (p : path) (d : disk) : exc + disk :=
  if bool_decide (p = []) then Raise (Exc OSError "Cannot remove the root")
  else Return (filter (λ kv, ¬ p `prefix_of` kv.1) d).

(** [str(p)] *)
Definition str (p : path) : string :=
  match p with
  | [] => "/"
  | _ => foldr (λ c acc, "/" +:+ c +:+ acc) "" p
  end.

(** [str(p.relative_to(ws))] *)
Definition relative_to (p ws : path) : exc + string :=
  if bool_decide (ws `prefix_of` p) then
    match drop (length ws) p with
    | [] => Return "."
    | c :: cs => Return (foldl (λ acc x, acc +:+ "/" +:+ x) c cs)
    end
  else Raise (Exc ValueError "path is not in the subpath of the workspace").

End Fs.

(* ===================================================================== *)
(** ** Diffs: [diff/engine.py] *)
(* ===================================================================== *)

Record FileDiff : Type := mkFileDiff {
  fd_path : string;          (* relative path *)
  fd_old_content : string;   (* empty if new file *)
  fd_new_content : string;
  fd_is_new : bool;
  fd_is_delete : bool
}.

Record DiffSet : Type := mkDiffSet {
  ds_diffs : list FileDiff;
  ds_agent_name : string;
  ds_task_description : string
}.

Global Instance FileDiff_eq_dec : EqDecision FileDiff.
Proof. solve_decision. Defined.

Global Instance DiffSet_eq_dec : EqDecision DiffSet.
Proof. solve_decision. Defined.

(** [DiffSet.add] *)
Definition DiffSet_add (ds : DiffSet) (diff : FileDiff) : DiffSet :=
  mkDiffSet (ds_diffs ds ++ [diff]) (ds_agent_name ds) (ds_task_description ds).

(** Values of a [ToolResult]'s metadata. *)
Inductive mval : Type := MStr (s : string) | MNat (n : nat) | MBool (b : bool).

Global Instance mval_eq_dec : EqDecision mval.
Proof. solve_decision. Defined.

Record ToolResult : Type := mkToolResult {
  tr_success : bool;
  tr_output : string;
  tr_error : string;
  tr_metadata : gmap string mval
}.

(** [ToolResult(False, error=msg)] *)
Definition failure (msg : string) : ToolResult := mkToolResult false "" msg ∅.

(** [ToolResult(True, output=msg)] *)
Definition success (msg : string) : ToolResult := mkToolResult true msg "" ∅.

Record DiffTracker : Type := mkDiffTracker {
  dt_workspace : path;
  dt_pending : DiffSet;
  dt_active : bool
}.

(** [DiffTracker(workspace)] *)
Definition DiffTracker_init (ws : path) : DiffTracker :=
  mkDiffTracker ws (mkDiffSet [] "" "") false.

(** [DiffTracker.start] *)
Definition DiffTracker_start (t : DiffTracker) (agent_name task : string) : DiffTracker :=
  mkDiffTracker (dt_workspace t) (mkDiffSet [] agent_name task) true.

(** [DiffTracker.stop] *)
Definition DiffTracker_stop (t : DiffTracker) : DiffTracker :=
  mkDiffTracker (dt_workspace t) (dt_pending t) false.

(** What the file tools read and write: the disk and the module variable
    [_diff_tracker] of [file_manager.py].  No tool rebinds that variable,
    so the tracker object it names is kept here by value. *)
Record store : Type := mkStore {
  st_disk : disk;
  st_tracker : option DiffTracker
}.

Definition set_disk (d : disk) (st : store) : store := mkStore d (st_tracker st).

(** [set_diff_tracker] *)
Definition set_diff_tracker (t : option DiffTracker) (st : store) : store :=
  mkStore (st_disk st) t.

Section FileTools.

(** [(ws / path).resolve()] *)
Variable locate : path → string → path.

(** [ws / path], used as it is joined. *)
Variable join : path → string → path.

(** [repr(s)] of a [str]. *)
Variable repr : string → string.

(** [DiffTracker.intercept_write]: the staged change and the synthetic
    result; the disk is only read. *)
Definition intercept_write (t : DiffTracker) (d : disk)
    (path_ content mode : string) : DiffTracker * ToolResult :=
  let target := join (dt_workspace t) path_ in
  let is_new := negb (Fs.exists_ d target) in
  let old_content :=
    if Fs.exists_ d target then
      match Fs.read_text d target with
      | Return c => c
      | Raise _ => ""
      end
    else "" in
  let new_content :=
    if bool_decide (mode = "append") then old_content +:+ content else content in
  let diff := mkFileDiff path_ old_content new_content is_new false in
  let lines := Py.count_lines content in
  (mkDiffTracker (dt_workspace t) (DiffSet_add (dt_pending t) diff) (dt_active t),
   mkToolResult true
     ("[staged] " +:+ path_ +:+ " (" +:+ pretty lines +:+ " lines) — pending review")
     ""
     (<["path" := MStr path_]> (<["staged" := MBool true]> ∅))).

(** The tracker that intercepts, if there is one: [tracker and
    tracker.active]. *)
Definition active_tracker (st : store) : option DiffTracker :=
  match st_tracker st with
  | Some t => if dt_active t then Some t else None
  | None => None
  end.

Definition staged (t : DiffTracker) (st : store) (path_ content mode : string)
    : ToolResult * store :=
  let '(t', r) := intercept_write t (st_disk st) path_ content mode in
  (r, mkStore (st_disk st) (Some t')).

(** [rel = str(p.relative_to(ws)) if str(p).startswith(str(ws)) else str(p)] *)
Definition rel_path (p ws : path) : exc + string :=
  if Py.startswith (Fs.str ws) (Fs.str p) then Fs.relative_to p ws
  else Return (Fs.str p).

(** [file_write] *)
Definition file_write (ws : path) (path_ content mode : string) (st : store)
    : ToolResult * store :=
  match active_tracker st with
  | Some t => staged t st path_ content mode
  | None =>
      let p := locate ws path_ in
      match Fs.mkdir_parents (Fs.parent p) (st_disk st) with
      | Raise e => (failure (exc_str e), st)
      | Return d1 =>
          match (if bool_decide (mode = "append")
                 then Fs.append_text p content d1
                 else Fs.write_text p content d1) with
          | Raise e => (failure (exc_str e), set_disk d1 st)
          | Return d2 =>
              let lines := Py.count_lines content in
              match rel_path p ws with
              | Raise e => (failure (exc_str e), set_disk d2 st)
              | Return rel =>
                  (mkToolResult true
                     ("✔ wrote " +:+ rel +:+ " (" +:+ pretty lines +:+ " lines)")
                     ""
                     (<["path" := MStr rel]> (<["lines" := MNat lines]> ∅)),
                   set_disk d2 st)
              end
          end
      end
  end.

(** [file_patch]: [content] is the decoded text of the file, and it is
    this text, with the replacement made, that is staged or written. *)
Definition file_patch (ws : path) (path_ old_str new_str : string) (st : store)
    : ToolResult * store :=
  let p := locate ws path_ in
  if negb (Fs.exists_ (st_disk st) p) then (failure ("Not found: " +:+ path_), st)
  else
    match Fs.read_text (st_disk st) p with
    | Raise e => (failure (exc_str e), st)
    | Return content =>
        if negb (Py.contains old_str content) then
          (failure ("String not found in " +:+ path_ +:+ ": "
                    +:+ repr (Py.slice_to 80 old_str)), st)
        else
          let new_content := Py.replace1 old_str new_str content in
          match active_tracker st with
          | Some t => staged t st path_ new_content "write"
          | None =>
              match Fs.write_text p new_content (st_disk st) with
              | Raise e => (failure (exc_str e), st)
              | Return d' => (success ("✔ patched " +:+ path_), set_disk d' st)
              end
          end
    end.

(** [file_delete]: the tracker is not consulted. *)
Definition file_delete (ws : path) (path_ : string) (st : store)
    : ToolResult * store :=
  let p := locate ws path_ in
  if negb (Fs.exists_ (st_disk st) p) then (failure ("Not found: " +:+ path_), st)
  else if Fs.is_dir (st_disk st) p then
    match Fs.rmtree p (st_disk st) with
    | Raise e => (failure (exc_str e), st)
    | Return d' => (success ("Deleted directory " +:+ path_), set_disk d' st)
    end
  else
    match Fs.unlink p (st_disk st) with
    | Raise e => (failure (exc_str e), st)
    | Return d' => (success ("Deleted " +:+ path_), set_disk d' st)
    end.

(* ------------------------------------------------------------------- *)
(** *** [DiffReviewer] *)

(** [DiffReviewer._apply_diff] *)
Definition _apply_diff (diff : FileDiff) (workspace : path) (d : disk) : exc + disk :=
  let target := join workspace (fd_path diff) in
  if fd_is_delete diff then
    if Fs.exists_ d target then Fs.unlink target d else Return d
  else
    match Fs.mkdir_parents (Fs.parent target) d with
    | Raise e => Raise e
    | Return d1 => Fs.write_text target (fd_new_content diff) d1
    end.

(** [DiffReviewer._apply_all] *)
Fixpoint _apply_all (diffs : list FileDiff) (workspace : path) (d : disk) : exc + disk :=
  match diffs with
  | [] => Return d
  | x :: rest =>
      match _apply_diff x workspace d with
      | Raise e => Raise e
      | Return d1 => _apply_all rest workspace d1
      end
  end.

(** What the reviewer sees and does on the terminal, in order. *)
Inductive console : Type :=
| Summary (n : nat)                 (* [render_diffset_summary] and the legend *)
| Preview (path_ : string) (i n : nat)
| Prompted                          (* one call of [pt_prompt] *)
| HelpShown
| DiffShown (path_ : string)
| SaidAccepted
| SaidRejected
| SaidAcceptedAll
| SaidSkipped
| SaidAutoAccepted (path_ : string).

(** How the [while True] loop over the prompt is remaining. *)
Inductive verdict : Type := VAccept | VReject | VAcceptAll | VSkip.

(** The prompt loop of [review] for one diff.  An answer [None] is an
    [EOFError] or [KeyboardInterrupt]; when the answers are used up the
    input is at its end, which is an [EOFError] too.  Returns the
    verdict, the answers remaining and what was shown. *)
Fixpoint ask (path_ : string) (answers : list (option string))
    : verdict * list (option string) * list console :=
  match answers with
  | [] => (VSkip, [], [Prompted])
  | x :: rest =>
      let resp :=
        match x with
        | Some typed => Py.lower (Py.strip typed)
        | None => "s"
        end in
      if bool_decide (resp = "?") || bool_decide (resp = "help") then
        let '(v, remaining, out) := ask path_ rest in (v, remaining, Prompted :: HelpShown :: out)
      else if bool_decide (resp = "d") then
        let '(v, remaining, out) := ask path_ rest in (v, remaining, Prompted :: DiffShown path_ :: out)
      else if bool_decide (resp ∈ ["a"; "y"; "yes"; ""]) then
        (VAccept, rest, [Prompted])
      else if bool_decide (resp ∈ ["r"; "n"; "no"]) then
        (VReject, rest, [Prompted])
      else if bool_decide (resp = "a") then
        (VAcceptAll, rest, [Prompted])
      else if bool_decide (resp ∈ ["s"; "skip"]) then
        (VSkip, rest, [Prompted])
      else
        let '(v, remaining, out) := ask path_ rest in (v, remaining, Prompted :: out)
  end.

(** The state of [review] while it walks the diffs. *)
Record reviewing : Type := mkReviewing {
  rv_accept_all : bool;
  rv_accepted : list FileDiff;
  rv_rejected : list FileDiff;
  rv_disk : disk;
  rv_answers : list (option string);
  rv_console : list console
}.

Definition say (out : list console) (r : reviewing) : reviewing :=
  mkReviewing (rv_accept_all r) (rv_accepted r) (rv_rejected r) (rv_disk r)
    (rv_answers r) (rv_console r ++ out).

(** [self._apply_diff(diff, workspace); accepted.append(diff)] *)
Definition accept (workspace : path) (diff : FileDiff) (all : bool)
    (remaining : list (option string)) (out : list console) (r : reviewing)
    : exc + reviewing :=
  match _apply_diff diff workspace (rv_disk r) with
  | Raise e => Raise e
  | Return d' =>
      Return (mkReviewing all (rv_accepted r ++ [diff]) (rv_rejected r) d' remaining
                (rv_console r ++ out))
  end.

(** [rejected.append(diff)] *)
Definition reject (diff : FileDiff) (remaining : list (option string))
    (out : list console) (r : reviewing) : reviewing :=
  mkReviewing (rv_accept_all r) (rv_accepted r) (rv_rejected r ++ [diff]) (rv_disk r)
    remaining (rv_console r ++ out).

(** The body of [for i, diff in enumerate(diffset.diffs)]. *)
Definition review_step (workspace : path) (n i : nat) (diff : FileDiff)
    (r : reviewing) : exc + reviewing :=
  if rv_accept_all r then
    accept workspace diff true (rv_answers r) [SaidAutoAccepted (fd_path diff)] r
  else
    let '(v, remaining, out) := ask (fd_path diff) (rv_answers r) in
    let shown := Preview (fd_path diff) (S i) n :: out in
    match v with
    | VAccept => accept workspace diff false remaining (shown ++ [SaidAccepted]) r
    | VReject => Return (reject diff remaining (shown ++ [SaidRejected]) r)
    | VAcceptAll => accept workspace diff true remaining (shown ++ [SaidAcceptedAll]) r
    | VSkip => Return (reject diff remaining (shown ++ [SaidSkipped]) r)
    end.

Fixpoint review_loop (workspace : path) (n i : nat) (diffs : list FileDiff)
    (r : reviewing) : exc + reviewing :=
  match diffs with
  | [] => Return r
  | diff :: rest =>
      match review_step workspace n i diff r with
      | Raise e => Raise e
      | Return r' => review_loop workspace n (S i) rest r'
      end
  end.

(** [DiffReviewer.review]: the lists [(accepted, rejected)] are
    [rv_accepted] and [rv_rejected] of the result. *)
Definition review (auto_accept : bool) (diffset : DiffSet) (workspace : path)
    (d : disk) (answers : list (option string)) : exc + reviewing :=
  match ds_diffs diffset with
  | [] => Return (mkReviewing false [] [] d answers [])
  | diffs =>
      if auto_accept then
        match _apply_all diffs workspace d with
        | Raise e => Raise e
        | Return d' => Return (mkReviewing false diffs [] d' answers [])
        end
      else
        review_loop workspace (length diffs) 0 diffs
          (mkReviewing false [] [] d answers [Summary (length diffs)])
  end.

End FileTools.

(* ===================================================================== *)
(** ** Configuration: [config.py] *)
(* ===================================================================== *)

(** The keys of [cfg._data] that the core reads. *)
Record config : Type := mkConfig {
  cfg_api_key : string;
  cfg_model : string;
  cfg_max_tokens : Z;
  cfg_workspace : path;
  cfg_auto_accept : bool;
  cfg_chat_history_limit : Z
}.

(** [DEFAULT_CONFIG], with the workspace ["."] resolved to [cwd]. *)
Definition DEFAULT_CONFIG (cwd : path) : config :=
  mkConfig "" "codestral-latest" 8192 cwd true 60.

(** [_RULES["chat_history_limit"]] *)
Definition chat_history_limit_min : Z := 1.
Definition chat_history_limit_max : Z := 200.

(** [cfg._validate] for a key whose rule is [(int, vmin, vmax, None)],
    applied to a value that is an [int] already: [int(value)] is then the
    value itself and cannot raise.  Values of other types are not
    represented. *)
Definition _validate (key : string) (vmin vmax value : Z) : exc + Z :=
  if value <? vmin then Raise (Exc ValueError ("'" +:+ key +:+ "' >= " +:+ pretty vmin))
  else if vmax <? value then Raise (Exc ValueError ("'" +:+ key +:+ "' <= " +:+ pretty vmax))
  else Return value.

(** [cfg.set("chat_history_limit", value)] for an [int]: what it does to
    the keys of the record.  [_save], which stamps [_updated_at] and
    writes the configuration file, touches none of them. *)
Definition set_chat_history_limit (value : Z) (c : config) : exc + config :=
  match _validate "chat_history_limit" chat_history_limit_min chat_history_limit_max value with
  | Raise e => Raise e
  | Return v =>
      Return (mkConfig (cfg_api_key c) (cfg_model c) (cfg_max_tokens c) (cfg_workspace c)
                (cfg_auto_accept c) v)
  end.

(** [cfg.set_workspace]; the argument is a resolved location. *)
Definition set_workspace (ws : path) (c : config) : config :=
  mkConfig (cfg_api_key c) (cfg_model c) (cfg_max_tokens c) ws
    (cfg_auto_accept c) (cfg_chat_history_limit c).

(** [cfg.set("api_key", key)]: a key without a rule is stored as it is. *)
Definition set_api_key (key : string) (c : config) : config :=
  mkConfig key (cfg_model c) (cfg_max_tokens c) (cfg_workspace c)
    (cfg_auto_accept c) (cfg_chat_history_limit c).

(** [cfg.set("auto_accept", value)] *)
Definition set_auto_accept (value : bool) (c : config) : config :=
  mkConfig (cfg_api_key c) (cfg_model c) (cfg_max_tokens c) (cfg_workspace c)
    value (cfg_chat_history_limit c).

(** The configurations that [DEFAULT_CONFIG] and [cfg.set] produce. *)
Inductive configured : config → Prop :=
| configured_default cwd : configured (DEFAULT_CONFIG cwd)
| configured_api_key c key : configured c → configured (set_api_key key c)
| configured_auto_accept c value : configured c → configured (set_auto_accept value c)
| configured_limit c v c' :
    configured c → set_chat_history_limit v c = Return c' → configured c'
| configured_workspace c ws :
    configured c → configured (set_workspace ws c).

(* ===================================================================== *)
(** ** Messages and [Memory]: [core.py] *)
(* ===================================================================== *)

(** A tool invocation as the model writes it: id, function name and the
    raw JSON text of the arguments. *)
Record tool_request : Type := mkToolRequest {
  tq_id : string;
  tq_name : string;
  tq_arguments : string
}.

(** The dictionaries that make up the message list. *)
Inductive message : Type :=
| Msg (role content : string)
| AssistantCalls (content : string) (calls : list tool_request)
| ToolMsg (content tool_call_id name : string).

(** [l[start:]] for a Python list and an integer [start] of either sign. *)
Definition slice_from {A} (start : Z) (l : list A) : list A :=
  let n := Z.of_nat (length l) in
  let i := if start <? 0 then Z.max (start + n) 0 else Z.min start n in
  drop (Z.to_nat i) l.

(** [Memory.add], on [self._msgs]. *)
Definition Memory_add (c : config) (role content : string) (msgs : list message)
    : list message :=
  let msgs1 := msgs ++ [Msg role content] in
  let limit := cfg_chat_history_limit c in
  if limit <? Z.of_nat (length msgs1) then slice_from (- limit) msgs1 else msgs1.

(** A sequence of [add] calls on a fresh [Memory()]. *)
Definition Memory_adds (c : config) (calls : list (string * string)) : list message :=
  foldl (λ msgs rc, Memory_add c rc.1 rc.2 msgs) [] calls.

(** What those calls were asked to store, in call order. *)
Definition added (calls : list (string * string)) : list message :=
  (λ rc, Msg rc.1 rc.2) <$> calls.

(* ===================================================================== *)
(** ** The orchestrator: [core.py], [ZenCore] *)
(* ===================================================================== *)

(** [BaseAgent] ([agents/base_agent.py]); the sampling temperature is a
    float handed to the backend as it is and is left out. *)
Record BaseAgent : Type := mkAgent {
  ag_name : string;
  ag_role : string;
  ag_emoji : string;
  ag_color : string;
  ag_system_prompt : string;
  ag_max_tokens : Z;
  ag_tools : list string
}.

(** The function names of [ALL_SCHEMAS] ([file_manager.py]). *)
Definition SCHEMA_NAMES : list string :=
  ["file_read"; "file_write"; "file_patch"; "file_delete"; "file_rename"; "file_copy";
   "list_directory"; "create_directory"; "find_files"; "grep_files";
   "run_code"; "run_shell"; "run_any_command"; "run_tests"; "install_packages";
   "search_in_files"; "web_fetch"; "web_search_tool"; "git_command"; "mcp_call";
   "delete_tests"].

(** [BaseAgent.get_tool_schemas], each schema named by its function. *)
Definition get_tool_schemas (agent : BaseAgent) : list string :=
  filter (λ t, t ∈ SCHEMA_NAMES) (ag_tools agent).

(** [BaseAgent.build_messages] *)
Definition build_messages (prompt : string) (history : list message) : list message :=
  history ++ [Msg "user" prompt].

(** [BaseAgent.format_system], called with [system_extra or None]. *)
Definition format_system (agent : BaseAgent) (extra : string) : string :=
  let base := Py.strip (ag_system_prompt agent) in
  if bool_decide (Py.strip extra = "") then base
  else base +:+ String "010" (String "010" (Py.strip extra)).

(** One [choice] of a completion and the completion itself. *)
Record choice : Type := mkChoice {
  ch_finish_reason : string;
  ch_content : string;                 (* [choice.message.content or ""] *)
  ch_tool_calls : list tool_request
}.

Record completion : Type := mkCompletion {
  cp_choices : list choice;
  cp_prompt_tokens : Z;
  cp_completion_tokens : Z
}.

(** The keyword arguments of a backend call. *)
Record request : Type := mkRequest {
  rq_model : string;
  rq_max_tokens : Z;
  rq_messages : list message;
  rq_tools : list string               (* empty: no [tools], no [tool_choice] *)
}.

(** [_MAX_ITERS] *)
Definition _MAX_ITERS : nat := 24.

Definition BUILD_MODE_DIRECTIVE : string :=
  "AUTOMATED BUILD MODE ENABLED. Do not ask for confirmation. "
  +:+ "Execute tasks sequentially and complete each task fully before responding.".

(** Values of [ToolResult.to_api_str]'s payload. *)
Inductive jval : Type :=
| JBool (b : bool)
| JStr (s : string)
| JMeta (m : gmap string mval).

(** The payload of [ToolResult.to_api_str], before [json.dumps]. *)
Definition api_payload (r : ToolResult) : list (string * jval) :=
  [("success", JBool (tr_success r))]
  ++ (if bool_decide (tr_output r = "") then []
      else [("output", JStr (Py.slice_to (Z.to_nat 16000) (tr_output r)))])
  ++ (if bool_decide (tr_error r = "") then [] else [("error", JStr (tr_error r))])
  ++ (if bool_decide (tr_metadata r = ∅) then [] else [("metadata", JMeta (tr_metadata r))]).

Section Core.

(** [(ws / path).resolve()] *)
Variable locate : path → string → path.

(** Parsed tool arguments, [json.loads], [json.dumps] and
    [arguments.get("path", "")]. *)
Context {Args : Type}.
Variable empty_args : Args.
Variable json_loads : string → option Args.
Variable json_dumps : list (string * jval) → string.
Variable arg_path : Args → string.

(** The model backend: its state, [client.chat.complete] and
    [client.chat.stream].  A stream delivers text deltas and may break
    off with an exception. *)
Context {Backend : Type}.
Variable complete : request → Backend → (exc + completion) * Backend.
Variable stream : request → Backend → (list string * option exc) * Backend.

(** [TOOL_CALLABLES]: a tool is called with the parsed arguments and
    reads the workspace from the configuration. *)
Variable TOOL_CALLABLES :
  string → option (Args → path → store → (exc + ToolResult) * store).

(** [AGENTS.get], [AGENTS["coder"]] and the workspace scanner behind
    [_ws_context]. *)
Variable agent_of : string → option BaseAgent.
Variable CoderAgent : BaseAgent.
Variable ws_context : path → disk → string.

(** [ToolCall]; the elapsed time is left out. *)
Record ToolCall : Type := mkToolCall {
  tc_tool_id : string;
  tc_name : string;
  tc_arguments : Args;
  tc_result : option ToolResult
}.

(** [ZenResponse]; the latency is left out. *)
Record ZenResponse : Type := mkZenResponse {
  zr_text : string;
  zr_agent_name : string;
  zr_agent_role : string;
  zr_agent_emoji : string;
  zr_agent_color : string;
  zr_model : string;
  zr_tokens_in : Z;
  zr_tokens_out : Z;
  zr_tool_calls : list ToolCall;
  zr_error : option string;
  zr_diff_set : option DiffSet
}.

(** [ZenResponse.ok] *)
Definition zr_ok (r : ZenResponse) : bool := bool_decide (zr_error r = None).

(** [StreamChunk], by [chunk_type]. *)
Inductive chunk : Type :=
| CToolCall (agent_name : string) (tc : ToolCall)
| CToolResult (agent_name : string) (tc : ToolCall)
| CDelta (agent_name : string) (delta : string)
| CDiffReady (agent_name : string) (diff_set : DiffSet)
| CDone (agent_name : string) (response : ZenResponse)
| CStatus (status_msg status_level agent_name : string)
| CNewline.

Definition is_done (c : chunk) : bool :=
  match c with CDone _ _ => true | _ => false end.

(** [file_manager.dispatch] *)
Definition dispatch (ws : path) (name : string) (args : Args) (st : store)
    : (exc + ToolResult) * store :=
  match TOOL_CALLABLES name with
  | None => (Return (failure ("Unknown tool: " +:+ name)), st)
  | Some fn =>
      match fn args ws st with
      | (Raise e, st') =>
          if bool_decide (exc_kind e = TypeError)
          then (Return (failure ("Bad args for " +:+ name +:+ ": " +:+ exc_str e)), st')
          else (Raise e, st')
      | (Return r, st') => (Return r, st')
      end
  end.

(** The local variables of [_run_agent] inside its [try], together with
    what has been yielded and the state of the world.  [r_calls] is the
    record of the calls of [client.chat.complete] made so far, each with
    what it returned or raised; the code keeps no such list. *)
Record run : Type := mkRun {
  r_msgs : list message;
  r_all_tcs : list ToolCall;
  r_tok_in : Z;
  r_tok_out : Z;
  r_final_text : string;
  r_chunks : list chunk;
  r_calls : list (request * (exc + completion));
  r_backend : Backend;
  r_store : store
}.

Definition yield (c : chunk) (r : run) : run :=
  mkRun (r_msgs r) (r_all_tcs r) (r_tok_in r) (r_tok_out r) (r_final_text r)
    (r_chunks r ++ [c]) (r_calls r) (r_backend r) (r_store r).

Definition with_store (st : store) (r : run) : run :=
  mkRun (r_msgs r) (r_all_tcs r) (r_tok_in r) (r_tok_out r) (r_final_text r)
    (r_chunks r) (r_calls r) (r_backend r) st.

(** [msgs.append(m)] *)
Definition push_msg (m : message) (r : run) : run :=
  mkRun (r_msgs r ++ [m]) (r_all_tcs r) (r_tok_in r) (r_tok_out r) (r_final_text r)
    (r_chunks r) (r_calls r) (r_backend r) (r_store r).

(** [all_tcs.append(tc)] *)
Definition push_tc (tc : ToolCall) (r : run) : run :=
  mkRun (r_msgs r) (r_all_tcs r ++ [tc]) (r_tok_in r) (r_tok_out r) (r_final_text r)
    (r_chunks r) (r_calls r) (r_backend r) (r_store r).

Definition with_final_text (t : string) (r : run) : run :=
  mkRun (r_msgs r) (r_all_tcs r) (r_tok_in r) (r_tok_out r) t
    (r_chunks r) (r_calls r) (r_backend r) (r_store r).

(** The effect of [resp = client.chat.complete(..)] on the state: the
    call is on record, the backend has moved on, and when the call
    returned the token counts are added. *)
Definition called (rq : request) (outcome : exc + completion) (b : Backend)
    (tin tout : Z) (r : run) : run :=
  mkRun (r_msgs r) (r_all_tcs r) (r_tok_in r + tin) (r_tok_out r + tout) (r_final_text r)
    (r_chunks r) (r_calls r ++ [(rq, outcome)]) b (r_store r).

Definition with_backend (b : Backend) (r : run) : run :=
  mkRun (r_msgs r) (r_all_tcs r) (r_tok_in r) (r_tok_out r) (r_final_text r)
    (r_chunks r) (r_calls r) b (r_store r).

(** The body of [for tc in choice.message.tool_calls]. *)
Definition one_call (agent : BaseAgent) (ws : path) (tc : tool_request) (r : run)
    : exc * run + run :=
  let name := tq_name tc in
  let args := default empty_args (json_loads (tq_arguments tc)) in
  let zen_tc := mkToolCall (tq_id tc) name args None in
  let r1 := yield (CToolCall (ag_name agent) zen_tc) r in
  match dispatch ws name args (r_store r1) with
  | (Raise e, st') => Raise (e, with_store st' r1)
  | (Return result, st') =>
      let zen_tc' := mkToolCall (tq_id tc) name args (Some result) in
      Return (push_msg (ToolMsg (json_dumps (api_payload result)) (tq_id tc) name)
                (yield (CToolResult (ag_name agent) zen_tc')
                   (push_tc zen_tc' (with_store st' r1))))
  end.

Fixpoint tool_calls (agent : BaseAgent) (ws : path) (tcs : list tool_request) (r : run)
    : exc * run + run :=
  match tcs with
  | [] => Return r
  | tc :: rest =>
      match one_call agent ws tc r with
      | Raise er => Raise er
      | Return r' => tool_calls agent ws rest r'
      end
  end.

(** The final answer: the message state is requested again as a stream;
    an exception there is caught and the text of the completion is used
    instead. *)
Definition final_text (agent : BaseAgent) (c : config) (ch : choice) (r : run) : run :=
  let rq := mkRequest (cfg_model c) (Z.min (cfg_max_tokens c) (ag_max_tokens agent))
              (r_msgs r) [] in
  let '((deltas, broke), b') := stream rq (r_backend r) in
  let parts := filter (λ d, d ≠ "") deltas in
  let r1 := foldl (λ acc d, yield (CDelta (ag_name agent) d) acc) (with_backend b' r) parts in
  match broke with
  | None => with_final_text (String.concat "" parts) r1
  | Some _ =>
      let text := ch_content ch in
      let r2 := with_final_text text r1 in
      if bool_decide (text = "") then r2 else yield (CDelta (ag_name agent) text) r2
  end.

(** How one turn of [for _iter in range(_MAX_ITERS)] ends. *)
Inductive flow : Type := Continue | Break.

(** The body of the [for] loop. *)
Definition iteration (agent : BaseAgent) (c : config) (r : run)
    : exc * run + flow * run :=
  let schemas := get_tool_schemas agent in
  let rq := mkRequest (cfg_model c) (Z.min (cfg_max_tokens c) (ag_max_tokens agent))
              (r_msgs r) schemas in
  match complete rq (r_backend r) with
  | (Raise e, b') => Raise (e, called rq (Raise e) b' 0 0 r)
  | (Return resp, b') =>
      match cp_choices resp with
      | [] => Raise (Exc IndexError "list index out of range", called rq (Return resp) b' 0 0 r)
      | ch :: _ =>
          let r1 :=
            called rq (Return resp) b' (cp_prompt_tokens resp) (cp_completion_tokens resp) r in
          if bool_decide (schemas ≠ []) && bool_decide (ch_finish_reason ch = "tool_calls")
             && bool_decide (ch_tool_calls ch ≠ [])
          then
            let r2 := push_msg (AssistantCalls (ch_content ch) (ch_tool_calls ch)) r1 in
            match tool_calls agent (cfg_workspace c) (ch_tool_calls ch) r2 with
            | Raise er => Raise er
            | Return r3 => Return (Continue, r3)
            end
          else Return (Break, final_text agent c ch r1)
      end
  end.

(** [for _iter in range(n)]: when the range is used up the loop is left
    without a [break]. *)
Fixpoint loop (n : nat) (agent : BaseAgent) (c : config) (r : run) : exc * run + run :=
  match n with
  | O => Return r
  | S n' =>
      match iteration agent c r with
      | Raise er => Raise er
      | Return (Break, r') => Return r'
      | Return (Continue, r') => loop n' agent c r'
      end
  end.

(** The state of the process: the configuration [cfg], the fields of
    [ZenCore], the backend and what the tools act on. *)
Record zen : Type := mkZen {
  z_cfg : config;
  z_client : bool;                      (* [self._client is not None] *)
  z_memory : list message;
  z_pending_plan : option BuildPlan;
  z_original_prompt : string;
  z_backend : Backend;
  z_store : store
}.

Definition with_cfg (c : config) (z : zen) : zen :=
  mkZen c (z_client z) (z_memory z) (z_pending_plan z) (z_original_prompt z)
    (z_backend z) (z_store z).

Definition with_world (b : Backend) (st : store) (z : zen) : zen :=
  mkZen (z_cfg z) (z_client z) (z_memory z) (z_pending_plan z) (z_original_prompt z) b st.

Definition with_plan (p : option BuildPlan) (z : zen) : zen :=
  mkZen (z_cfg z) (z_client z) (z_memory z) p (z_original_prompt z)
    (z_backend z) (z_store z).

Definition with_original_prompt (s : string) (z : zen) : zen :=
  mkZen (z_cfg z) (z_client z) (z_memory z) (z_pending_plan z) s
    (z_backend z) (z_store z).

(** [ZenCore._get_client] *)
Definition _get_client (z : zen) : exc + zen :=
  if z_client z then Return z
  else if bool_decide (cfg_api_key (z_cfg z) = "") then
    Raise (Exc RuntimeError "No API key set.")
  else Return (mkZen (z_cfg z) true (z_memory z) (z_pending_plan z)
                 (z_original_prompt z) (z_backend z) (z_store z)).

(** [ZenCore._make_tracker] *)
Definition _make_tracker (c : config) (agent_name task : string) (st : store) : store :=
  set_diff_tracker (Some (DiffTracker_start (DiffTracker_init (cfg_workspace c)) agent_name task)) st.

(** What a generator has done when it is run to its end: the chunks it
    yielded, the exception that left it if one did, and the state. *)
Record ran : Type := mkRan {
  ran_chunks : list chunk;
  ran_calls : list (request * (exc + completion));
  ran_escaped : option exc;
  ran_zen : zen
}.

(** The [done] chunk of the [except] clause. *)
Definition error_done (agent : BaseAgent) (c : config) (e : exc) : chunk :=
  CDone (ag_name agent)
    (mkZenResponse "" (ag_name agent) (ag_role agent) "✖" "#ff4444" (cfg_model c)
       0 0 [] (Some (exc_str e)) None).

(** [ZenCore._run_agent] *)
Definition _run_agent (agent : BaseAgent) (prompt : string) (history : list message)
    (system_extra : string) (use_diff_tracker : bool) (tracker : option DiffTracker)
    (z : zen) : ran :=
  let c := z_cfg z in
  match _get_client z with
  | Raise e => mkRan [] [] (Some e) z
  | Return z1 =>
      let msgs0 := build_messages prompt history in
      let system := format_system agent system_extra in
      let msgs := if bool_decide (system = "") then msgs0 else Msg "system" system :: msgs0 in
      let st1 :=
        if use_diff_tracker then
          match tracker with
          | None => _make_tracker c (ag_name agent) (Py.slice_to 60 prompt) (z_store z1)
          | Some t => set_diff_tracker (Some t) (z_store z1)
          end
        else z_store z1 in
      match loop _MAX_ITERS agent c (mkRun msgs [] 0 0 "" [] [] (z_backend z1) st1) with
      | Raise (e, r) =>
          let st := if use_diff_tracker then set_diff_tracker None (r_store r) else r_store r in
          mkRan (r_chunks r ++ [error_done agent c e]) (r_calls r) None
            (with_world (r_backend r) st z1)
      | Return r =>
          let collected :=
            if use_diff_tracker then
              match st_tracker (r_store r) with
              | Some t => Some (dt_pending t)
              | None => None
              end
            else None in
          let st :=
            match collected with
            | Some _ => set_diff_tracker None (r_store r)
            | None => r_store r
            end in
          let ready :=
            match collected with
            | Some ds => if bool_decide (ds_diffs ds = []) then []
                         else [CDiffReady (ag_name agent) ds]
            | None => []
            end in
          let response :=
            mkZenResponse (r_final_text r) (ag_name agent) (ag_role agent) (ag_emoji agent)
              (ag_color agent) (cfg_model c) (r_tok_in r) (r_tok_out r) (r_all_tcs r)
              None collected in
          mkRan (r_chunks r ++ ready ++ [CDone (ag_name agent) response]) (r_calls r) None
            (with_world (r_backend r) st z1)
      end
  end.

(** [tc.name in ("file_write","file_patch") and tc.result and
    tc.result.success] *)
Definition wrote (tc : ToolCall) : bool :=
  (bool_decide (tc_name tc = "file_write") || bool_decide (tc_name tc = "file_patch"))
  && match tc_result tc with
     | Some res => tr_success res
     | None => false
     end.

(** The rolling summary entry that [execute_build] appends when a task's
    [done] chunk reports success. *)
Definition summary_of (task : BuildTask) (agent : BaseAgent) (response : ZenResponse)
    : string :=
  let writes :=
    (λ tc, arg_path (tc_arguments tc)) <$>
    List.filter wrote (zr_tool_calls response) in
  let summary :=
    "Task " +:+ bt_label task +:+ " (" +:+ ag_name agent +:+ "): "
    +:+ Py.slice_to 60 (bt_description task) in
  match writes with
  | [] => summary
  | _ => summary +:+ " → " +:+ String.concat ", " (take 3 writes)
  end.

(** The local state of [execute_build] inside its [try]: the rolling
    summaries, the chunks yielded, the process state, and for every task
    started so far its label with the value of [cfg.workspace()] at the
    moment its agent was launched (the code keeps no such list). *)
Record building : Type := mkBuilding {
  b_completed : list string;
  b_chunks : list chunk;
  b_roots : list (string * path);
  b_zen : zen
}.

(** What the loop over the chunks of a task's agent does to [completed]. *)
Definition absorb (task : BuildTask) (agent : BaseAgent) (completed : list string)
    (c : chunk) : list string :=
  match c with
  | CDone _ response =>
      if zr_ok response then completed ++ [summary_of task agent response] else completed
  | _ => completed
  end.

(** [f"PROJECT: ..."] *)
Definition task_prompt (plan : BuildPlan) (task : BuildTask) (z : zen) (prior : string)
    : string :=
  let nl := String "010" EmptyString in
  let ws := Fs.str (cfg_workspace (z_cfg z)) in
  "PROJECT: " +:+ bp_name plan +:+ nl
  +:+ "STACK: " +:+ bp_stack plan +:+ nl
  +:+ "ORIGINAL REQUEST: " +:+ z_original_prompt z +:+ nl
  +:+ "TARGET DIR: " +:+ ws +:+ nl +:+ nl
  +:+ "PRIOR WORK:" +:+ nl +:+ prior +:+ nl +:+ nl
  +:+ "YOUR TASK (" +:+ bt_label task +:+ "): " +:+ bt_description task +:+ nl +:+ nl
  +:+ "Work in: " +:+ ws +:+ nl
  +:+ "Use relative paths from that root." +:+ nl.

(** The body of [for task in plan.tasks]. *)
Definition run_task (plan : BuildPlan) (auto_accept : bool) (task : BuildTask)
    (b : building) : exc * building + building :=
  let nl := String "010" EmptyString in
  let z := b_zen b in
  let agent := default CoderAgent (agent_of (bt_agent task)) in
  let status :=
    CStatus ("[" +:+ bt_label task +:+ "] " +:+ ag_emoji agent +:+ " "
             +:+ Py.upper (ag_name agent) +:+ ": " +:+ bt_description task)
      "info" (ag_name agent) in
  let ws_ctx := ws_context (cfg_workspace (z_cfg z)) (st_disk (z_store z)) in
  let prior :=
    match b_completed b with
    | [] => "(first task)"
    | done_ => String.concat nl (slice_from (-3) done_)
    end in
  let extra :=
    BUILD_MODE_DIRECTIVE +:+ nl +:+ nl +:+ task_prompt plan task z prior
    +:+ nl +:+ nl +:+ ws_ctx in
  let out := _run_agent agent (bt_description task) [] extra (negb auto_accept) None z in
  let b' :=
    mkBuilding (foldl (absorb task agent) (b_completed b) (ran_chunks out))
      (b_chunks b ++ [status] ++ ran_chunks out)
      (b_roots b ++ [(bt_label task, cfg_workspace (z_cfg z))])
      (ran_zen out) in
  match ran_escaped out with
  | Some e => Raise (e, b')
  | None => Return b'
  end.

Fixpoint run_tasks (plan : BuildPlan) (auto_accept : bool) (tasks : list BuildTask)
    (b : building) : exc * building + building :=
  match tasks with
  | [] => Return b
  | task :: rest =>
      match run_task plan auto_accept task b with
      | Raise eb => Raise eb
      | Return b' => run_tasks plan auto_accept rest b'
      end
  end.

(** What [execute_build] has done when it is run to its end. *)
Record built : Type := mkBuilt {
  bu_chunks : list chunk;
  bu_roots : list (string * path);
  bu_escaped : option exc;
  bu_zen : zen
}.

(** [plan.target_dir and plan.target_dir not in (".", "")] *)
Definition names_subdir (plan : BuildPlan) : bool :=
  negb (bool_decide (bp_target_dir plan = ""))
  && negb (bool_decide (bp_target_dir plan ∈ ["."; ""])).

(** The part of [execute_build] from [try:] to the end, entered with
    the workspace already switched. *)
Definition build_body (plan : BuildPlan) (auto_accept : bool) (original_ws : path)
    (z : zen) : built :=
  let banner :=
    CStatus ("⚡ BUILDING: " +:+ bp_name plan +:+ "  ·  " +:+ bp_stack plan +:+ "  ·  "
             +:+ Fs.str (cfg_workspace (z_cfg z)))
      "ok" "chat" in
  match run_tasks plan auto_accept (bp_tasks plan) (mkBuilding [] [banner] [] z) with
  | Raise (e, b) =>
      (* finally *)
      mkBuilt (b_chunks b) (b_roots b) (Some e)
        (with_cfg (set_workspace original_ws (z_cfg (b_zen b))) (b_zen b))
  | Return b =>
      (* finally, then the rest of the function *)
      let z1 := with_cfg (set_workspace original_ws (z_cfg (b_zen b))) (b_zen b) in
      mkBuilt (b_chunks b ++ [CStatus ("✅ BUILD COMPLETE — " +:+ bp_name plan) "ok" "chat"])
        (b_roots b) None (with_plan None z1)
  end.

(** [ZenCore.execute_build]; [auto_accept] is [None] when the caller
    leaves the choice to the configuration. *)
Definition execute_build (original_prompt : string) (auto_accept : option bool)
    (z : zen) : built :=
  match z_pending_plan z with
  | None => mkBuilt [CStatus "No build plan." "error" ""] [] None z
  | Some plan =>
      let z1 := if bool_decide (original_prompt = "") then z
                else with_original_prompt original_prompt z in
      let auto := default (cfg_auto_accept (z_cfg z1)) auto_accept in
      let original_ws := cfg_workspace (z_cfg z1) in
      if names_subdir plan then
        let active_ws := locate original_ws (bp_target_dir plan) in
        let d := st_disk (z_store z1) in
        match (if Fs.exists_ d active_ws then Return d else Fs.mkdir_parents active_ws d) with
        | Raise e => mkBuilt [] [] (Some e) z1
        | Return d' =>
            build_body plan auto original_ws
              (with_cfg (set_workspace active_ws (z_cfg z1))
                 (with_world (z_backend z1) (set_disk d' (z_store z1)) z1))
        end
      else build_body plan auto original_ws z1
  end.

End Core.

(* ===================================================================== *)
(** ** Further operations of the same files *)
(* ===================================================================== *)

(** [s.splitlines()]: [cur] is the line being read and [pending] says
    whether anything of it has been seen. *)
Fixpoint splitlines_aux (cur : string) (pending : bool) (s : string) : list string :=
  match s with
  | EmptyString => if pending then [cur] else []
  | String a s' =>
      if Py.is_linebreak a then
        match a, s' with
        | "013"%char, String "010"%char s'' => cur :: splitlines_aux "" false s''
        | _, _ => cur :: splitlines_aux "" false s'
        end
      else splitlines_aux (cur +:+ String a EmptyString) true s'
  end.

Definition splitlines (s : string) : list string := splitlines_aux "" false s.

(** [set(s.splitlines())] *)
Definition line_set (s : string) : gset string := list_to_set (splitlines s).

(** [FileDiff.lines_added] *)
Definition lines_added (diff : FileDiff) : nat :=
  size (line_set (fd_new_content diff) ∖ line_set (fd_old_content diff)).

(** [FileDiff.lines_removed] *)
Definition lines_removed (diff : FileDiff) : nat :=
  size (line_set (fd_old_content diff) ∖ line_set (fd_new_content diff)).

(** [DiffSet.total_added] *)
Definition total_added (ds : DiffSet) : nat :=
  foldr (λ diff acc, lines_added diff + acc)%nat 0%nat (ds_diffs ds).

(** [DiffSet.total_removed] *)
Definition total_removed (ds : DiffSet) : nat :=
  foldr (λ diff acc, lines_removed diff + acc)%nat 0%nat (ds_diffs ds).

Section MoreTools.

(** [(ws / path).resolve()] *)
Variable locate : path → string → path.

(** [ws / path], used as it is joined. *)
Variable join : path → string → path.

(** [create_directory] ([file_manager.py]) *)
Definition create_directory (ws : path) (path_ : string) (st : store)
    : ToolResult * store :=
  let p := locate ws path_ in
  let existed := Fs.exists_ (st_disk st) p in
  match Fs.mkdir_parents p (st_disk st) with
  | Raise e => (failure (exc_str e), st)
  | Return d' =>
      match rel_path p ws with
      | Raise e => (failure (exc_str e), set_disk d' st)
      | Return rel =>
          if existed then (success ("✔ exists " +:+ rel), set_disk d' st)
          else (mkToolResult true ("✔ created " +:+ rel) "" (<["path" := MStr rel]> ∅),
                set_disk d' st)
      end
  end.

(** [_write_diff] ([CLI.py]) *)
Definition _write_diff (diff : FileDiff) (workspace : path) (d : disk) : exc + disk :=
  let target := join workspace (fd_path diff) in
  if fd_is_delete diff then
    if Fs.exists_ d target then Fs.unlink target d else Return d
  else
    match Fs.mkdir_parents (Fs.parent target) d with
    | Raise e => Raise e
    | Return d1 => Fs.write_text target (fd_new_content diff) d1
    end.

(** The prompt loop of [run_diff_review] ([CLI.py]) for one diff: the
    verdict and the answers that are left.  An answer [None] and the end
    of the answers are an [EOFError] or [KeyboardInterrupt]. *)
Fixpoint cli_ask (answers : list (option string)) : verdict * list (option string) :=
  match answers with
  | [] => (VSkip, [])
  | x :: rest =>
      let resp :=
        match x with
        | Some typed => Py.lower (Py.strip typed)
        | None => "s"
        end in
      if bool_decide (resp = "d") then cli_ask rest
      else if bool_decide (resp ∈ ["a"; "y"; ""; "accept"]) then (VAccept, rest)
      else if bool_decide (resp ∈ ["r"; "n"; "reject"; "no"]) then (VReject, rest)
      else if bool_decide (resp ∈ ["a_all"; "all"]) || bool_decide (resp = "A") then
        (VAcceptAll, rest)
      else if bool_decide (resp ∈ ["s"; "skip"]) then (VSkip, rest)
      else cli_ask rest
  end.

(** The local state of [run_diff_review] while it walks the diffs. *)
Record cli_review : Type := mkCliReview {
  cr_accepted_all : bool;
  cr_accepted_count : nat;
  cr_disk : disk;
  cr_answers : list (option string)
}.

(** [_write_diff(diff, ws); accepted_count += 1] *)
Definition cli_write (workspace : path) (diff : FileDiff) (all : bool)
    (remaining : list (option string)) (r : cli_review) : exc + cli_review :=
  match _write_diff diff workspace (cr_disk r) with
  | Raise e => Raise e
  | Return d' => Return (mkCliReview all (S (cr_accepted_count r)) d' remaining)
  end.

(** The body of the loop over the diffs in [run_diff_review]. *)
Definition cli_step (workspace : path) (diff : FileDiff) (r : cli_review)
    : exc + cli_review :=
  if cr_accepted_all r then cli_write workspace diff true (cr_answers r) r
  else
    let '(v, remaining) := cli_ask (cr_answers r) in
    match v with
    | VAccept => cli_write workspace diff false remaining r
    | VAcceptAll => cli_write workspace diff true remaining r
    | VReject | VSkip =>
        Return (mkCliReview false (cr_accepted_count r) (cr_disk r) remaining)
    end.

Fixpoint cli_loop (workspace : path) (diffs : list FileDiff) (r : cli_review)
    : exc + cli_review :=
  match diffs with
  | [] => Return r
  | diff :: rest =>
      match cli_step workspace diff r with
      | Raise e => Raise e
      | Return r' => cli_loop workspace rest r'
      end
  end.

(** [run_diff_review] ([CLI.py]): the number returned is
    [cr_accepted_count] of the result. *)
Definition run_diff_review (diff_set : DiffSet) (auto_accept : bool) (ws : path)
    (d : disk) (answers : list (option string)) : exc + cli_review :=
  if auto_accept then
    match review join true diff_set ws d answers with
    | Raise e => Raise e
    | Return r => Return (mkCliReview false (length (rv_accepted r)) (rv_disk r) (rv_answers r))
    end
  else
    match ds_diffs diff_set with
    | [] => Return (mkCliReview false 0 d answers)
    | diffs => cli_loop ws diffs (mkCliReview false 0 d answers)
    end.

End MoreTools.

(* ===================================================================== *)
(** ** Vocabulary of the statements *)
(* ===================================================================== *)

(** The locations that [mkdir_from base rest] visits. *)
Definition on_the_way (base : path) (rest : list string) (q : path) : Prop :=
  q `prefix_of` base ++ rest ∧ (length base < length q)%nat.

(** The bytes of the file at [p], and [""] where there is none. *)
Definition text_at (d : disk) (p : path) : string :=
  match d !! p with
  | Some (File content) => content
  | _ => ""
  end.

(** What a staged call leaves behind: the disk as it was, the tracker [t]
    with one more diff at the end of its diff set, and a result that
    reports success and says that the change is staged.  The diff is for
    [path_], records the text read at [target] (the decoded bytes of the
    file there) as the old content and whether the file is new, and
    proposes [proposal old_content]. *)
Definition staged_as (t : DiffTracker) (st : store) (target : path) (path_ : string)
    (proposal : string → string) (out : ToolResult * store) : Prop :=
  st_disk out.2 = st_disk st
  ∧ tr_success out.1 = true
  ∧ tr_metadata out.1 !! "staged" = Some (MBool true)
  ∧ Py.startswith "[staged] " (tr_output out.1) = true
  ∧ ∃ diff,
      st_tracker out.2
      = Some (mkDiffTracker (dt_workspace t) (DiffSet_add (dt_pending t) diff) true)
      ∧ fd_path diff = path_
      ∧ fd_old_content diff = Py.decode (text_at (st_disk st) target)
      ∧ fd_is_new diff = negb (Fs.exists_ (st_disk st) target)
      ∧ fd_new_content diff = proposal (fd_old_content diff)
      ∧ fd_is_delete diff = false.

Arguments chunk : clear implicits.
Arguments ToolCall : clear implicits.
Arguments ZenResponse : clear implicits.
Arguments run : clear implicits.
Arguments ran : clear implicits.
Arguments zen : clear implicits.
Arguments building : clear implicits.
Arguments built : clear implicits.

Section MoreCore.

Variable locate : path → string → path.
Context {Args : Type}.
Variable empty_args : Args.
Variable json_loads : string → option Args.
Variable json_dumps : list (string * jval) → string.
Variable arg_path : Args → string.
Context {Backend : Type}.
Variable complete : request → Backend → (exc + completion) * Backend.
Variable stream : request → Backend → (list string * option exc) * Backend.
Variable TOOL_CALLABLES :
  string → option (Args → path → store → (exc + ToolResult) * store).
Variable agent_of : string → option BaseAgent.
Variable CoderAgent : BaseAgent.
Variable ws_context : path → disk → string.

(** [AGENTS["chat"]] and [AGENTS["debug"]] *)
Variable ChatAgent : BaseAgent.
Variable DebugAgent : BaseAgent.

Definition with_memory (msgs : list message) (z : zen Backend) : zen Backend :=
  mkZen (z_cfg z) (z_client z) msgs (z_pending_plan z) (z_original_prompt z)
    (z_backend z) (z_store z).

(** [l[:-1]] *)
Definition but_last {A} (l : list A) : list A := take (length l - 1) l.

(** [Memory.turns] *)
Definition turns (msgs : list message) : nat :=
  length (List.filter (λ m, match m with
                            | Msg role _ => bool_decide (role = "user")
                            | _ => false
                            end) msgs).

(** What the loop of [ZenCore.stream] does with one chunk. *)
Definition on_chat_chunk (user_input : string) (z : zen Backend) (c : chunk Args)
    : zen Backend :=
  match c with
  | CDone _ response =>
      if zr_ok response then
        let final := zr_text response in
        let z1 := with_memory (Memory_add (z_cfg z) "assistant" final (z_memory z)) z in
        match Plan.parse_build_plan final with
        | Some plan => with_original_prompt user_input (with_plan (Some plan) z1)
        | None => z1
        end
      else z
  | _ => z
  end.

(** [ZenCore.stream] *)
Definition chat_stream (user_input : string) (z : zen Backend) : ran Args Backend :=
  let z1 := with_memory (Memory_add (z_cfg z) "user" user_input (z_memory z)) z in
  let history := but_last (z_memory z1) in
  let ws_ctx := ws_context (cfg_workspace (z_cfg z1)) (st_disk (z_store z1)) in
  let out :=
    _run_agent empty_args json_loads json_dumps complete stream TOOL_CALLABLES
      ChatAgent user_input history ws_ctx false None z1 in
  mkRan (ran_chunks out) (ran_calls out) (ran_escaped out)
    (foldl (on_chat_chunk user_input) (ran_zen out) (ran_chunks out)).

(** [ZenCore.stream_agent] *)
Definition stream_agent (agent_name user_input : string) (z : zen Backend)
    : ran Args Backend :=
  let agent := default ChatAgent (agent_of agent_name) in
  let ws_ctx := ws_context (cfg_workspace (z_cfg z)) (st_disk (z_store z)) in
  _run_agent empty_args json_loads json_dumps complete stream TOOL_CALLABLES
    agent user_input [] ws_ctx false None z.

(** The text that [direct_build] collects from the [delta] chunks. *)
Definition delta_text (chunks : list (chunk Args)) : string :=
  foldl (λ acc c, match c with CDelta _ d => acc +:+ d | _ => acc end) "" chunks.

(** The plan that [direct_build] falls back to. *)
Definition default_plan (prompt : string) : BuildPlan :=
  mkBuildPlan (Py.slice_to 50 prompt) "." "auto"
    [mkBuildTask "architect" "A1" ("Scaffold the project: " +:+ prompt);
     mkBuildTask "coder" "C1" ("Implement all required code for: " +:+ prompt);
     mkBuildTask "debug" "D1" "Run the project, fix ALL errors until it works"].

(** [ZenCore.direct_build]: plan with the chat agent, then execute. *)
Definition direct_build (prompt : string) (auto_accept : option bool) (z : zen Backend)
    : built Args Backend :=
  let nl := String "010" EmptyString in
  let auto := default (cfg_auto_accept (z_cfg z)) auto_accept in
  let planning := CStatus "◈ Planning..." "info" "chat" in
  let ws_ctx := ws_context (cfg_workspace (z_cfg z)) (st_disk (z_store z)) in
  let plan_prompt :=
    "Build this: " +:+ prompt +:+ nl +:+ nl
    +:+ "Output a BUILD PLAN using the exact format with agent tasks." +:+ nl
    +:+ "Consider the current workspace context below." +:+ nl +:+ nl +:+ ws_ctx in
  let out :=
    _run_agent empty_args json_loads json_dumps complete stream TOOL_CALLABLES
      ChatAgent plan_prompt [] BUILD_MODE_DIRECTIVE false None z in
  match ran_escaped out with
  | Some e => mkBuilt (planning :: ran_chunks out) [] (Some e) (ran_zen out)
  | None =>
      let plan := default (default_plan prompt)
                    (Plan.parse_build_plan (delta_text (ran_chunks out))) in
      let z1 := with_original_prompt prompt (with_plan (Some plan) (ran_zen out)) in
      let exe :=
        execute_build locate empty_args json_loads json_dumps arg_path complete stream
          TOOL_CALLABLES agent_of CoderAgent ws_context prompt (Some auto) z1 in
      mkBuilt (planning :: ran_chunks out ++ [CNewline] ++ bu_chunks exe)
        (bu_roots exe) (bu_escaped exe) (bu_zen exe)
  end.

End MoreCore.

(** The state in which a step of [_run_agent] ends, raised or not. *)
Definition state_of {Args Backend : Type}
    (out : exc * run Args Backend + run Args Backend) : run Args Backend :=
  match out with
  | Raise (_, r) => r
  | Return r => r
  end.

(** Chunks among which there is no completion event. *)
Definition quiet {Args : Type} (chunks : list (chunk Args)) : Prop :=
  Forall (λ c, is_done c = false) chunks.

(** A call of the backend that raised. *)
Definition failed (call : request * (exc + completion)) : bool :=
  match call.2 with
  | Raise _ => true
  | Return _ => false
  end.

(** Calls of the backend that all returned. *)
Definition clean (calls : list (request * (exc + completion))) : Prop :=
  Forall (λ call, failed call = false) calls.

(** [r'] continues [r]: the same calls of the backend on record, and
    more chunks yielded, none of them a completion event. *)
Definition continues {Args Backend : Type} (r r' : run Args Backend) : Prop :=
  r_calls r' = r_calls r
  ∧ ∃ more, r_chunks r' = r_chunks r ++ more ∧ quiet more.

(** What one turn of the loop adds: exactly one call on record, and
    chunks that are not completion events.  If the turn raised, either
    the call returned, or it is the call that raised this exception. *)
Definition advances {Args Backend : Type} (r : run Args Backend)
    (raised : option exc) (r' : run Args Backend) : Prop :=
  (∃ rq outcome,
     r_calls r' = r_calls r ++ [(rq, outcome)]
     ∧ match outcome with
       | Raise e => raised = Some e
       | Return _ => True
       end)
  ∧ ∃ more, r_chunks r' = r_chunks r ++ more ∧ quiet more.

(** The disk of a review is the disk of its start with the diffs
    accepted so far applied in turn, and every diff looked at is in one
    of the two lists. *)
Definition review_inv (join : path → string → path) (workspace : path) (d : disk) (seen : list FileDiff)
    (r : reviewing) : Prop :=
  _apply_all join (rv_accepted r) workspace d = Return (rv_disk r)
  ∧ rv_accepted r ++ rv_rejected r ≡ₚ seen
  ∧ rv_accepted r `sublist_of` seen.

(** The chunks that the loop of [_run_agent] yields. *)
Definition in_loop {Args : Type} (c : chunk Args) : bool :=
  match c with
  | CToolCall _ _ | CToolResult _ _ | CDelta _ _ => true
  | _ => false
  end.

(** A tool that goes by the tracker: called while one is intercepting,
    it leaves the disk as it is and the tracker intercepting. *)
Definition respects_staging {Args : Type}
    (fn : Args → path → store → (exc + ToolResult) * store) : Prop :=
  ∀ args ws st t,
    active_tracker st = Some t →
    st_disk (fn args ws st).2 = st_disk st
    ∧ is_Some (active_tracker (fn args ws st).2).

(** The tool message that answers an executed tool call. *)
Definition tool_message {Args : Type} (json_dumps : list (string * jval) → string)
    (tc : ToolCall Args) : option message :=
  match tc_result tc with
  | Some result =>
      Some (ToolMsg (json_dumps (api_payload result)) (tc_tool_id tc) (tc_name tc))
  | None => None
  end.

(** A process that has a client or an API key to make one. *)
Definition client_ok {Backend : Type} (z : zen Backend) : Prop :=
  z_client z = true ∨ cfg_api_key (z_cfg z) ≠ "".

(** [r'] has yielded what [r] had and after it only chunks of the loop. *)
Definition yields_in_loop {Args Backend : Type} (r r' : run Args Backend) : Prop :=
  ∃ more, r_chunks r' = r_chunks r ++ more ∧ Forall (λ c, in_loop c = true) more.

(** If the disk of [r] is [d] and a tracker is intercepting, the same
    holds of [r']. *)
Definition keeps_staging {Args Backend : Type} (d : disk) (r r' : run Args Backend) : Prop :=
  st_disk (r_store r) = d ∧ is_Some (active_tracker (r_store r)) →
  st_disk (r_store r') = d ∧ is_Some (active_tracker (r_store r')).

(** [s] consists of line feeds. *)
Fixpoint only_line_feeds (s : string) : bool :=
  match s with
  | EmptyString => true
  | String a s' => bool_decide (a = "010"%char) && only_line_feeds s'
  end.

(** The loop that [Re.run] makes for a repetition, on its own: [step] is
    the matcher of the repeated expression. *)
Definition star_loop {R} (greedy : bool)
    (step : string → Re.caps → (string → Re.caps → option R) → option R)
    (k : string → Re.caps → option R) : nat → string → Re.caps → option R :=
  fix loop (fuel : nat) (s : string) (c : Re.caps) : option R :=
    match fuel with
    | O => k s c
    | S fuel' =>
        let more :=
          step s c (fun s' c' =>
            if (String.length s' <? String.length s)%nat
            then loop fuel' s' c' else None) in
        if greedy then Re.orelse more (k s c) else Re.orelse (k s c) more
    end.

(** A backend whose answers ask for no tool but those with [asked]
    names. *)
Definition asks_only {Backend : Type}
    (complete : request → Backend → (exc + completion) * Backend)
    (asked : string → Prop) : Prop :=
  ∀ rq b resp b' ch rest tq,
    complete rq b = (Return resp, b') →
    cp_choices resp = ch :: rest →
    tq ∈ ch_tool_calls ch →
    asked (tq_name tq).

(** A backend that answers every request with tool calls. *)
Definition always_calls {Backend : Type}
    (complete : request → Backend → (exc + completion) * Backend) : Prop :=
  ∀ rq b, ∃ resp b' ch rest,
    complete rq b = (Return resp, b')
    ∧ cp_choices resp = ch :: rest
    ∧ ch_finish_reason ch = "tool_calls"
    ∧ ch_tool_calls ch ≠ [].

(** Tools that keep their failures to themselves, as those of
    [file_manager.py] do with [except Exception]: called with arguments
    that do not fit they raise a [TypeError], and nothing else is raised. *)
Definition tools_contained {Args : Type}
    (TOOL_CALLABLES : string → option (Args → path → store → (exc + ToolResult) * store))
    : Prop :=
  ∀ name fn args ws st e st',
    TOOL_CALLABLES name = Some fn → fn args ws st = (Raise e, st') →
    exc_kind e = TypeError.

(* ===================================================================== *)
(** ** Concrete inputs used below *)
(* ===================================================================== *)

Definition nl : string := String "010" EmptyString.

Definition cr : string := String "013" EmptyString.

(** The plan text of the specification's example. *)
Definition sample_plan_text : string :=
  "BUILD PLAN: Foo" +:+ nl +:+ "TARGET DIR: ." +:+ nl +:+ "STACK: Go" +:+ nl
  +:+ "[coder] C1: do X" +:+ nl +:+ "[debug] D1: fix".

(** A text whose task line stands before the plan header, with line
    feeds alone after the header: it has no name, target or stack. *)
Definition bare_plan_text : string :=
  "[coder] C1: do X" +:+ nl +:+ "BUILD PLAN:" +:+ nl +:+ nl.

(** A text whose header has a line of its own, and a task after it. *)
Definition header_alone_text : string := "BUILD PLAN:" +:+ nl +:+ "[coder] C1: do X".

(** A text with a header, a name and a task, and no stack line. *)
Definition stackless_plan_text : string :=
  "BUILD PLAN: Foo" +:+ nl +:+ "TARGET DIR: ." +:+ nl +:+ "[coder] C1: do X".

(** The default configuration after [cfg.set("chat_history_limit", 3)]. *)
Definition sample_config : config :=
  mkConfig "" "codestral-latest" 8192 ["home"; "ws"] true 3.

(** The components of a relative path written with slashes. *)
Fixpoint components (cur : string) (s : string) : list string :=
  match s with
  | EmptyString => if bool_decide (cur = "") then [] else [cur]
  | String a s' =>
      if bool_decide (a = "/"%char)
      then (if bool_decide (cur = "") then [] else [cur]) ++ components "" s'
      else components (cur +:+ String a EmptyString) s'
  end.

(** A [locate] for relative paths without dots and links, the [join]
    for them, which is the same, and [repr] for texts of letters, digits
    and blanks. *)
Definition sample_locate (ws : path) (rel : string) : path := ws ++ components "" rel.

Definition sample_join (ws : path) (rel : string) : path := ws ++ components "" rel.

Definition sample_repr (s : string) : string := "'" +:+ s +:+ "'".

(** A tracker that is intercepting, with nothing staged yet. *)
Definition sample_tracker : DiffTracker :=
  DiffTracker_start (DiffTracker_init ["ws"]) "coder" "task".

(** A workspace with one file, and the tracker registered. *)
Definition sample_store : store :=
  mkStore {[ ["ws"; "a.txt"] := File "hello world" ]} (Some sample_tracker).

(** The same with a file of two lines that are ended by CR LF. *)
Definition dos_store : store :=
  mkStore {[ ["ws"; "a.txt"] := File ("one" +:+ cr +:+ nl +:+ "two" +:+ cr +:+ nl) ]}
    (Some sample_tracker).

(** Two new files proposed in one diff set. *)
Definition diff_a : FileDiff := mkFileDiff "a.txt" "" "A" true false.
Definition diff_b : FileDiff := mkFileDiff "b.txt" "" "B" true false.
Definition sample_diffset : DiffSet := mkDiffSet [diff_a; diff_b] "coder" "task".

(** An agent that may write files, and a process with an API key that
    works in [/home/ws]. *)
Definition sample_agent : BaseAgent :=
  mkAgent "coder" "Implementation" "*" "#00f5ff" "You write code." 8192 ["file_write"].

Definition sample_zen (api_key : string) (plan : option BuildPlan) : zen nat :=
  mkZen (mkConfig api_key "codestral-latest" 8192 ["home"; "ws"] false 60)
    false [] plan "" 0%nat (mkStore ∅ None).

(** A backend that is out of reach, one that asks for a file write on
    every request, and a stream without text.  The state of a backend
    counts the calls it has received. *)
Definition unreachable (rq : request) (b : nat) : (exc + completion) * nat :=
  (Raise (Exc OSError "connection refused"), S b).

Definition insistent (rq : request) (b : nat) : (exc + completion) * nat :=
  (Return (mkCompletion [mkChoice "tool_calls" "" [mkToolRequest "call" "file_write" "{}"]] 1 1),
   S b).

Definition silent (rq : request) (b : nat) : (list string * option exc) * nat :=
  (([], None), b).

(** A tool table with [file_write] alone, called with fixed arguments. *)
Definition sample_tools (name : string)
    : option (unit → path → store → (exc + ToolResult) * store) :=
  if bool_decide (name = "file_write") then
    Some (λ _ ws st,
            let out := file_write sample_locate sample_join ws "notes.txt" "x" "write" st in
            (Return out.1, out.2))
  else None.

(** A plan for the subdirectory [app] with one task. *)
Definition sample_plan : BuildPlan :=
  mkBuildPlan "Foo" "app" "Go" [mkBuildTask "coder" "C1" "do X"].

(** [_run_agent] and [execute_build] over these. *)
Definition sample_run (complete : request → nat → (exc + completion) * nat) : ran unit nat :=
  _run_agent tt (λ _, Some tt) (λ _, "{}") complete silent sample_tools
    sample_agent "do X" [] "" false None (sample_zen "key" None).

Definition sample_build (api_key : string) : built unit nat :=
  execute_build sample_locate tt (λ _, Some tt) (λ _, "{}") (λ _, "notes.txt")
    insistent silent sample_tools (λ _, Some sample_agent) sample_agent (λ _ _, "")
    "build Foo" None (sample_zen api_key (Some sample_plan)).

(** The workspace of [sample_store] with no tracker registered. *)
Definition plain_store : store :=
  mkStore {[ ["ws"; "a.txt"] := File "hello world" ]} None.

(** A process with an API key whose memory holds one earlier message. *)
Definition chatty_zen : zen nat :=
  mkZen (mkConfig "key" "codestral-latest" 8192 ["home"; "ws"] false 2)
    false [Msg "user" "earlier"] None "" 0%nat (mkStore ∅ None).

(** A backend that answers with a final text, and a stream that
    delivers it in two parts. *)
Definition talkative (rq : request) (b : nat) : (exc + completion) * nat :=
  (Return (mkCompletion [mkChoice "stop" "Hello" []] 1 1), S b).

Definition two_parts (rq : request) (b : nat) : (list string * option exc) * nat :=
  ((["Hel"; "lo"], None), b).

(** The same workspace with its directory on the disk. *)
Definition rooted_store : store :=
  mkStore (<[ ["ws"] := Dir ]> {[ ["ws"; "a.txt"] := File "hello world" ]}) None.

(** A chat turn, a tracked agent run against the insistent backend, and
    the execution of two tool calls, the second for an unknown tool. *)
Definition sample_chat : ran unit nat :=
  chat_stream tt (λ _, Some tt) (λ _, "{}") talkative two_parts sample_tools (λ _ _, "")
    sample_agent "hi" chatty_zen.

Definition tracked_sample_run : ran unit nat :=
  _run_agent tt (λ _, Some tt) (λ _, "{}") insistent silent sample_tools
    sample_agent "do X" [] "" true None (sample_zen "key" None).

Definition two_requests : list tool_request :=
  [mkToolRequest "1" "file_write" "{}"; mkToolRequest "2" "nope" "{}"].

Definition fresh_run : run unit nat := mkRun [] [] 0 0 "" [] [] 0%nat plain_store.

(** Planning and building against a backend that only says "Hello". *)
Definition sample_direct_build : built unit nat :=
  direct_build sample_locate tt (λ _, Some tt) (λ _, "{}") (λ _, "notes.txt")
    talkative two_parts sample_tools (λ _, Some sample_agent) sample_agent (λ _ _, "")
    sample_agent "a tool" None (sample_zen "key" None).

(** The same workspace with a file of two lines ended by CR LF. *)
Definition dos_rooted_store : store :=
  mkStore (<[ ["ws"] := Dir ]>
             {[ ["ws"; "a.txt"] := File ("one" +:+ cr +:+ nl +:+ "two" +:+ cr +:+ nl) ]}) None.

(** A tool table with [file_write] and [file_delete], called with fixed
    arguments, a backend that asks for the deletion on every request,
    and a tracked agent run over the workspace of [rooted_store]. *)
Definition file_tools (name : string)
    : option (unit → path → store → (exc + ToolResult) * store) :=
  if bool_decide (name = "file_write") then
    Some (λ _ ws st,
            let out := file_write sample_locate sample_join ws "notes.txt" "x" "write" st in
            (Return out.1, out.2))
  else if bool_decide (name = "file_delete") then
    Some (λ _ ws st,
            let out := file_delete sample_locate ws "a.txt" st in
            (Return out.1, out.2))
  else None.

Definition destructive (rq : request) (b : nat) : (exc + completion) * nat :=
  (Return (mkCompletion [mkChoice "tool_calls" "" [mkToolRequest "call" "file_delete" "{}"]] 1 1),
   S b).

Definition rooted_zen : zen nat :=
  mkZen (mkConfig "key" "codestral-latest" 8192 ["ws"] false 60)
    false [] None "" 0%nat rooted_store.

Definition file_agent : BaseAgent :=
  mkAgent "coder" "Implementation" "*" "#00f5ff" "You write code." 8192
    ["file_write"; "file_delete"].

Definition tracked_file_run (complete : request → nat → (exc + completion) * nat)
    : ran unit nat :=
  _run_agent tt (λ _, Some tt) (λ _, "{}") complete silent file_tools
    file_agent "do X" [] "" true None rooted_zen.

(* end of the concrete inputs *)

(* ===================================================================== *)
(** * Properties *)
(* ===================================================================== *)

(** ** Build-plan parser *)

(** C4: on the example text the parser returns the plan named "Foo" with
    target directory "." and stack "Go", whose tasks are, in this order,
    coder C1 "do X" and debug D1 "fix". *)
Theorem parse_sample_plan :
  Plan.parse_build_plan sample_plan_text =
  Some (mkBuildPlan "Foo" "." "Go"
          [mkBuildTask "coder" "C1" "do X"; mkBuildTask "debug" "D1" "fix"]).
Proof. vm_compute. reflexivity. Qed.

(** A literal is matched exactly when the text starts with it. *)
Lemma run_Lit {R} (l s : string) (c : Re.caps) (k : string → Re.caps → option R) :
  Re.run (Re.Lit l) s c k =
  if Py.startswith l s then k (Py.drop (String.length l) s) c else None.
Proof.
  revert s; induction l as [|a l IH]; intros s; simpl.
  - by destruct s.
  - destruct s as [|b s]; simpl; [done|].
    unfold Re.is_char. destruct (decide (a = b)) as [->|Hne].
    + rewrite bool_decide_eq_true_2 by done. apply IH.
    + rewrite bool_decide_eq_false_2; [done|]. by intros ->.
Qed.

Lemma contains_false_inv (l : string) (a : ascii) (s : string) :
  Py.contains l (String a s) = false →
  Py.startswith l (String a s) = false ∧ Py.contains l s = false.
Proof. simpl. intros H. by apply orb_false_iff in H. Qed.

Lemma contains_false_startswith (l s : string) :
  Py.contains l s = false → Py.startswith l s = false.
Proof.
  destruct s as [|a s]; simpl; intros H; apply orb_false_iff in H; tauto.
Qed.

(** A labelled line is found only in a text that holds the label. *)
Lemma search_labelled_None (label text : string) :
  Py.contains label text = false → Re.search (Plan.labelled label) text = None.
Proof.
  induction text as [|a text IH]; intros H.
  - pose proof (contains_false_startswith _ _ H) as Hs.
    simpl. unfold Re.match_at, Plan.labelled. simpl Re.run at 1.
    rewrite run_Lit, Hs. done.
  - destruct (contains_false_inv _ _ _ H) as [Hs Ht].
    cbn [Re.search]. unfold Re.match_at, Plan.labelled. simpl Re.run at 1.
    rewrite run_Lit, Hs. by apply IH.
Qed.

Lemma app_cons (a : ascii) (s t : string) : String a s +:+ t = String a (s +:+ t).
Proof. reflexivity. Qed.

Lemma only_line_feeds_inv (s : string) :
  only_line_feeds s = true →
  s = "" ∨ ∃ s', s = String "010" s' ∧ only_line_feeds s' = true.
Proof.
  destruct s as [|a s]; [by left|]. simpl. intros [Ha Hs]%andb_true_iff.
  apply bool_decide_eq_true in Ha as ->. right. by eexists.
Qed.

Lemma only_line_feeds_drop (n : nat) : ∀ s,
  only_line_feeds s = true → only_line_feeds (Py.drop n s) = true.
Proof.
  induction n as [|n IH]; intros s Hs; [by destruct s|].
  destruct (only_line_feeds_inv s Hs) as [->|(s' & -> & Hs')]; [done|].
  by apply IH.
Qed.

Lemma run_Star {R} (greedy : bool) (r : Re.regex) (s : string) (c : Re.caps)
    (k : string → Re.caps → option R) :
  Re.run (Re.Star greedy r) s c k = star_loop greedy (Re.run r) k (String.length s) s c.
Proof. reflexivity. Qed.

Lemma run_Chr {R} (p : ascii → bool) (a : ascii) (s : string) (c : Re.caps)
    (k : string → Re.caps → option R) :
  Re.run (Re.Chr p) (String a s) c k = if p a then k s c else None.
Proof. reflexivity. Qed.

(** [(.+?)] needs a character that is not a line feed. *)
Lemma name_needs_a_character {R} (k : string → Re.caps → option R) (s : string)
    (c : Re.caps) :
  only_line_feeds s = true →
  Re.run (Re.Seq (Re.Group 1 (Re.Plus false (Re.Chr Re.dot))) Plan.eol) s c k = None.
Proof.
  intros Hs. destruct (only_line_feeds_inv s Hs) as [->|(s' & -> & _)]; reflexivity.
Qed.

(** [\s*(.+?)(?:\n|$)] finds nothing in line feeds, however many of
    them [\s*] gives back. *)
Lemma run_blank_then_name {R} (k : string → Re.caps → option R) (s : string)
    (c : Re.caps) :
  only_line_feeds s = true →
  Re.run (Re.Seq (Re.Star true (Re.Chr Py.is_space))
            (Re.Seq (Re.Group 1 (Re.Plus false (Re.Chr Re.dot))) Plan.eol)) s c k = None.
Proof.
  intros Hs.
  change (Re.run (Re.Star true (Re.Chr Py.is_space)) s c
            (λ s' c', Re.run (Re.Seq (Re.Group 1 (Re.Plus false (Re.Chr Re.dot))) Plan.eol)
                        s' c' k) = None).
  rewrite run_Star. generalize (String.length s) as fuel. intros fuel.
  revert s c Hs. induction fuel as [|fuel IH]; intros s c Hs.
  - by apply name_needs_a_character.
  - cbn [star_loop]. rewrite (name_needs_a_character k s c Hs).
    destruct (only_line_feeds_inv s Hs) as [->|(s' & -> & Hs')]; [reflexivity|].
    rewrite run_Chr. destruct (Py.is_space "010"); [|reflexivity].
    destruct (_ <? _)%nat; [|reflexivity].
    by rewrite (IH s' c Hs').
Qed.

Lemma match_at_labelled (label s : string) :
  Re.match_at (Plan.labelled label) s =
  if Py.startswith label s
  then Re.run (Re.Seq (Re.Star true (Re.Chr Py.is_space))
                 (Re.Seq (Re.Group 1 (Re.Plus false (Re.Chr Re.dot))) Plan.eol))
         (Py.drop (String.length label) s) ∅ (λ s' c, Some (Re.MObj s s' c))
  else None.
Proof. unfold Re.match_at, Plan.labelled. simpl Re.run at 1. by rewrite run_Lit. Qed.

(** A text of line feeds holds no labelled line. *)
Lemma search_line_feeds (label s : string) :
  only_line_feeds s = true → Re.search (Plan.labelled label) s = None.
Proof.
  induction s as [|b s IH]; intros Hs.
  - cbn [Re.search]. rewrite match_at_labelled.
    destruct (Py.startswith label ""); [|done].
    by rewrite run_blank_then_name by (by apply only_line_feeds_drop).
  - cbn [Re.search]. rewrite match_at_labelled.
    assert (Hs' : only_line_feeds s = true).
    { by destruct (only_line_feeds_inv _ Hs) as [?|(s' & [= -> ->] & Hs')]. }
    destruct (Py.startswith label _); [|by apply IH].
    rewrite run_blank_then_name by (by apply only_line_feeds_drop). by apply IH.
Qed.

(** No occurrence of the header begins in a text without the header
    that the header follows. *)
Lemma header_not_astride (p rest : string) :
  p ≠ "" → Py.startswith "BUILD PLAN:" p = false →
  Py.startswith "BUILD PLAN:" (p +:+ "BUILD PLAN:" +:+ rest) = false.
Proof.
  intros Hp H.
  destruct p as [|a p]; [done|]. clear Hp.
  rewrite app_cons. cbn [Py.startswith] in *.
  destruct (decide _) as [<-|]; [|done].
  do 10 (destruct p as [|a p]; [reflexivity|];
         rewrite app_cons; cbn [Py.startswith] in *;
         destruct (decide _) as [<-|]; [|done]).
  done.
Qed.

Lemma search_header_alone (rest : string) :
  only_line_feeds rest = true →
  Re.search Plan.name_re ("BUILD PLAN:" +:+ rest) = None.
Proof.
  intros Hrest. unfold Plan.name_re.
  change ("BUILD PLAN:" +:+ rest)
    with (String "B" (String "U" (String "I" (String "L" (String "D" (String " "
           (String "P" (String "L" (String "A" (String "N" (String ":" rest))))))))))).
  cbn [Re.search]. rewrite !match_at_labelled. cbn [Py.startswith Py.drop String.length].
  repeat (destruct (decide _) as [?|?]; [try done|try done]).
  rewrite run_blank_then_name by done. by apply search_line_feeds.
Qed.

(** The name pattern finds nothing in a text whose one header is
    followed by line feeds alone. *)
Lemma search_name_None (pre rest : string) :
  Py.contains "BUILD PLAN:" pre = false → only_line_feeds rest = true →
  Re.search Plan.name_re (pre +:+ "BUILD PLAN:" +:+ rest) = None.
Proof.
  intros Hpre Hrest. induction pre as [|a pre IH].
  - by apply search_header_alone.
  - destruct (contains_false_inv _ _ _ Hpre) as [Hs Ht].
    pose proof (header_not_astride (String a pre) rest ltac:(done) Hs) as Hno.
    rewrite app_cons in *. cbn [Re.search]. unfold Plan.name_re at 1.
    rewrite match_at_labelled, Hno. by apply IH.
Qed.

(** C5, as the code has it: a text with a plan header and at least one
    task of a registered agent is parsed to a plan with these tasks.
    The name is "project" when the text is some text without the
    header, then the header, then line feeds alone up to the end: the
    tasks then stand before the header, and the name pattern, whose
    [\s*] runs over line ends, finds nothing to read.  The target is
    "." when the text does not hold the label "TARGET DIR:", and the
    stack is "Python" when it does not hold the label "STACK:". *)
Theorem parse_build_plan_fallbacks (text : string) :
  Py.contains "BUILD PLAN:" text = true →
  Plan.extract_tasks text ≠ [] →
  ∃ plan,
    Plan.parse_build_plan text = Some plan
    ∧ bp_tasks plan = Plan.extract_tasks text
    ∧ (∀ pre rest,
         text = pre +:+ "BUILD PLAN:" +:+ rest →
         Py.contains "BUILD PLAN:" pre = false →
         only_line_feeds rest = true →
         bp_name plan = "project")
    ∧ (Py.contains "TARGET DIR:" text = false → bp_target_dir plan = ".")
    ∧ (Py.contains "STACK:" text = false → bp_stack plan = "Python").
Proof.
  intros Hhead Htasks. unfold Plan.parse_build_plan. rewrite Hhead. cbn [negb].
  destruct (Plan.extract_tasks text) as [|t ts] eqn:E; [done|].
  eexists; split; [reflexivity|]. cbn [bp_tasks bp_name bp_target_dir bp_stack].
  split; [done|]. split; [|split].
  - intros pre rest -> Hpre Hrest. by rewrite search_name_None.
  - intros H. unfold Plan.target_re. by rewrite search_labelled_None.
  - intros H. unfold Plan.stack_re. by rewrite search_labelled_None.
Qed.

Lemma parse_build_plan_fallbacks_witness :
  ∃ plan,
    Plan.parse_build_plan bare_plan_text = Some plan
    ∧ bp_tasks plan = [mkBuildTask "coder" "C1" "do X"]
    ∧ bp_name plan = "project"
    ∧ bp_target_dir plan = "."
    ∧ bp_stack plan = "Python".
Proof.
  destruct (parse_build_plan_fallbacks bare_plan_text) as (plan & Hp & Ht & Hn & Hd & Hs).
  - vm_compute. reflexivity.
  - vm_compute. discriminate.
  - exists plan. split; [exact Hp|]. split; [exact Ht|]. split; [|split].
    + apply (Hn ("[coder] C1: do X" +:+ nl) (nl +:+ nl)); reflexivity.
    + apply Hd. reflexivity.
    + apply Hs. reflexivity.
Defined.

(** A header with a line of its own does not lack a name for the
    parser: [\s*] runs over the line feed, and the name is the next
    line, here the task line. *)
Example parse_build_plan_header_alone :
  Plan.parse_build_plan header_alone_text
  = Some (mkBuildPlan "[coder] C1: do X" "." "Python" [mkBuildTask "coder" "C1" "do X"]).
Proof. vm_compute. reflexivity. Qed.

(** C5 as the specification words it fails: a plan without a stack line
    gets the stack "Python", not "unspecified". *)
Lemma parse_build_plan_stack_counterexample :
  Py.contains "BUILD PLAN:" stackless_plan_text = true
  ∧ Plan.extract_tasks stackless_plan_text ≠ []
  ∧ Py.contains "STACK:" stackless_plan_text = false
  ∧ ∃ plan, Plan.parse_build_plan stackless_plan_text = Some plan
            ∧ bp_stack plan ≠ "unspecified".
Proof.
  split; [by vm_compute|]. split; [by vm_compute|]. split; [by vm_compute|].
  eexists; split; [vm_compute; reflexivity|]. by vm_compute.
Qed.

(** ** Conversation memory *)

(** Every configuration that [cfg.set] lets through has a history limit
    within the range of [_RULES]. *)
Lemma configured_limit_range (c : config) :
  configured c →
  chat_history_limit_min ≤ cfg_chat_history_limit c ≤ chat_history_limit_max.
Proof.
  unfold chat_history_limit_min, chat_history_limit_max.
  induction 1 as [cwd|c key _ IH|c value _ IH|c v c' _ IH Hset|c ws _ IH];
    simpl in *; [lia|done|done| |done].
  unfold set_chat_history_limit, _validate in Hset.
  unfold chat_history_limit_min, chat_history_limit_max in Hset.
  destruct (v <? 1) eqn:E1; [done|].
  destruct (200 <? v) eqn:E2; [done|].
  injection Hset as <-. simpl. lia.
Qed.

Lemma Memory_adds_snoc (c : config) (calls : list (string * string)) (rc : string * string) :
  Memory_adds c (calls ++ [rc]) = Memory_add c rc.1 rc.2 (Memory_adds c calls).
Proof. unfold Memory_adds. by rewrite foldl_app. Qed.

(** With a limit of at least one, the memory holds the last [limit]
    messages that were added. *)
Lemma Memory_adds_window (c : config) (calls : list (string * string)) :
  1 ≤ cfg_chat_history_limit c →
  Memory_adds c calls =
  drop (length calls - Z.to_nat (cfg_chat_history_limit c)) (added calls).
Proof.
  intros Hlim. set (L := Z.to_nat (cfg_chat_history_limit c)).
  assert (HL : cfg_chat_history_limit c = Z.of_nat L) by (unfold L; lia).
  assert (1 ≤ L)%nat by lia.
  induction calls as [|rc calls IH] using rev_ind; [done|].
  rewrite Memory_adds_snoc, IH. unfold Memory_add, added.
  rewrite fmap_app. simpl. fold (added calls).
  set (old := drop (length calls - L) (added calls)).
  assert (Hlen : length old = (length calls - (length calls - L))%nat).
  { unfold old. rewrite length_drop. unfold added. by rewrite length_fmap. }
  rewrite length_app. simpl.
  destruct (cfg_chat_history_limit c <? Z.of_nat (length old + 1)) eqn:E.
  - apply Z.ltb_lt in E.
    assert (L ≤ length calls)%nat by lia.
    unfold slice_from. rewrite length_app. simpl.
    replace (- cfg_chat_history_limit c <? 0) with true by (symmetry; apply Z.ltb_lt; lia).
    replace (Z.to_nat (Z.max (- cfg_chat_history_limit c + Z.of_nat (length old + 1)) 0))
      with 1%nat by lia.
    rewrite length_app. simpl.
    replace (length calls + 1 - L)%nat with (length calls - L + 1)%nat by lia.
    unfold old.
    rewrite <- (drop_drop (added calls ++ [Msg rc.1 rc.2]) 1 (length calls - L)).
    f_equal. rewrite drop_app_le; [done|].
    unfold added. rewrite length_fmap. lia.
  - apply Z.ltb_ge in E.
    rewrite length_app. simpl.
    replace (length calls + 1 - L)%nat with 0%nat by lia.
    unfold old. replace (length calls - L)%nat with 0%nat by lia. done.
Qed.

(** C6: for every history limit that the configuration accepts and every
    sequence of [Memory.add] calls, the memory never holds more messages
    than the limit, and what it holds is the most recent messages, oldest
    dropped first, in the order in which they were added. *)
Theorem Memory_bounded_fifo (c : config) (calls : list (string * string)) :
  configured c →
  let stored := Memory_adds c calls in
  let limit := cfg_chat_history_limit c in
  Z.of_nat (length stored) ≤ limit
  ∧ Z.of_nat (length stored) = Z.min (Z.of_nat (length calls)) limit
  ∧ stored = drop (length calls - Z.to_nat limit) (added calls).
Proof.
  intros Hc stored limit.
  pose proof (configured_limit_range c Hc) as [Hlo _].
  unfold chat_history_limit_min in Hlo.
  assert (Hw : stored = drop (length calls - Z.to_nat limit) (added calls))
    by (apply Memory_adds_window; lia).
  assert (Hn : length stored = (length calls - (length calls - Z.to_nat limit))%nat).
  { rewrite Hw, length_drop. unfold added. by rewrite length_fmap. }
  repeat split; [lia|lia|done].
Qed.

Lemma Memory_bounded_fifo_witness :
  let c := sample_config in
  let calls := [("user", "a"); ("assistant", "b"); ("user", "c"); ("assistant", "d")] in
  Z.of_nat (length (Memory_adds c calls)) ≤ cfg_chat_history_limit c
  ∧ Z.of_nat (length (Memory_adds c calls))
    = Z.min (Z.of_nat (length calls)) (cfg_chat_history_limit c)
  ∧ Memory_adds c calls
    = drop (length calls - Z.to_nat (cfg_chat_history_limit c)) (added calls).
Proof.
  apply (Memory_bounded_fifo sample_config).
  apply (configured_limit (DEFAULT_CONFIG ["home"; "ws"]) 3); [constructor|reflexivity].
Defined.

(** The bound on the memory rests on the validation in [cfg.set]: with a
    limit of zero, which only a hand-edited configuration file can hold,
    [self._msgs[-0:]] is the whole list and nothing is evicted. *)
Example Memory_add_limit_zero :
  Memory_add (mkConfig "" "codestral-latest" 8192 [] true 0) "user" "b" [Msg "user" "a"]
  = [Msg "user" "a"; Msg "user" "b"].
Proof. reflexivity. Qed.

(** ** The disk *)

Lemma parent_length (p : path) : p ≠ [] → (length (Fs.parent p) < length p)%nat.
Proof.
  intros Hp. unfold Fs.parent.
  destruct (exists_last Hp) as (q & x & ->).
  rewrite removelast_last, length_app. simpl. lia.
Qed.

Lemma prefix_same_length (q1 q2 l : path) :
  q1 `prefix_of` l → q2 `prefix_of` l → length q1 = length q2 → q1 = q2.
Proof.
  intros H1 H2 Hlen.
  destruct (prefix_weak_total _ _ _ H1 H2) as [H|H].
  - apply prefix_length_eq; [done|lia].
  - symmetry. apply prefix_length_eq; [done|lia].
Qed.

(** [mkdir(parents=True, exist_ok=True)] succeeds when no regular file is
    in the way; afterwards every location on the way is a directory and
    nothing else has changed. *)
Lemma mkdir_from_spec (rest : list string) : ∀ (base : path) (d : disk),
  (∀ q content, on_the_way base rest q → d !! q ≠ Some (File content)) →
  ∃ d', Fs.mkdir_from base rest d = Return d'
        ∧ (∀ q, on_the_way base rest q → d' !! q = Some Dir)
        ∧ (∀ q, ¬ on_the_way base rest q → d' !! q = d !! q).
Proof.
  induction rest as [|x rest IH]; intros base d Hfree.
  - exists d. split; [done|]. split; [|done].
    intros q [Hq Hlen]. rewrite app_nil_r in Hq.
    apply prefix_length in Hq. lia.
  - cbn [Fs.mkdir_from]. set (q0 := base ++ [x]).
    assert (Hq0 : on_the_way base (x :: rest) q0).
    { split; [|unfold q0; rewrite length_app; simpl; lia].
      unfold q0. apply prefix_app, prefix_cons, prefix_nil. }
    assert (Hsplit : ∀ q, on_the_way base (x :: rest) q ↔ q = q0 ∨ on_the_way q0 rest q).
    { intros q. unfold on_the_way, q0.
      rewrite <- (assoc_L (++)). simpl. split.
      - intros [Hq Hlen].
        destruct (decide (length q = length (base ++ [x]))) as [He|Hne].
        + left. apply (prefix_same_length _ _ (base ++ x :: rest)); [done| |done].
          apply prefix_app, prefix_cons, prefix_nil.
        + right. split; [done|]. rewrite length_app in *. simpl in *. lia.
      - intros [->|[Hq Hlen]].
        + split; [apply prefix_app, prefix_cons, prefix_nil|].
          rewrite length_app. simpl. lia.
        + split; [done|]. rewrite length_app in Hlen. simpl in Hlen. lia. }
    assert (Hnot : ¬ on_the_way q0 rest q0).
    { intros [_ Hlen]. lia. }
    destruct (d !! q0) as [[content|]|] eqn:E.
    + exfalso. by apply (Hfree q0 content).
    + destruct (IH q0 d) as (d' & Hrun & Hdirs & Hsame).
      { intros q content Hq. apply Hfree, Hsplit. by right. }
      exists d'. split; [done|]. split.
      * intros q [->|Hq]%Hsplit; [by rewrite Hsame|by apply Hdirs].
      * intros q Hq. apply Hsame. intros Hq'. apply Hq, Hsplit. by right.
    + destruct (IH q0 (<[q0 := Dir]> d)) as (d' & Hrun & Hdirs & Hsame).
      { intros q content Hq. rewrite lookup_insert_ne.
        - apply Hfree, Hsplit. by right.
        - intros <-. by apply Hnot. }
      exists d'. split; [done|]. split.
      * intros q [->|Hq]%Hsplit; [|by apply Hdirs].
        rewrite Hsame by done. apply lookup_insert_eq.
      * intros q Hq. rewrite Hsame.
        -- apply lookup_insert_ne. intros <-. apply Hq, Hsplit. by left.
        -- intros Hq'. apply Hq, Hsplit. by right.
Qed.

Section DiffStaging.

Variable locate : path → string → path.
Variable join : path → string → path.
Variable repr : string → string.

(** ** Applying an accepted diff *)

(** C3: accepting a diff that is not a deletion succeeds wherever a file
    can be written (the target is not a directory and no regular file
    stands where a parent directory is needed): afterwards the file holds
    exactly [new_content], every parent directory exists, and nothing
    else on the disk has changed.  Accepting a deletion diff removes the
    file when it is there and returns without any change when the path
    is absent. *)
Theorem apply_diff_effect (diff : FileDiff) (workspace : path) (d : disk) :
  let target := join workspace (fd_path diff) in
  (fd_is_delete diff = false →
   Fs.is_dir d target = false →
   (∀ q content, q ≠ [] → q `prefix_of` Fs.parent target → d !! q ≠ Some (File content)) →
   ∃ d', _apply_diff join diff workspace d = Return d'
         ∧ d' !! target = Some (File (fd_new_content diff))
         ∧ (∀ q, q ≠ [] → q `prefix_of` Fs.parent target → d' !! q = Some Dir)
         ∧ (∀ q, q ≠ target → ¬ q `prefix_of` Fs.parent target → d' !! q = d !! q))
  ∧ (fd_is_delete diff = true →
     (∀ content, d !! target = Some (File content) →
        _apply_diff join diff workspace d = Return (delete target d)
        ∧ delete target d !! target = None)
     ∧ (Fs.exists_ d target = false →
        _apply_diff join diff workspace d = Return d)).
Proof.
  intros target. split.
  - intros Hdel Hnodir Hfree. unfold _apply_diff. fold target. rewrite Hdel.
    unfold Fs.is_dir in Hnodir. apply orb_false_iff in Hnodir as [Hroot Htdir].
    apply bool_decide_eq_false in Hroot, Htdir.
    pose proof (parent_length target Hroot) as Hlen.
    assert (Hway : ∀ q, on_the_way [] (Fs.parent target) q
                        ↔ q ≠ [] ∧ q `prefix_of` Fs.parent target).
    { intros q. unfold on_the_way. simpl. split.
      - intros [Hq Hl]. split; [|done]. intros ->. simpl in Hl. lia.
      - intros [Hq Hp]. split; [done|]. destruct q; [done|simpl; lia]. }
    destruct (mkdir_from_spec (Fs.parent target) [] d) as (d1 & Hrun & Hdirs & Hsame).
    { intros q content [Hq Hp]%Hway. by apply Hfree. }
    unfold Fs.mkdir_parents. rewrite Hrun.
    assert (Htarget : ¬ on_the_way [] (Fs.parent target) target).
    { intros [Hp _]. simpl in Hp. apply prefix_length in Hp. lia. }
    unfold Fs.write_text, Fs.writable, Fs.is_dir.
    rewrite (bool_decide_eq_false_2 (target = [])) by done.
    rewrite (Hsame target Htarget).
    rewrite (bool_decide_eq_false_2 (d !! target = Some Dir)) by done.
    cbn [orb].
    assert (Hpar : bool_decide (Fs.parent target = [])
                   || bool_decide (d1 !! Fs.parent target = Some Dir) = true).
    { destruct (decide (Fs.parent target = [])) as [->|Hne]; [done|].
      rewrite (bool_decide_eq_true_2 (d1 !! _ = Some Dir)); [apply orb_true_r|].
      apply Hdirs, Hway. done. }
    rewrite Hpar. eexists. split; [reflexivity|]. split; [apply lookup_insert_eq|]. split.
    + intros q Hq Hp. rewrite lookup_insert_ne.
      * apply Hdirs, Hway. done.
      * intros <-. apply prefix_length in Hp. lia.
    + intros q Hq Hp. rewrite lookup_insert_ne by done.
      apply Hsame. intros [_ Hp']%Hway. done.
  - intros Hdel. unfold _apply_diff. fold target. rewrite Hdel. split.
    + intros content Hfile. unfold Fs.exists_ at 1, Fs.unlink. rewrite Hfile.
      rewrite (bool_decide_eq_true_2 (is_Some _)) by done.
      rewrite orb_true_r. split; [done|apply lookup_delete_eq].
    + intros Habsent. by rewrite Habsent.
Qed.

(** ** Staging of writes and patches *)

Lemma active_tracker_inv (st : store) (t : DiffTracker) :
  active_tracker st = Some t → st_tracker st = Some t ∧ dt_active t = true.
Proof.
  unfold active_tracker. destruct (st_tracker st) as [t'|]; [|done].
  destruct (dt_active t') eqn:E; [|done]. by intros [= <-].
Qed.

(** What [intercept_write] records as old content is the decoded text
    of the file, and the empty string where there is no file to read. *)
Lemma old_content_decoded (d : disk) (p : path) :
  (if Fs.exists_ d p
   then match Fs.read_text d p with Return c => c | Raise _ => "" end
   else "") = Py.decode (text_at d p).
Proof.
  unfold text_at, Fs.exists_, Fs.read_text.
  destruct (d !! p) as [[c|]|] eqn:E.
  - rewrite (bool_decide_eq_true_2 (is_Some _)) by done. by rewrite orb_true_r.
  - rewrite (bool_decide_eq_true_2 (is_Some _)) by done. by rewrite orb_true_r.
  - rewrite (bool_decide_eq_false_2 (is_Some _)) by (by intros [? ?]).
    rewrite orb_false_r. by case_bool_decide.
Qed.

(** An intercepted write leaves the disk alone and queues one diff. *)
Lemma staged_spec (t : DiffTracker) (st : store) (path_ content mode : string) :
  dt_active t = true →
  staged_as t st (join (dt_workspace t) path_) path_
    (λ old, if bool_decide (mode = "append") then old +:+ content else content)
    (staged join t st path_ content mode).
Proof.
  intros Hact. unfold staged, intercept_write, staged_as.
  cbn [fst snd st_disk st_tracker tr_success tr_metadata tr_output].
  split; [done|]. split; [done|]. split; [by rewrite lookup_insert_ne, lookup_insert_eq|].
  split; [done|]. eexists. rewrite Hact. split; [reflexivity|].
  cbn [fd_path fd_old_content fd_is_new fd_new_content fd_is_delete].
  split; [done|]. split; [|done]. apply old_content_decoded.
Qed.

(** C10: a [file_patch] whose target does not exist, or whose target
    does not hold [old_str] in the text that is read from it (the bytes
    of the file decoded, with universal newlines), returns a failure and
    changes nothing: the disk and the tracker with its diff set are as
    before. *)
Theorem file_patch_failure_no_effect (ws : path) (path_ old_str new_str : string)
    (st : store) :
  Fs.exists_ (st_disk st) (locate ws path_) = false
  ∨ (∃ content, st_disk st !! locate ws path_ = Some (File content)
                ∧ Py.contains old_str (Py.decode content) = false) →
  ∃ r, file_patch locate join repr ws path_ old_str new_str st = (r, st)
       ∧ tr_success r = false.
Proof.
  unfold file_patch. intros [Habsent|(content & Hfile & Hnot)].
  - rewrite Habsent. by eexists.
  - unfold Fs.exists_, Fs.read_text. rewrite Hfile.
    rewrite (bool_decide_eq_true_2 (is_Some _)) by done.
    rewrite orb_true_r. cbn [negb]. rewrite Hnot. by eexists.
Qed.

(** C1, as the code has it: while a tracker is active, a [file_write],
    and a [file_patch] of a file whose text holds [old_str], leave the
    disk as it was, append one diff for the path to the tracker's diff
    set and return a success result marked as staged.  The texts are the
    files as they are read, that is decoded: the old content of the diff
    is the text read at the tracker's own target [workspace / path], the
    diff of a write proposes the content given (after that old content
    for an append), and the diff of a patch proposes the text read at
    the tool's resolved target with the first [old_str] replaced. *)
Theorem staging_write_patch (t : DiffTracker) (st : store) (ws : path)
    (path_ content mode old_str new_str : string) :
  active_tracker st = Some t →
  staged_as t st (join (dt_workspace t) path_) path_
    (λ old, if bool_decide (mode = "append") then old +:+ content else content)
    (file_write locate join ws path_ content mode st)
  ∧ (∀ current,
       st_disk st !! locate ws path_ = Some (File current) →
       Py.contains old_str (Py.decode current) = true →
       staged_as t st (join (dt_workspace t) path_) path_
         (λ _, Py.replace1 old_str new_str (Py.decode current))
         (file_patch locate join repr ws path_ old_str new_str st)).
Proof.
  intros Hactive. destruct (active_tracker_inv _ _ Hactive) as [Htr Hact]. split.
  - unfold file_write. rewrite Hactive. by apply staged_spec.
  - intros current Hfile Hin. unfold file_patch, Fs.exists_, Fs.read_text.
    rewrite Hfile. rewrite (bool_decide_eq_true_2 (is_Some _)) by done.
    rewrite orb_true_r. cbn [negb]. rewrite Hin. cbn [negb]. rewrite Hactive.
    apply (staged_spec t st path_ (Py.replace1 old_str new_str (Py.decode current))
             "write" Hact).
Qed.

End DiffStaging.

Lemma staging_write_patch_witness :
  staged_as sample_tracker dos_store ["ws"; "a.txt"] "a.txt"
    (λ old, old +:+ "!")
    (file_write sample_locate sample_join ["ws"] "a.txt" "!" "append" dos_store)
  ∧ staged_as sample_tracker dos_store ["ws"; "a.txt"] "a.txt"
      (λ _, "one and two" +:+ nl)
      (file_patch sample_locate sample_join sample_repr ["ws"] "a.txt"
         (nl +:+ "two") " and two" dos_store).
Proof.
  destruct (staging_write_patch sample_locate sample_join sample_repr sample_tracker
              dos_store ["ws"] "a.txt" "!" "append" (nl +:+ "two") " and two" eq_refl)
    as [Hwrite Hpatch].
  split; [exact Hwrite|].
  apply (Hpatch ("one" +:+ cr +:+ nl +:+ "two" +:+ cr +:+ nl)); reflexivity.
Defined.

(** C1 as the specification words it fails twice.  [file_delete] does
    not look at the tracker: with a tracker active the file is removed
    from the disk at once and no diff is queued.  And a [file_patch] of a
    file that is not there returns a failure, not a staged success. *)
Lemma staging_counterexample :
  active_tracker sample_store = Some sample_tracker
  ∧ st_disk sample_store !! ["ws"; "a.txt"] = Some (File "hello world")
  ∧ (let out := file_delete sample_locate ["ws"] "a.txt" sample_store in
     tr_success out.1 = true
     ∧ st_disk out.2 !! ["ws"; "a.txt"] = None
     ∧ st_tracker out.2 = Some sample_tracker)
  ∧ (let out := file_patch sample_locate sample_join sample_repr ["ws"] "missing.txt"
                  "x" "y" sample_store in
     tr_success out.1 = false
     ∧ out.2 = sample_store).
Proof. vm_compute. repeat split. Qed.

(** The text that is searched is the text as it is read: in a file
    whose lines end with CR LF, [old_str] with a line feed is found and
    [old_str] with CR LF is not. *)
Lemma file_patch_failure_no_effect_witness :
  ∃ r, file_patch sample_locate sample_join sample_repr ["ws"] "a.txt"
         (cr +:+ nl +:+ "two") "y" dos_store = (r, dos_store)
       ∧ tr_success r = false.
Proof.
  apply (file_patch_failure_no_effect sample_locate sample_join sample_repr).
  right. exists ("one" +:+ cr +:+ nl +:+ "two" +:+ cr +:+ nl). split; reflexivity.
Defined.

Lemma apply_diff_effect_witness :
  (∃ d', _apply_diff sample_join (mkFileDiff "src/lib/a.txt" "" "A" true false) ["ws"] ∅
         = Return d'
         ∧ d' !! ["ws"; "src"; "lib"; "a.txt"] = Some (File "A")
         ∧ (∀ q, q ≠ [] → q `prefix_of` ["ws"; "src"; "lib"] → d' !! q = Some Dir)
         ∧ (∀ q, q ≠ ["ws"; "src"; "lib"; "a.txt"] → ¬ q `prefix_of` ["ws"; "src"; "lib"] →
                 d' !! q = (∅ : disk) !! q))
  ∧ (_apply_diff sample_join (mkFileDiff "a.txt" "hello world" "" false true) ["ws"]
       (st_disk sample_store)
     = Return (delete ["ws"; "a.txt"] (st_disk sample_store)))
  ∧ (_apply_diff sample_join (mkFileDiff "gone.txt" "" "" false true) ["ws"]
       (st_disk sample_store)
     = Return (st_disk sample_store)).
Proof.
  split; [|split].
  - apply (proj1 (apply_diff_effect sample_join
                    (mkFileDiff "src/lib/a.txt" "" "A" true false) ["ws"] ∅)).
    + reflexivity.
    + reflexivity.
    + intros q content _ _. by rewrite lookup_empty.
  - apply (proj1 (proj2 (apply_diff_effect sample_join
                           (mkFileDiff "a.txt" "hello world" "" false true) ["ws"]
                           (st_disk sample_store)) eq_refl) "hello world").
    reflexivity.
  - apply (proj2 (proj2 (apply_diff_effect sample_join
                           (mkFileDiff "gone.txt" "" "" false true) ["ws"]
                           (st_disk sample_store)) eq_refl)).
    reflexivity.
Defined.

(** ** Interactive review *)

Section Review.

Variable join : path → string → path.

(** No answer makes the prompt loop return "accept all": the answer is
    put in lower case before it is looked at, and ["a"] is taken by the
    test for a single accept, which comes first. *)
Lemma ask_never_accept_all (path_ : string) (answers : list (option string)) :
  (ask path_ answers).1.1 ≠ VAcceptAll.
Proof.
  induction answers as [|x answers IH]; [done|]. cbn [ask].
  set (resp := match x with Some typed => Py.lower (Py.strip typed) | None => "s" end).
  destruct (ask path_ answers) as [[v remaining] out]. simpl in IH.
  destruct (bool_decide (resp = "?") || bool_decide (resp = "help")); [done|].
  destruct (bool_decide (resp = "d")); [done|].
  destruct (bool_decide (resp ∈ ["a"; "y"; "yes"; ""])) eqn:Ea; [done|].
  destruct (bool_decide (resp ∈ ["r"; "n"; "no"])); [done|].
  destruct (bool_decide (resp = "a")) eqn:Eall.
  - apply bool_decide_eq_true in Eall. apply bool_decide_eq_false in Ea.
    exfalso. apply Ea. rewrite Eall. apply list_elem_of_here.
  - by destruct (bool_decide (resp ∈ ["s"; "skip"])).
Qed.

(** Nothing that the prompt loop shows is an auto-accept line. *)
Lemma ask_console_quiet (path_ : string) (answers : list (option string)) (p : string) :
  SaidAutoAccepted p ∉ (ask path_ answers).2.
Proof.
  induction answers as [|x answers IH]; cbn [ask].
  - simpl. apply not_elem_of_cons. split; [done|apply not_elem_of_nil].
  - destruct (ask path_ answers) as [[v0 rem0] out0]. simpl in IH.
    repeat (match goal with
            | |- context [if ?b then _ else _] => destruct b
            end); simpl;
      repeat (apply not_elem_of_cons; split; [done|]);
      first [exact IH | apply not_elem_of_nil].
Qed.

(** So the flag [accept_all] stays off through the whole review, and
    every diff of the set is decided at its own prompt. *)
Lemma review_step_never_accepts_all (workspace : path) (n i : nat) (diff : FileDiff)
    (r r' : reviewing) :
  rv_accept_all r = false →
  review_step join workspace n i diff r = Return r' →
  rv_accept_all r' = false
  ∧ (∀ p, SaidAutoAccepted p ∈ rv_console r' → SaidAutoAccepted p ∈ rv_console r).
Proof.
  intros Hoff Hstep. unfold review_step in Hstep. rewrite Hoff in Hstep.
  pose proof (ask_never_accept_all (fd_path diff) (rv_answers r)) as Hask.
  pose proof (ask_console_quiet (fd_path diff) (rv_answers r)) as Hout.
  destruct (ask (fd_path diff) (rv_answers r)) as [[v remaining] out].
  simpl in Hask, Hout. unfold accept, reject in Hstep.
  assert (Hshown : ∀ p last, last ≠ SaidAutoAccepted p →
            SaidAutoAccepted p ∈ rv_console r
                                 ++ (Preview (fd_path diff) (S i) n :: out) ++ [last] →
            SaidAutoAccepted p ∈ rv_console r).
  { intros p last Hlast Hp.
    apply elem_of_app in Hp as [Hp|Hp]; [done|]. exfalso.
    apply elem_of_app in Hp as [Hp|Hp].
    - apply elem_of_cons in Hp as [Hp|Hp]; [done|]. by apply (Hout p).
    - apply list_elem_of_singleton in Hp. by apply Hlast. }
  destruct v; [| |done|].
  - destruct (_apply_diff join diff workspace (rv_disk r)); [done|].
    injection Hstep as <-. split; [done|]. simpl. intros p. by apply Hshown.
  - injection Hstep as <-. split; [done|]. simpl. intros p. by apply Hshown.
  - injection Hstep as <-. split; [done|]. simpl. intros p. by apply Hshown.
Qed.

Lemma review_loop_never_accepts_all (workspace : path) (n : nat)
    (diffs : list FileDiff) : ∀ (i : nat) (r r' : reviewing),
  rv_accept_all r = false →
  review_loop join workspace n i diffs r = Return r' →
  rv_accept_all r' = false
  ∧ (∀ p, SaidAutoAccepted p ∈ rv_console r' → SaidAutoAccepted p ∈ rv_console r).
Proof.
  induction diffs as [|diff diffs IH]; intros i r r' Hoff Hrun.
  - simpl in Hrun. by injection Hrun as <-.
  - cbn [review_loop] in Hrun.
    destruct (review_step join workspace n i diff r) as [e|r1] eqn:Hstep; [done|].
    destruct (review_step_never_accepts_all _ _ _ _ _ _ Hoff Hstep) as [Hoff1 Hcon1].
    destruct (IH (S i) r1 r' Hoff1 Hrun) as [Hoff' Hcon'].
    split; [done|]. intros p Hp. by apply Hcon1, Hcon'.
Qed.

End Review.

(** C2 on the code: the reviewer answers "A" at the first of two diffs.
    The first diff is accepted, and the second one is put to the
    reviewer all the same; answered with "r", it is rejected and is not
    written.  Nothing was accepted without a prompt. *)
Theorem review_accept_all_prompts_again :
  ∃ r, review sample_join false sample_diffset ["ws"] ∅ [Some "A"; Some "r"] = Return r
       ∧ rv_accepted r = [diff_a]
       ∧ rv_rejected r = [diff_b]
       ∧ rv_accept_all r = false
       ∧ rv_answers r = []
       ∧ rv_disk r !! ["ws"; "b.txt"] = None
       ∧ rv_console r
         = [Summary 2; Preview "a.txt" 1 2; Prompted; SaidAccepted;
            Preview "b.txt" 2 2; Prompted; SaidRejected].
Proof. eexists. vm_compute. repeat split. Qed.

(** ** The orchestrator loop *)

Section Orchestrator.

Variable locate : path → string → path.
Context {Args : Type}.
Variable empty_args : Args.
Variable json_loads : string → option Args.
Variable json_dumps : list (string * jval) → string.
Variable arg_path : Args → string.
Context {Backend : Type}.
Variable complete : request → Backend → (exc + completion) * Backend.
Variable stream : request → Backend → (list string * option exc) * Backend.
Variable TOOL_CALLABLES :
  string → option (Args → path → store → (exc + ToolResult) * store).
Variable agent_of : string → option BaseAgent.
Variable CoderAgent : BaseAgent.
Variable ws_context : path → disk → string.

Local Abbreviation one_call' := (one_call empty_args json_loads json_dumps TOOL_CALLABLES).
Local Abbreviation tool_calls' := (tool_calls empty_args json_loads json_dumps TOOL_CALLABLES).
Local Abbreviation final_text' := (final_text stream).
Local Abbreviation iteration' :=
  (iteration empty_args json_loads json_dumps complete stream TOOL_CALLABLES).
Local Abbreviation loop' :=
  (loop empty_args json_loads json_dumps complete stream TOOL_CALLABLES).
Local Abbreviation run_agent' :=
  (_run_agent empty_args json_loads json_dumps complete stream TOOL_CALLABLES).
Local Abbreviation run_task' :=
  (run_task empty_args json_loads json_dumps arg_path complete stream TOOL_CALLABLES
     agent_of CoderAgent ws_context).
Local Abbreviation run_tasks' :=
  (run_tasks empty_args json_loads json_dumps arg_path complete stream TOOL_CALLABLES
     agent_of CoderAgent ws_context).
Local Abbreviation build_body' :=
  (build_body empty_args json_loads json_dumps arg_path complete stream TOOL_CALLABLES
     agent_of CoderAgent ws_context).
Local Abbreviation execute_build' :=
  (execute_build locate empty_args json_loads json_dumps arg_path complete stream
     TOOL_CALLABLES agent_of CoderAgent ws_context).

Lemma continues_refl (r : run Args Backend) : continues r r.
Proof. split; [done|]. exists []. split; [by rewrite app_nil_r|constructor]. Qed.

Lemma continues_trans (r1 r2 r3 : run Args Backend) :
  continues r1 r2 → continues r2 r3 → continues r1 r3.
Proof.
  intros [Hc1 (m1 & Hm1 & Hq1)] [Hc2 (m2 & Hm2 & Hq2)]. split; [congruence|].
  exists (m1 ++ m2). split; [by rewrite Hm2, Hm1, (assoc_L (++))|by apply Forall_app].
Qed.

Lemma yield_continues (c : chunk Args) (r : run Args Backend) :
  is_done c = false → continues r (yield c r).
Proof.
  intros Hc. split; [done|]. exists [c]. split; [done|]. by repeat constructor.
Qed.

Lemma one_call_continues (agent : BaseAgent) (ws : path) (tc : tool_request)
    (r : run Args Backend) :
  continues r (state_of (one_call' agent ws tc r)).
Proof.
  unfold one_call.
  destruct (dispatch _ _ _ _ _) as [[e|result] st']; cbn [state_of].
  - split; [done|]. eexists [_]. split; [done|]. by repeat constructor.
  - split; [done|]. eexists [_; _]. split.
    + cbn [r_chunks push_msg yield push_tc with_store]. by rewrite <- (assoc_L (++)).
    + by repeat constructor.
Qed.

Lemma tool_calls_continues (agent : BaseAgent) (ws : path) (tcs : list tool_request) :
  ∀ r : run Args Backend, continues r (state_of (tool_calls' agent ws tcs r)).
Proof.
  induction tcs as [|tc tcs IH]; intros r; cbn [tool_calls].
  - apply continues_refl.
  - pose proof (one_call_continues agent ws tc r) as H1.
    destruct (one_call' agent ws tc r) as [[e r1]|r1]; cbn [state_of] in *; [done|].
    eapply continues_trans; [exact H1|apply IH].
Qed.

Lemma deltas_continue (name : string) (parts : list string) :
  ∀ r : run Args Backend,
    continues r (foldl (λ acc d, yield (CDelta name d) acc) r parts).
Proof.
  induction parts as [|d parts IH]; intros r; simpl.
  - apply continues_refl.
  - eapply continues_trans; [|apply IH]. by apply yield_continues.
Qed.

Lemma final_text_continues (agent : BaseAgent) (c : config) (ch : choice)
    (r : run Args Backend) :
  continues r (final_text' agent c ch r).
Proof.
  unfold final_text.
  destruct (stream _ _) as [[deltas broke] b'].
  set (parts := filter _ deltas).
  pose proof (deltas_continue (ag_name agent) parts (with_backend b' r)) as H.
  set (r1 := foldl _ _ parts) in *.
  assert (H0 : continues r r1).
  { destruct H as [Hc Hm]. split; [done|]. done. }
  destruct broke as [e|].
  - case_bool_decide.
    + destruct H0 as [Hc Hm]. by split.
    + eapply continues_trans; [exact H0|].
      split; [done|]. eexists [_]. split; [done|]. by repeat constructor.
  - destruct H0 as [Hc Hm]. by split.
Qed.

Lemma iteration_advances (agent : BaseAgent) (c : config) (r : run Args Backend) :
  match iteration' agent c r with
  | Raise (e, r') => advances r (Some e) r'
  | Return (_, r') => advances r None r'
  end.
Proof.
  unfold iteration.
  set (rq := mkRequest _ _ _ _).
  destruct (complete rq (r_backend r)) as [[e|resp] b'].
  - split; [by exists rq, (Raise e)|]. exists []. split; [by rewrite app_nil_r|constructor].
  - destruct (cp_choices resp) as [|ch rest].
    + split; [by exists rq, (Return resp)|].
      exists []. split; [by rewrite app_nil_r|constructor].
    + set (r1 := called rq (Return resp) b' _ _ r).
      assert (H1 : ∀ raised r', continues r1 r' → advances r raised r').
      { intros raised r' [Hc Hm]. split; [|done]. exists rq, (Return resp). by rewrite Hc. }
      destruct (_ && _).
      * set (r2 := push_msg _ r1).
        pose proof (tool_calls_continues agent (cfg_workspace c) (ch_tool_calls ch) r2) as H.
        destruct (tool_calls' agent (cfg_workspace c) (ch_tool_calls ch) r2) as [[e r3]|r3];
          cbn [state_of] in H; by apply H1.
      * apply H1, final_text_continues.
Qed.

(** The loop makes at most [n] calls of the backend, yields no
    completion event, and a call that raised is the last one on record
    and is what the loop raised. *)
Lemma loop_spec (agent : BaseAgent) (c : config) (n : nat) : ∀ r : run Args Backend,
  let out := loop' n agent c r in
  ∃ calls more,
    r_calls (state_of out) = r_calls r ++ calls
    ∧ (length calls ≤ n)%nat
    ∧ r_chunks (state_of out) = r_chunks r ++ more
    ∧ quiet more
    ∧ match out with
      | Return _ => clean calls
      | Raise (e, _) =>
          clean calls
          ∨ ∃ earlier rq, calls = earlier ++ [(rq, Raise e)] ∧ clean earlier
      end.
Proof.
  induction n as [|n IH]; intros r; cbn [loop].
  - exists [], []. rewrite !app_nil_r. repeat split; [done|constructor|constructor].
  - pose proof (iteration_advances agent c r) as Hstep.
    destruct (iteration' agent c r) as [[e r1]|[[] r1]]; cbn [state_of].
    + destruct Hstep as [(rq & outcome & Hcalls & Hout) (more & Hmore & Hq)].
      exists [(rq, outcome)], more. repeat split; [done|simpl; lia|done|done|].
      destruct outcome as [e'|resp].
      * right. exists [], rq. injection Hout as ->. split; [done|constructor].
      * left. by repeat constructor.
    + destruct Hstep as [(rq & outcome & Hcalls & Hout) (more & Hmore & Hq)].
      destruct outcome as [e'|resp]; [done|].
      destruct (IH r1) as (calls & more' & Hc & Hlen & Hm & Hq' & Hend).
      exists ((rq, Return resp) :: calls), (more ++ more').
      split; [by rewrite Hc, Hcalls, <- (assoc_L (++))|].
      split; [simpl; lia|].
      split; [by rewrite Hm, Hmore, <- (assoc_L (++))|].
      split; [by apply Forall_app|].
      destruct (loop' n agent c r1) as [[e r2]|r2].
      * destruct Hend as [Hclean|(earlier & rq' & -> & Hclean)].
        -- left. by constructor.
        -- right. exists ((rq, Return resp) :: earlier), rq'. split; [done|by constructor].
      * by constructor.
    + destruct Hstep as [(rq & outcome & Hcalls & Hout) (more & Hmore & Hq)].
      destruct outcome as [e'|resp]; [done|].
      exists [(rq, Return resp)], more.
      repeat split; [done|simpl; lia|done|done|by repeat constructor].
Qed.

(** [_run_agent] either fails to get a client and raises before it has
    yielded anything, or runs the loop from a state without calls and
    chunks and closes with one completion event. *)
Lemma run_agent_shape (agent : BaseAgent) (prompt : string) (history : list message)
    (system_extra : string) (use_diff_tracker : bool) (tracker : option DiffTracker)
    (z : zen Backend) :
  let out := run_agent' agent prompt history system_extra use_diff_tracker tracker z in
  (∃ e, _get_client z = Raise e ∧ out = mkRan [] [] (Some e) z)
  ∨ (ran_escaped out = None
     ∧ z_cfg (ran_zen out) = z_cfg z
     ∧ ∃ z1 r0,
         _get_client z = Return z1
         ∧ r_calls r0 = [] ∧ r_chunks r0 = [] ∧ r_final_text r0 = ""
         ∧ match loop' _MAX_ITERS agent (z_cfg z) r0 with
           | Raise (e, r) =>
               ran_calls out = r_calls r
               ∧ ran_chunks out = r_chunks r ++ [error_done agent (z_cfg z) e]
           | Return r =>
               ran_calls out = r_calls r
               ∧ ∃ ready response,
                   ran_chunks out = r_chunks r ++ ready ++ [CDone (ag_name agent) response]
                   ∧ quiet ready
                   ∧ zr_error response = None
                   ∧ zr_text response = r_final_text r
           end).
Proof.
  intros out. unfold out, _run_agent.
  destruct (_get_client z) as [e|z1] eqn:Hclient.
  - left. by exists e.
  - right.
    assert (Hcfg : z_cfg z1 = z_cfg z).
    { unfold _get_client in Hclient. destruct (z_client z); [by injection Hclient as <-|].
      case_bool_decide; [done|]. by injection Hclient as <-. }
    set (r0 := mkRun _ _ _ _ _ _ _ _ _).
    destruct (loop' _MAX_ITERS agent (z_cfg z) r0) as [[e r]|r] eqn:Hloop.
    + split; [done|]. split; [done|]. exists z1, r0. rewrite Hloop. by repeat split.
    + split; [done|]. split; [done|]. exists z1, r0. rewrite Hloop.
      repeat split. eexists _, _. split; [reflexivity|]. split; [|done].
      destruct use_diff_tracker; [|constructor].
      destruct (st_tracker (r_store r)) as [t|]; [|constructor].
      case_bool_decide; by repeat constructor.
Qed.

Lemma dispatch_contained (ws : path) (name : string) (args : Args) (st : store) :
  tools_contained TOOL_CALLABLES →
  ∃ result st', dispatch TOOL_CALLABLES ws name args st = (Return result, st').
Proof.
  intros Htools. unfold dispatch.
  destruct (TOOL_CALLABLES name) as [fn|] eqn:Hfn; [|by eexists _, _].
  destruct (fn args ws st) as [[e|result] st'] eqn:Hcall; [|by eexists _, _].
  rewrite (bool_decide_eq_true_2 _ (Htools _ _ _ _ _ _ _ Hfn Hcall)). by eexists _, _.
Qed.

Lemma tool_calls_contained (agent : BaseAgent) (ws : path) (tcs : list tool_request) :
  tools_contained TOOL_CALLABLES →
  ∀ r : run Args Backend,
    ∃ r', tool_calls' agent ws tcs r = Return r' ∧ r_final_text r' = r_final_text r.
Proof.
  intros Htools. induction tcs as [|tc tcs IH]; intros r; cbn [tool_calls].
  - by exists r.
  - unfold one_call.
    destruct (dispatch_contained ws (tq_name tc)
                (default empty_args (json_loads (tq_arguments tc)))
                (r_store (yield (CToolCall (ag_name agent)
                   (mkToolCall (tq_id tc) (tq_name tc)
                      (default empty_args (json_loads (tq_arguments tc))) None)) r)) Htools)
      as (result & st' & ->).
    destruct (IH (push_msg (ToolMsg (json_dumps (api_payload result)) (tq_id tc) (tq_name tc))
                (yield (CToolResult (ag_name agent)
                   (mkToolCall (tq_id tc) (tq_name tc)
                      (default empty_args (json_loads (tq_arguments tc))) (Some result)))
                   (push_tc (mkToolCall (tq_id tc) (tq_name tc)
                      (default empty_args (json_loads (tq_arguments tc))) (Some result))
                      (with_store st' (yield (CToolCall (ag_name agent)
                         (mkToolCall (tq_id tc) (tq_name tc)
                            (default empty_args (json_loads (tq_arguments tc))) None)) r))))))
      as (r' & -> & Hfinal).
    by exists r'.
Qed.

(** Against a backend that always asks for tools the loop uses up its
    range: it makes exactly [n] calls and is left without a final text. *)
Lemma loop_always_calls (agent : BaseAgent) (c : config) (n : nat) :
  get_tool_schemas agent ≠ [] → always_calls complete → tools_contained TOOL_CALLABLES →
  ∀ r : run Args Backend,
    ∃ r', loop' n agent c r = Return r'
          ∧ length (r_calls r') = (length (r_calls r) + n)%nat
          ∧ r_final_text r' = r_final_text r.
Proof.
  intros Hschemas Hcalls Htools. induction n as [|n IH]; intros r; cbn [loop].
  - exists r. split; [done|]. split; [lia|done].
  - unfold iteration.
    set (rq := mkRequest _ _ _ _).
    destruct (Hcalls rq (r_backend r)) as (resp & b' & ch & rest & -> & -> & Hreason & Htcs).
    rewrite !bool_decide_eq_true_2 by done. cbn [andb].
    set (r2 := push_msg _ _).
    pose proof (tool_calls_continues agent (cfg_workspace c) (ch_tool_calls ch) r2) as [Hc _].
    destruct (tool_calls_contained agent (cfg_workspace c) (ch_tool_calls ch) Htools r2)
      as (r3 & Heq & Hfinal).
    rewrite Heq in Hc |- *. cbn [state_of] in Hc.
    destruct (IH r3) as (r' & Hloop & Hlen & Htext).
    exists r'. split; [done|]. split.
    + rewrite Hlen, Hc. unfold r2. cbn [r_calls push_msg called].
      rewrite length_app. simpl. lia.
    + rewrite Htext. by rewrite Hfinal.
Qed.

(** C7: one invocation of the orchestrator loop makes at most
    [_MAX_ITERS] requests to the model, whatever the model and the tools
    do.  A model that asks for tools on every request gets exactly
    [_MAX_ITERS] requests (given a client, and tools that report their
    failures as results); the loop is then left and the invocation ends
    with one completion event, without error and without text. *)
Theorem orchestrator_iterations_bounded (agent : BaseAgent) (prompt : string)
    (history : list message) (system_extra : string) (use_diff_tracker : bool)
    (tracker : option DiffTracker) (z : zen Backend) :
  let out := run_agent' agent prompt history system_extra use_diff_tracker tracker z in
  (length (ran_calls out) ≤ _MAX_ITERS)%nat
  ∧ (get_tool_schemas agent ≠ [] → always_calls complete → tools_contained TOOL_CALLABLES →
     z_client z = true ∨ cfg_api_key (z_cfg z) ≠ "" →
     length (ran_calls out) = _MAX_ITERS
     ∧ ran_escaped out = None
     ∧ ∃ before response,
         ran_chunks out = before ++ [CDone (ag_name agent) response]
         ∧ quiet before
         ∧ zr_error response = None
         ∧ zr_text response = "").
Proof.
  intros out.
  destruct (run_agent_shape agent prompt history system_extra use_diff_tracker tracker z)
    as [(e & Hclient & Hout)|(Hesc & _ & z1 & r0 & Hclient & Hc0 & Hk0 & Ht0 & Hloop)];
    fold out in Hout || fold out in Hesc, Hloop.
  - split; [rewrite Hout; simpl; lia|].
    intros _ _ _ Hz. unfold _get_client in Hclient.
    destruct Hz as [Hz|Hz]; [by rewrite Hz in Hclient|].
    destruct (z_client z); [done|]. by rewrite bool_decide_eq_false_2 in Hclient.
  - destruct (loop_spec agent (z_cfg z) _MAX_ITERS r0)
      as (calls & more & Hcalls & Hlen & Hchunks & Hquiet & _).
    rewrite Hc0 in Hcalls. rewrite Hk0 in Hchunks. cbn [app] in Hcalls, Hchunks.
    split.
    + destruct (loop' _MAX_ITERS agent (z_cfg z) r0) as [[e r]|r];
        cbn [state_of] in Hcalls; destruct Hloop as [-> _]; by rewrite Hcalls.
    + intros Hschemas Halways Htools _.
      destruct (loop_always_calls agent (z_cfg z) _MAX_ITERS Hschemas Halways Htools r0)
        as (r' & Heq & Hn & Htext).
      rewrite Heq in Hloop, Hcalls, Hchunks. cbn [state_of] in Hcalls, Hchunks.
      destruct Hloop as [Hrc (ready & response & Hrk & Hready & Herr & Hrt)].
      split; [by rewrite Hrc, Hn, Hc0|]. split; [done|].
      exists (r_chunks r' ++ ready), response.
      split; [by rewrite Hrk, (assoc_L (++))|].
      split; [rewrite Hchunks; by apply Forall_app|].
      split; [done|]. by rewrite Hrt, Htext, Ht0.
Qed.

(** C8: when a request to the model raises, the invocation yields one
    completion event, whose error is the text of that exception; it is
    the last chunk and the only completion event; and the request that
    raised is the last one made: the call is not tried again. *)
Theorem model_failure_single_error_done (agent : BaseAgent) (prompt : string)
    (history : list message) (system_extra : string) (use_diff_tracker : bool)
    (tracker : option DiffTracker) (z : zen Backend) (rq : request) (e : exc) :
  let out := run_agent' agent prompt history system_extra use_diff_tracker tracker z in
  (rq, Raise e) ∈ ran_calls out →
  ran_escaped out = None
  ∧ (∃ earlier, ran_calls out = earlier ++ [(rq, Raise e)] ∧ clean earlier)
  ∧ ∃ before response,
      ran_chunks out = before ++ [CDone (ag_name agent) response]
      ∧ quiet before
      ∧ zr_error response = Some (exc_str e)
      ∧ zr_text response = "".
Proof.
  intros out Hin.
  assert (Hdirty : ∀ calls, (rq, Raise e) ∈ calls → ¬ clean calls).
  { intros calls Hel Hclean. unfold clean in Hclean. rewrite Forall_forall in Hclean.
    by specialize (Hclean _ Hel). }
  destruct (run_agent_shape agent prompt history system_extra use_diff_tracker tracker z)
    as [(e0 & Hclient & Hout)|(Hesc & _ & z1 & r0 & Hclient & Hc0 & Hk0 & Ht0 & Hloop)];
    fold out in Hout || fold out in Hesc, Hloop.
  - rewrite Hout in Hin. simpl in Hin. by apply elem_of_nil in Hin.
  - destruct (loop_spec agent (z_cfg z) _MAX_ITERS r0)
      as (calls & more & Hcalls & Hlen & Hchunks & Hquiet & Hend).
    rewrite Hc0 in Hcalls. rewrite Hk0 in Hchunks. cbn [app] in Hcalls, Hchunks.
    destruct (loop' _MAX_ITERS agent (z_cfg z) r0) as [[e' r]|r];
      cbn [state_of] in Hcalls, Hchunks.
    + destruct Hloop as [Hrc Hrk]. rewrite Hrc, Hcalls in Hin.
      destruct Hend as [Hclean|(earlier & rq' & -> & Hclean)]; [by apply Hdirty in Hin|].
      apply elem_of_app in Hin as [Hin|Hin]; [by apply Hdirty in Hin|].
      apply list_elem_of_singleton in Hin. injection Hin as -> ->.
      split; [done|]. split; [exists earlier; by rewrite Hrc, Hcalls|].
      eexists more, _. rewrite Hrk, Hchunks. by repeat split.
    + destruct Hloop as [Hrc _]. rewrite Hrc, Hcalls in Hin. by apply Hdirty in Hin.
Qed.

(** ** The build-plan executor *)

(** An agent run does not touch the configuration. *)
Lemma run_agent_cfg (agent : BaseAgent) (prompt : string) (history : list message)
    (system_extra : string) (use_diff_tracker : bool) (tracker : option DiffTracker)
    (z : zen Backend) :
  z_cfg (ran_zen (run_agent' agent prompt history system_extra use_diff_tracker tracker z))
  = z_cfg z.
Proof.
  destruct (run_agent_shape agent prompt history system_extra use_diff_tracker tracker z)
    as [(e & _ & ->)|(_ & Hcfg & _)]; done.
Qed.

(** The state in which a task, or the loop over the tasks, ends. *)
Lemma run_task_roots (plan : BuildPlan) (auto_accept : bool) (task : BuildTask)
    (b : building Args Backend) :
  ∃ b', (run_task' plan auto_accept task b = Return b'
         ∨ ∃ e, run_task' plan auto_accept task b = Raise (e, b'))
        ∧ z_cfg (b_zen b') = z_cfg (b_zen b)
        ∧ b_roots b' = b_roots b ++ [(bt_label task, cfg_workspace (z_cfg (b_zen b)))].
Proof.
  unfold run_task.
  set (out := _run_agent _ _ _ _ _ _ _ _ _ _ _ _ _).
  assert (Hcfg : z_cfg (ran_zen out) = z_cfg (b_zen b)) by apply run_agent_cfg.
  destruct (ran_escaped out) as [e|]; eexists; (split; [eauto|]); by split.
Qed.

Lemma run_tasks_roots (plan : BuildPlan) (auto_accept : bool) (tasks : list BuildTask) :
  ∀ b : building Args Backend,
    ∃ b', (run_tasks' plan auto_accept tasks b = Return b'
           ∨ ∃ e, run_tasks' plan auto_accept tasks b = Raise (e, b'))
          ∧ z_cfg (b_zen b') = z_cfg (b_zen b)
          ∧ ∃ started, b_roots b' = b_roots b ++ started
                       ∧ Forall (λ root, root.2 = cfg_workspace (z_cfg (b_zen b))) started.
Proof.
  induction tasks as [|task tasks IH]; intros b; cbn [run_tasks].
  - exists b. split; [by left|]. split; [done|]. exists []. by rewrite app_nil_r.
  - destruct (run_task_roots plan auto_accept task b) as (b1 & [Hrun|(e & Hrun)] & Hcfg & Hroots);
      rewrite Hrun.
    + destruct (IH b1) as (b' & Hres & Hcfg' & started & Hroots' & Hall).
      exists b'. split; [done|]. split; [congruence|].
      exists ((bt_label task, cfg_workspace (z_cfg (b_zen b))) :: started).
      split; [by rewrite Hroots', Hroots, <- (assoc_L (++))|].
      constructor; [done|]. by rewrite <- Hcfg.
    + exists b1. split; [right; by exists e|]. split; [done|].
      eexists [_]. split; [done|]. by repeat constructor.
Qed.

(** The body of [execute_build] ends with the workspace set to
    [original_ws], raised or not, and has started every task under the
    workspace with which it was entered. *)
Lemma build_body_workspace (plan : BuildPlan) (auto_accept : bool) (original_ws : path)
    (z : zen Backend) :
  let out := build_body' plan auto_accept original_ws z in
  cfg_workspace (z_cfg (bu_zen out)) = original_ws
  ∧ Forall (λ root, root.2 = cfg_workspace (z_cfg z)) (bu_roots out).
Proof.
  unfold build_body.
  set (b0 := mkBuilding _ _ _ _).
  destruct (run_tasks_roots plan auto_accept (bp_tasks plan) b0)
    as (b' & [Hrun|(e & Hrun)] & Hcfg & started & Hroots & Hall); rewrite Hrun; cbn.
  - split; [done|]. by rewrite Hroots.
  - split; [done|]. by rewrite Hroots.
Qed.

(** C9: for a plan that names a subdirectory, [execute_build] leaves
    the configured workspace root as it found it, in every outcome, also
    when an exception leaves the execution of a task; every task is
    started with the target directory as workspace root; and unless a
    regular file stands in the way, the tasks are entered on a disk where
    the target directory exists, nothing outside its path having changed. *)
Theorem execute_build_workspace (plan : BuildPlan) (original_prompt : string)
    (auto_accept : option bool) (z : zen Backend) :
  z_pending_plan z = Some plan →
  names_subdir plan = true →
  let original_ws := cfg_workspace (z_cfg z) in
  let active_ws := locate original_ws (bp_target_dir plan) in
  let d := st_disk (z_store z) in
  let out := execute_build' original_prompt auto_accept z in
  cfg_workspace (z_cfg (bu_zen out)) = original_ws
  ∧ Forall (λ root, root.2 = active_ws) (bu_roots out)
  ∧ ((∀ q content, q ≠ [] → q `prefix_of` active_ws → d !! q ≠ Some (File content)) →
     ∃ z',
       out = build_body' plan (default (cfg_auto_accept (z_cfg z)) auto_accept) original_ws z'
       ∧ cfg_workspace (z_cfg z') = active_ws
       ∧ Fs.is_dir (st_disk (z_store z')) active_ws = true
       ∧ ∀ q, ¬ q `prefix_of` active_ws → st_disk (z_store z') !! q = d !! q).
Proof.
  intros Hplan Hsub original_ws active_ws d out. unfold out, execute_build.
  rewrite Hplan, Hsub.
  set (z1 := if bool_decide (original_prompt = "") then z
             else with_original_prompt original_prompt z).
  assert (Hcfg1 : z_cfg z1 = z_cfg z) by (unfold z1; by case_bool_decide).
  assert (Hst1 : z_store z1 = z_store z) by (unfold z1; by case_bool_decide).
  rewrite Hcfg1, Hst1. fold original_ws active_ws d.
  assert (Hway : ∀ q, on_the_way [] active_ws q ↔ q ≠ [] ∧ q `prefix_of` active_ws).
  { intros q. unfold on_the_way. simpl. split.
    - intros [Hq Hl]. split; [|done]. intros ->. simpl in Hl. lia.
    - intros [Hq Hp]. split; [done|]. destruct q; [done|simpl; lia]. }
  destruct (Fs.exists_ d active_ws) eqn:Hex.
  - set (z' := with_cfg _ _).
    destruct (build_body_workspace plan (default (cfg_auto_accept (z_cfg z)) auto_accept)
                original_ws z') as [Hback Hroots].
    split; [done|]. split; [done|].
    intros Hfree. exists z'. split; [done|]. split; [done|]. split; [|done].
    unfold z'. cbn. unfold Fs.exists_ in Hex. unfold Fs.is_dir.
    destruct (decide (active_ws = [])) as [->|Hne]; [done|].
    rewrite (bool_decide_eq_false_2 (active_ws = [])) in Hex |- * by done.
    cbn [orb] in *. apply bool_decide_eq_true in Hex as [[content|] Hnode].
    + exfalso. by apply (Hfree active_ws content).
    + fold d. by rewrite bool_decide_eq_true_2.
  - unfold Fs.mkdir_parents.
    destruct (Fs.mkdir_from [] active_ws d) as [e|d'] eqn:Hmk.
    + cbn. split; [by rewrite Hcfg1|]. split; [constructor|].
      intros Hfree. exfalso.
      destruct (mkdir_from_spec active_ws [] d) as (d' & Hrun & _).
      { intros q content [Hq Hp]%Hway. by apply Hfree. }
      congruence.
    + set (z' := with_cfg _ _).
      destruct (build_body_workspace plan (default (cfg_auto_accept (z_cfg z)) auto_accept)
                  original_ws z') as [Hback Hroots].
      split; [done|]. split; [done|].
      intros Hfree. exists z'. split; [done|]. split; [done|].
      destruct (mkdir_from_spec active_ws [] d) as (d'' & Hrun & Hdirs & Hsame).
      { intros q content [Hq Hp]%Hway. by apply Hfree. }
      assert (d'' = d') as -> by congruence.
      unfold z'. cbn. split.
      * unfold Fs.is_dir. destruct (decide (active_ws = [])) as [->|Hne]; [done|].
        rewrite (bool_decide_eq_true_2 (d' !! _ = Some Dir)); [apply orb_true_r|].
        apply Hdirs, Hway. done.
      * intros q Hq. apply Hsame. intros [_ Hp]%Hway. done.
Qed.

End Orchestrator.

Lemma sample_tools_contained : tools_contained sample_tools.
Proof.
  intros name fn args ws st e st' Hfn Hcall. unfold sample_tools in Hfn.
  case_bool_decide; [|done]. injection Hfn as <-. done.
Qed.

Lemma insistent_always_calls : always_calls insistent.
Proof. intros rq b. by eexists _, _, _, _. Qed.

Lemma orchestrator_iterations_bounded_witness :
  (length (ran_calls (sample_run insistent)) ≤ _MAX_ITERS)%nat
  ∧ length (ran_calls (sample_run insistent)) = _MAX_ITERS
  ∧ ran_escaped (sample_run insistent) = None
  ∧ ∃ before response,
      ran_chunks (sample_run insistent) = before ++ [CDone "coder" response]
      ∧ quiet before
      ∧ zr_error response = None
      ∧ zr_text response = "".
Proof.
  destruct (orchestrator_iterations_bounded tt (λ _, Some tt) (λ _, "{}") insistent silent
              sample_tools sample_agent "do X" [] "" false None (sample_zen "key" None))
    as [Hbound Hexact].
  split; [exact Hbound|].
  apply Hexact.
  - vm_compute. discriminate.
  - exact insistent_always_calls.
  - exact sample_tools_contained.
  - right. vm_compute. discriminate.
Defined.

(** On the record of [sample_run unreachable]: the one request made. *)
Lemma model_failure_single_error_done_witness :
  ran_escaped (sample_run unreachable) = None
  ∧ (∃ earlier,
       ran_calls (sample_run unreachable)
       = earlier ++ [(mkRequest "codestral-latest" 8192 [Msg "system" "You write code.";
                                                           Msg "user" "do X"] ["file_write"],
                      Raise (Exc OSError "connection refused"))]
       ∧ clean earlier)
  ∧ ∃ before response,
      ran_chunks (sample_run unreachable) = before ++ [CDone "coder" response]
      ∧ quiet before
      ∧ zr_error response = Some "connection refused"
      ∧ zr_text response = "".
Proof.
  apply (model_failure_single_error_done tt (λ _, Some tt) (λ _, "{}") unreachable silent
           sample_tools sample_agent "do X" [] "" false None (sample_zen "key" None)).
  vm_compute. apply list_elem_of_here.
Defined.

(** Without an API key the first task raises before its agent has made
    a request; the exception leaves [execute_build], and the workspace
    root is the original one again. *)
Example execute_build_exception_restores :
  bu_escaped (sample_build "") = Some (Exc RuntimeError "No API key set.")
  ∧ bu_roots (sample_build "") = [("C1", ["home"; "ws"; "app"])]
  ∧ cfg_workspace (z_cfg (bu_zen (sample_build ""))) = ["home"; "ws"]
  ∧ st_disk (z_store (bu_zen (sample_build ""))) !! ["home"; "ws"; "app"] = Some Dir.
Proof. vm_compute. repeat split. Qed.

Lemma execute_build_workspace_witness :
  cfg_workspace (z_cfg (bu_zen (sample_build "key"))) = ["home"; "ws"]
  ∧ Forall (λ root, root.2 = ["home"; "ws"; "app"]) (bu_roots (sample_build "key"))
  ∧ ∃ z',
      sample_build "key"
      = build_body tt (λ _, Some tt) (λ _, "{}") (λ _, "notes.txt")
          insistent silent sample_tools (λ _, Some sample_agent) sample_agent (λ _ _, "")
          sample_plan false ["home"; "ws"] z'
      ∧ cfg_workspace (z_cfg z') = ["home"; "ws"; "app"]
      ∧ Fs.is_dir (st_disk (z_store z')) ["home"; "ws"; "app"] = true
      ∧ ∀ q, ¬ q `prefix_of` ["home"; "ws"; "app"] →
             st_disk (z_store z') !! q = (∅ : disk) !! q.
Proof.
  destruct (execute_build_workspace sample_locate tt (λ _, Some tt) (λ _, "{}")
              (λ _, "notes.txt") insistent silent sample_tools (λ _, Some sample_agent)
              sample_agent (λ _ _, "") sample_plan "build Foo" None
              (sample_zen "key" (Some sample_plan)) eq_refl eq_refl)
    as (Hback & Hroots & Hentered).
  split; [exact Hback|]. split; [exact Hroots|].
  apply Hentered. intros q content _ _. cbn. by rewrite lookup_empty.
Defined.

(* ===================================================================== *)
(** * Further properties *)
(* ===================================================================== *)

(** ** Direct writes *)

Lemma on_the_way_cons (base : path) (x : string) (rest : list string) (q : path) :
  on_the_way base (x :: rest) q ↔ q = base ++ [x] ∨ on_the_way (base ++ [x]) rest q.
Proof.
  unfold on_the_way. rewrite <- (assoc_L (++)). simpl. split.
  - intros [Hq Hlen].
    destruct (decide (length q = length (base ++ [x]))) as [He|Hne].
    + left. apply (prefix_same_length _ _ (base ++ x :: rest)); [done| |done].
      apply prefix_app, prefix_cons, prefix_nil.
    + right. split; [done|]. rewrite length_app in *. simpl in *. lia.
  - intros [->|[Hq Hlen]].
    + split; [apply prefix_app, prefix_cons, prefix_nil|].
      rewrite length_app. simpl. lia.
    + split; [done|]. rewrite length_app in Hlen. simpl in Hlen. lia.
Qed.

Lemma on_the_way_root (p q : path) :
  on_the_way [] p q ↔ q ≠ [] ∧ q `prefix_of` p.
Proof.
  unfold on_the_way. simpl. split.
  - intros [Hq Hl]. split; [|done]. intros ->. simpl in Hl. lia.
  - intros [Hq Hp]. split; [done|]. destruct q; [done|simpl; lia].
Qed.

(** When [mkdir(parents=True, exist_ok=True)] returns, every location on
    the way is a directory and the rest of the disk is as it was. *)
Lemma mkdir_from_inv (rest : list string) : ∀ (base : path) (d d' : disk),
  Fs.mkdir_from base rest d = Return d' →
  (∀ q, on_the_way base rest q → d' !! q = Some Dir)
  ∧ (∀ q, ¬ on_the_way base rest q → d' !! q = d !! q).
Proof.
  induction rest as [|x rest IH]; intros base d d' Hrun.
  - injection Hrun as <-. split; [|done].
    intros q [Hq Hlen]. rewrite app_nil_r in Hq. apply prefix_length in Hq. lia.
  - cbn [Fs.mkdir_from] in Hrun. set (q0 := base ++ [x]) in *.
    assert (Hnot : ¬ on_the_way q0 rest q0) by (intros [_ Hlen]; lia).
    destruct (d !! q0) as [[content|]|] eqn:E; [done| |].
    + destruct (IH _ _ _ Hrun) as [Hdirs Hsame]. split.
      * intros q [->|Hq]%on_the_way_cons; [by rewrite Hsame|by apply Hdirs].
      * intros q Hq. apply Hsame. intros Hq'. apply Hq, on_the_way_cons. by right.
    + destruct (IH _ _ _ Hrun) as [Hdirs Hsame]. split.
      * intros q [->|Hq]%on_the_way_cons; [|by apply Hdirs].
        fold q0. rewrite Hsame by done. apply lookup_insert_eq.
      * intros q Hq. rewrite Hsame.
        -- apply lookup_insert_ne. intros <-. apply Hq, on_the_way_cons. by left.
        -- intros Hq'. apply Hq, on_the_way_cons. by right.
Qed.

(** A location is never on the way to its own parent. *)
Lemma not_on_the_way_to_parent (p : path) : ¬ on_the_way [] (Fs.parent p) p.
Proof.
  intros [Hne Hp]%on_the_way_root. apply prefix_length in Hp.
  pose proof (parent_length p Hne). lia.
Qed.

(** Where a file can be written, the parents can be made, and the
    target can then be opened for writing. *)
Lemma parents_then_writable (d : disk) (p : path) :
  Fs.is_dir d p = false →
  (∀ q content, q ≠ [] → q `prefix_of` Fs.parent p → d !! q ≠ Some (File content)) →
  ∃ d1, Fs.mkdir_parents (Fs.parent p) d = Return d1
        ∧ Fs.writable d1 p = Return ()
        ∧ d1 !! p = d !! p
        ∧ (∀ q, q ≠ [] → q `prefix_of` Fs.parent p → d1 !! q = Some Dir)
        ∧ (∀ q, ¬ q `prefix_of` Fs.parent p → d1 !! q = d !! q).
Proof.
  intros Hnodir Hfree.
  unfold Fs.is_dir in Hnodir. apply orb_false_iff in Hnodir as [Hroot Htdir].
  apply bool_decide_eq_false in Hroot, Htdir.
  destruct (mkdir_from_spec (Fs.parent p) [] d) as (d1 & Hrun & Hdirs & Hsame).
  { intros q content [Hq Hp]%on_the_way_root. by apply Hfree. }
  exists d1. split; [done|].
  pose proof (Hsame p (not_on_the_way_to_parent p)) as Hp.
  split; [|split; [done|split]].
  - unfold Fs.writable, Fs.is_dir.
    rewrite (bool_decide_eq_false_2 (p = [])) by done. rewrite Hp.
    rewrite (bool_decide_eq_false_2 (d !! p = Some Dir)) by done. cbn [orb].
    destruct (decide (Fs.parent p = [])) as [->|Hne]; [done|].
    rewrite (bool_decide_eq_false_2 (Fs.parent p = [])) by done.
    rewrite (bool_decide_eq_true_2 (d1 !! _ = Some Dir)); [done|].
    by apply Hdirs, on_the_way_root.
  - intros q Hq Hpre. by apply Hdirs, on_the_way_root.
  - intros q Hq. apply Hsame. by intros [_ ?]%on_the_way_root.
Qed.

Lemma rel_path_inside (p ws : path) :
  ws `prefix_of` p → ∃ rel, rel_path p ws = Return rel.
Proof.
  intros Hpre. unfold rel_path, Fs.relative_to.
  rewrite (bool_decide_eq_true_2 _ Hpre).
  destruct (Py.startswith _ _); [|by eexists].
  destruct (drop _ p); by eexists.
Qed.

Section DirectWrites.

Variable locate : path → string → path.
Variable join : path → string → path.

(** With no tracker intercepting, [file_write] acts on the disk at once:
    where the file can be written it then holds the content given (after
    its old text for an append), its parent directories exist, nothing
    else on the disk has changed and no diff is recorded.  The call
    reports success when the file lies inside the workspace. *)
Theorem file_write_direct (ws : path) (path_ content mode : string) (st : store) :
  let d := st_disk st in
  let p := locate ws path_ in
  let out := file_write locate join ws path_ content mode st in
  active_tracker st = None →
  Fs.is_dir d p = false →
  (∀ q content, q ≠ [] → q `prefix_of` Fs.parent p → d !! q ≠ Some (File content)) →
  st_disk out.2 !! p
  = Some (File (if bool_decide (mode = "append") then text_at d p +:+ content else content))
  ∧ (∀ q, q ≠ [] → q `prefix_of` Fs.parent p → st_disk out.2 !! q = Some Dir)
  ∧ (∀ q, q ≠ p → ¬ q `prefix_of` Fs.parent p → st_disk out.2 !! q = d !! q)
  ∧ st_tracker out.2 = st_tracker st
  ∧ (ws `prefix_of` p → tr_success out.1 = true).
Proof.
  intros d p out Hnone Hnodir Hfree. unfold out, file_write. rewrite Hnone. fold p d.
  destruct (parents_then_writable d p Hnodir Hfree) as (d1 & -> & Hw & Hp & Hdirs & Hsame).
  assert (Hpne : ∀ q, q `prefix_of` Fs.parent p → q ≠ p).
  { intros q Hq ->. apply (not_on_the_way_to_parent p), on_the_way_root.
    split; [|done]. intros E. unfold Fs.is_dir in Hnodir. by rewrite E in Hnodir. }
  set (new := if bool_decide (mode = "append") then text_at d p +:+ content else content).
  assert (Hwrite : (if bool_decide (mode = "append") then Fs.append_text p content d1
                    else Fs.write_text p content d1) = Return (<[p := File new]> d1)).
  { unfold Fs.append_text, Fs.write_text, new, text_at. rewrite Hw, Hp.
    by case_bool_decide. }
  rewrite Hwrite.
  assert (Hdisk : ∀ r : ToolResult * store, st_disk r.2 = <[p := File new]> d1 →
            st_tracker r.2 = st_tracker st →
            st_disk r.2 !! p = Some (File new)
            ∧ (∀ q, q ≠ [] → q `prefix_of` Fs.parent p → st_disk r.2 !! q = Some Dir)
            ∧ (∀ q, q ≠ p → ¬ q `prefix_of` Fs.parent p → st_disk r.2 !! q = d !! q)
            ∧ st_tracker r.2 = st_tracker st).
  { intros r -> Htr. split; [apply lookup_insert_eq|]. split; [|split; [|done]].
    - intros q Hq Hpre. rewrite lookup_insert_ne by (intros <-; by apply (Hpne p)).
      by apply Hdirs.
    - intros q Hq Hpre. rewrite lookup_insert_ne by done. by apply Hsame. }
  destruct (rel_path p ws) as [e|rel] eqn:Hrel.
  - destruct (Hdisk (failure (exc_str e), set_disk (<[p := File new]> d1) st) eq_refl eq_refl)
      as (H1 & H2 & H3 & H4).
    split; [exact H1|]. split; [exact H2|]. split; [exact H3|]. split; [exact H4|].
    intros Hin. destruct (rel_path_inside p ws Hin) as (rel & Hrel'). congruence.
  - destruct (Hdisk (mkToolResult true
                       ("✔ wrote " +:+ rel +:+ " (" +:+ pretty (Py.count_lines content)
                        +:+ " lines)") ""
                       (<["path" := MStr rel]> (<["lines" := MNat (Py.count_lines content)]> ∅)),
                     set_disk (<[p := File new]> d1) st) eq_refl eq_refl)
      as (H1 & H2 & H3 & H4).
    split; [exact H1|]. split; [exact H2|]. split; [exact H3|]. split; [exact H4|]. done.
Qed.

End DirectWrites.

(** ** What a review does to the disk *)

Section ReviewEffect.

Variable join : path → string → path.

Lemma apply_all_app (diffs1 diffs2 : list FileDiff) (workspace : path) : ∀ d d1 : disk,
  _apply_all join diffs1 workspace d = Return d1 →
  _apply_all join (diffs1 ++ diffs2) workspace d = _apply_all join diffs2 workspace d1.
Proof.
  induction diffs1 as [|x diffs1 IH]; intros d d1 H; simpl in *.
  - by injection H as <-.
  - destruct (_apply_diff join x workspace d) as [e|d']; [done|]. by apply IH.
Qed.

Lemma review_step_inv (workspace : path) (d : disk) (seen : list FileDiff) (n i : nat)
    (diff : FileDiff) (r r' : reviewing) :
  review_inv join workspace d seen r →
  review_step join workspace n i diff r = Return r' →
  review_inv join workspace d (seen ++ [diff]) r'.
Proof.
  intros (Hdisk & Hperm & Hsub) Hstep.
  assert (Haccept : ∀ all remaining out,
            accept join workspace diff all remaining out r = Return r' →
            review_inv join workspace d (seen ++ [diff]) r').
  { intros all remaining out H. unfold accept in H.
    destruct (_apply_diff join diff workspace (rv_disk r)) as [e|d'] eqn:Happ; [done|].
    injection H as <-. unfold review_inv. cbn [rv_accepted rv_rejected rv_disk].
    split; [|split].
    - rewrite (apply_all_app _ [diff] _ _ _ Hdisk). simpl. by rewrite Happ.
    - rewrite <- Hperm. rewrite <- !(assoc_L (++)). f_equiv. apply Permutation_app_comm.
    - by apply sublist_app. }
  assert (Hreject : ∀ remaining out,
            review_inv join workspace d (seen ++ [diff]) (reject diff remaining out r)).
  { intros remaining out. unfold reject, review_inv.
    cbn [rv_accepted rv_rejected rv_disk]. split; [done|]. split.
    - by rewrite (assoc_L (++)), Hperm.
    - by apply sublist_inserts_r. }
  unfold review_step in Hstep. destruct (rv_accept_all r); [by eapply Haccept|].
  destruct (ask (fd_path diff) (rv_answers r)) as [[v remaining] out].
  destruct v; first [by eapply Haccept | injection Hstep as <-; apply Hreject].
Qed.

Lemma review_loop_inv (workspace : path) (d : disk) (n : nat) (diffs : list FileDiff) :
  ∀ (seen : list FileDiff) (i : nat) (r r' : reviewing),
    review_inv join workspace d seen r →
    review_loop join workspace n i diffs r = Return r' →
    review_inv join workspace d (seen ++ diffs) r'.
Proof.
  induction diffs as [|diff diffs IH]; intros seen i r r' Hinv Hrun; cbn [review_loop] in Hrun.
  - injection Hrun as <-. by rewrite app_nil_r.
  - destruct (review_step join workspace n i diff r) as [e|r1] eqn:Hstep; [done|].
    rewrite (cons_middle diff), (assoc_L (++)).
    eapply IH; [|exact Hrun]. by eapply review_step_inv.
Qed.

(** A review sorts every diff of the set into accepted or rejected,
    keeps the accepted ones in the order of the set, and changes the
    disk by applying the accepted diffs and nothing else; so a rejected
    or skipped diff never reaches the disk. *)
Theorem review_applies_accepted (auto_accept : bool) (diffset : DiffSet) (workspace : path)
    (d : disk) (answers : list (option string)) (r : reviewing) :
  review join auto_accept diffset workspace d answers = Return r →
  _apply_all join (rv_accepted r) workspace d = Return (rv_disk r)
  ∧ rv_accepted r ++ rv_rejected r ≡ₚ ds_diffs diffset
  ∧ rv_accepted r `sublist_of` ds_diffs diffset.
Proof.
  unfold review. intros Hrun.
  destruct (ds_diffs diffset) as [|x diffs] eqn:E.
  - injection Hrun as <-. by repeat split.
  - destruct auto_accept.
    + destruct (_apply_all join (x :: diffs) workspace d) as [e|d'] eqn:Happ; [done|].
      injection Hrun as <-. cbn. split; [done|]. split; [by rewrite app_nil_r|done].
    + refine (review_loop_inv workspace d _ (x :: diffs) [] 0 _ r _ Hrun).
      split; [done|]. split; [done|constructor].
Qed.

Lemma review_loop_no_answers (workspace : path) (n : nat) (diffs : list FileDiff) :
  ∀ (i : nat) (r : reviewing),
    rv_accept_all r = false → rv_answers r = [] →
    ∃ r', review_loop join workspace n i diffs r = Return r'
          ∧ rv_accepted r' = rv_accepted r
          ∧ rv_rejected r' = rv_rejected r ++ diffs
          ∧ rv_disk r' = rv_disk r.
Proof.
  induction diffs as [|diff diffs IH]; intros i r Hoff Hans; cbn [review_loop].
  - exists r. by rewrite app_nil_r.
  - unfold review_step. rewrite Hoff, Hans. cbn [ask].
    destruct (IH (S i) (reject diff [] ([Preview (fd_path diff) (S i) n; Prompted]
                                        ++ [SaidSkipped]) r) Hoff eq_refl)
      as (r' & -> & Hacc & Hrej & Hdisk).
    exists r'. split; [done|]. cbn [reject rv_accepted rv_rejected rv_disk] in *.
    by rewrite Hrej, <- (assoc_L (++)).
Qed.

(** At the end of the input every prompt is answered by a skip: the
    whole set is rejected and the disk is not touched. *)
Theorem review_end_of_input (diffset : DiffSet) (workspace : path) (d : disk) :
  ∃ r, review join false diffset workspace d [] = Return r
       ∧ rv_accepted r = []
       ∧ rv_rejected r = ds_diffs diffset
       ∧ rv_disk r = d.
Proof.
  unfold review. destruct (ds_diffs diffset) as [|x diffs] eqn:E; [by eexists|].
  destruct (review_loop_no_answers workspace (length (x :: diffs)) (x :: diffs) 0
              (mkReviewing false [] [] d [] [Summary (length (x :: diffs))]) eq_refl eq_refl)
    as (r & Hrun & Hacc & Hrej & Hdisk).
  by exists r.
Qed.

End ReviewEffect.

(** ** The review of the shell *)

Section CliReview.

Variable join : path → string → path.

(** Once [accepted_all] is set, the rest of the set is written without
    another prompt. *)
Lemma cli_loop_accepted_all (workspace : path) (diffs : list FileDiff) :
  ∀ r : cli_review,
    cr_accepted_all r = true →
    cli_loop join workspace diffs r
    = match _apply_all join diffs workspace (cr_disk r) with
      | Raise e => Raise e
      | Return d' =>
          Return (mkCliReview true (cr_accepted_count r + length diffs) d' (cr_answers r))
      end.
Proof.
  induction diffs as [|diff diffs IH]; intros r Hall; cbn [cli_loop _apply_all].
  - destruct r as [all n d answers]. simpl in *. subst all. by rewrite Nat.add_0_r.
  - unfold cli_step, cli_write. rewrite Hall.
    change (_write_diff join diff workspace (cr_disk r))
      with (_apply_diff join diff workspace (cr_disk r)).
    destruct (_apply_diff join diff workspace (cr_disk r)) as [e|d1]; [done|].
    rewrite IH by done. cbn [cr_disk cr_accepted_count cr_answers length].
    destruct (_apply_all join diffs workspace d1); [done|].
    do 2 f_equal. lia.
Qed.

(** In [run_diff_review] the answers "all" and "a_all", in any case and
    with blanks around them, accept the diff at hand and all that follow:
    the whole rest of the set is applied, in order, with this one prompt,
    and the answers after it are not read. *)
Theorem cli_accept_all (diffset : DiffSet) (workspace : path) (d : disk)
    (typed : string) (more : list (option string)) :
  Py.lower (Py.strip typed) ∈ ["a_all"; "all"] →
  ds_diffs diffset ≠ [] →
  run_diff_review join diffset false workspace d (Some typed :: more)
  = match _apply_all join (ds_diffs diffset) workspace d with
    | Raise e => Raise e
    | Return d' => Return (mkCliReview true (length (ds_diffs diffset)) d' more)
    end.
Proof.
  intros Hresp Hne. unfold run_diff_review.
  destruct (ds_diffs diffset) as [|diff rest]; [done|].
  cbn [cli_loop _apply_all]. unfold cli_step, cli_write.
  cbn [cr_accepted_all cr_answers cr_disk cr_accepted_count].
  assert (Hask : cli_ask (Some typed :: more) = (VAcceptAll, more)).
  { cbn [cli_ask].
    apply elem_of_cons in Hresp as [->|Hresp]; [done|].
    apply list_elem_of_singleton in Hresp as ->. done. }
  rewrite Hask.
  change (_write_diff join diff workspace d) with (_apply_diff join diff workspace d).
  destruct (_apply_diff join diff workspace d) as [e|d1]; [done|].
  rewrite cli_loop_accepted_all by done.
  cbn [cr_disk cr_accepted_count cr_answers length].
  by destruct (_apply_all join rest workspace d1).
Qed.

End CliReview.

(** ** Memory *)

Lemma Memory_add_restores_bound_aux (c : config) (role content : string)
    (msgs : list message) :
  1 ≤ cfg_chat_history_limit c →
  Z.of_nat (length (Memory_add c role content msgs)) ≤ cfg_chat_history_limit c.
Proof.
  intros Hlim. unfold Memory_add.
  destruct (cfg_chat_history_limit c <? Z.of_nat (length (msgs ++ [Msg role content]))) eqn:E.
  - apply Z.ltb_lt in E. unfold slice_from.
    replace (- cfg_chat_history_limit c <? 0) with true by (symmetry; apply Z.ltb_lt; lia).
    rewrite length_drop. lia.
  - by apply Z.ltb_ge in E.
Qed.

(** One [add] brings the memory within the limit whatever it held
    before, also when the limit was lowered in between. *)
Theorem Memory_add_restores_bound (c : config) (role content : string)
    (msgs : list message) :
  1 ≤ cfg_chat_history_limit c →
  let stored := Memory_add c role content msgs in
  Z.of_nat (length stored) ≤ cfg_chat_history_limit c
  ∧ last stored = Some (Msg role content)
  ∧ stored `suffix_of` msgs ++ [Msg role content].
Proof.
  intros Hlim stored. unfold stored, Memory_add.
  destruct (cfg_chat_history_limit c <? Z.of_nat (length (msgs ++ [Msg role content]))) eqn:E.
  - apply Z.ltb_lt in E. unfold slice_from.
    replace (- cfg_chat_history_limit c <? 0) with true by (symmetry; apply Z.ltb_lt; lia).
    set (l := msgs ++ [Msg role content]) in *.
    set (k := Z.to_nat (Z.max (- cfg_chat_history_limit c + Z.of_nat (length l)) 0)).
    assert (Hk : (k < length l)%nat) by (unfold k; lia).
    split; [rewrite length_drop; unfold k; lia|]. split.
    + unfold l. rewrite drop_app_le by (unfold l in Hk; rewrite length_app in Hk; simpl in Hk; lia).
      by rewrite last_snoc.
    + apply suffix_drop.
  - apply Z.ltb_ge in E. split; [done|]. split; [by rewrite last_snoc|done].
Qed.

(** ** Tasks of a parsed plan *)

(** Every plan that the parser returns has at least one task, and each
    task is for a registered agent, named in lower case: lines for other
    agents are dropped. *)
Theorem parsed_tasks_registered (text : string) (plan : BuildPlan) :
  Plan.parse_build_plan text = Some plan →
  Py.contains "BUILD PLAN:" text = true
  ∧ bp_tasks plan ≠ []
  ∧ Forall (λ task, bt_agent task ∈ AGENT_NAMES ∧ Py.lower (bt_agent task) = bt_agent task)
      (bp_tasks plan).
Proof.
  unfold Plan.parse_build_plan. intros H.
  destruct (Py.contains "BUILD PLAN:" text); [|done]. cbn [negb] in H.
  destruct (Plan.extract_tasks text) as [|t ts] eqn:E; [done|].
  injection H as <-. cbn [bp_tasks]. split; [done|]. split; [done|].
  rewrite <- E. unfold Plan.extract_tasks. apply Forall_forall. intros task Hin.
  apply list_elem_of_omap in Hin as (m & _ & Htask). unfold Plan.task_of in Htask.
  case_bool_decide as Hreg; [|done]. injection Htask as <-. cbn [bt_agent].
  split; [done|].
  unfold AGENT_NAMES in Hreg.
  repeat (apply elem_of_cons in Hreg as [->|Hreg]; [reflexivity|]).
  by apply elem_of_nil in Hreg.
Qed.

(** ** More on the orchestrator *)

Lemma slice_to_len (s : string) : ∀ n, (Py.len (Py.slice_to n s) ≤ n)%nat.
Proof.
  induction s as [|a s IH]; intros n; cbn [Py.slice_to Py.len]; [lia|].
  destruct (Py.is_continuation a) eqn:E; cbn [Py.len].
  - rewrite E. apply IH.
  - destruct n as [|n]; cbn [Py.len]; [lia|]. rewrite E. specialize (IH n). lia.
Qed.

Lemma slice_to_prefix (s : string) : ∀ n, ∃ t, s = Py.slice_to n s +:+ t.
Proof.
  induction s as [|a s IH]; intros n; cbn [Py.slice_to]; [by exists ""|].
  destruct (Py.is_continuation a).
  - destruct (IH n) as [t Ht]. exists t. by rewrite app_cons, <- Ht.
  - destruct n as [|n]; [by eexists|].
    destruct (IH n) as [t Ht]. exists t. by rewrite app_cons, <- Ht.
Qed.

Lemma slice_to_all (s : string) : ∀ n, (Py.len s ≤ n)%nat → Py.slice_to n s = s.
Proof.
  induction s as [|a s IH]; intros n; cbn [Py.slice_to Py.len]; [done|].
  destruct (Py.is_continuation a).
  - intros H. by rewrite IH.
  - destruct n as [|n]; [lia|]. intros H. rewrite IH; [done|lia].
Qed.

(** What is echoed to the model of a tool's output is bounded: the
    payload begins with the success flag; it has an output entry exactly
    when the output is not empty, and that entry is a start of the
    output of at most 16000 code points, the whole output when that has
    no more of them. *)
Theorem api_payload_bounded (r : ToolResult) :
  head (api_payload r) = Some ("success", JBool (tr_success r))
  ∧ (tr_output r ≠ "" → ∃ s, ("output", JStr s) ∈ api_payload r)
  ∧ ∀ s, ("output", JStr s) ∈ api_payload r →
         tr_output r ≠ ""
         ∧ Z.of_nat (Py.len s) ≤ 16000
         ∧ (∃ t, tr_output r = s +:+ t)
         ∧ (Z.of_nat (Py.len (tr_output r)) ≤ 16000 → s = tr_output r).
Proof.
  unfold api_payload. remember (Z.to_nat 16000) as n eqn:Hn.
  split; [reflexivity|]. split.
  - intros Hout. eexists. apply list_elem_of_further, elem_of_app. left.
    rewrite bool_decide_eq_false_2 by done. apply list_elem_of_here.
  - intros s Hin.
    apply elem_of_cons in Hin as [Hin|Hin]; [discriminate|].
    apply elem_of_app in Hin as [Hin|Hin].
    + case_bool_decide as Hout; [by apply elem_of_nil in Hin|].
      apply list_elem_of_singleton in Hin. injection Hin as ->.
      split; [exact Hout|]. split; [|split].
      * pose proof (slice_to_len (tr_output r) n) as Hlen.
        apply Nat2Z.inj_le in Hlen. rewrite Hn in Hlen at 2.
        by rewrite Z2Nat.id in Hlen.
      * apply slice_to_prefix.
      * intros Hshort. apply slice_to_all. rewrite Hn.
        apply Nat2Z.inj_le. by rewrite Z2Nat.id.
    + apply elem_of_app in Hin as [Hin|Hin].
      * case_bool_decide; [by apply elem_of_nil in Hin|].
        apply list_elem_of_singleton in Hin. discriminate.
      * case_bool_decide; [by apply elem_of_nil in Hin|].
        apply list_elem_of_singleton in Hin. discriminate.
Qed.

Section OrchestratorMore.

Variable locate : path → string → path.
Context {Args : Type}.
Variable empty_args : Args.
Variable json_loads : string → option Args.
Variable json_dumps : list (string * jval) → string.
Variable arg_path : Args → string.
Context {Backend : Type}.
Variable complete : request → Backend → (exc + completion) * Backend.
Variable stream : request → Backend → (list string * option exc) * Backend.
Variable TOOL_CALLABLES :
  string → option (Args → path → store → (exc + ToolResult) * store).
Variable agent_of : string → option BaseAgent.
Variable CoderAgent : BaseAgent.
Variable ws_context : path → disk → string.
Variable ChatAgent : BaseAgent.
Variable DebugAgent : BaseAgent.

Local Abbreviation one_call' := (one_call empty_args json_loads json_dumps TOOL_CALLABLES).
Local Abbreviation tool_calls' := (tool_calls empty_args json_loads json_dumps TOOL_CALLABLES).
Local Abbreviation iteration' :=
  (iteration empty_args json_loads json_dumps complete stream TOOL_CALLABLES).
Local Abbreviation loop' :=
  (loop empty_args json_loads json_dumps complete stream TOOL_CALLABLES).
Local Abbreviation run_agent' :=
  (_run_agent empty_args json_loads json_dumps complete stream TOOL_CALLABLES).
Local Abbreviation run_task' :=
  (run_task empty_args json_loads json_dumps arg_path complete stream TOOL_CALLABLES
     agent_of CoderAgent ws_context).
Local Abbreviation run_tasks' :=
  (run_tasks empty_args json_loads json_dumps arg_path complete stream TOOL_CALLABLES
     agent_of CoderAgent ws_context).
Local Abbreviation build_body' :=
  (build_body empty_args json_loads json_dumps arg_path complete stream TOOL_CALLABLES
     agent_of CoderAgent ws_context).
Local Abbreviation execute_build' :=
  (execute_build locate empty_args json_loads json_dumps arg_path complete stream
     TOOL_CALLABLES agent_of CoderAgent ws_context).
Local Abbreviation chat_stream' :=
  (chat_stream empty_args json_loads json_dumps complete stream TOOL_CALLABLES
     ws_context ChatAgent).

(** An unknown tool name is answered with a failure that names it and
    nothing is touched; and whatever the tool does, no [TypeError] ever
    leaves [dispatch]: arguments that do not fit come back as a failure
    result. *)
Theorem dispatch_structured_failure (ws : path) (name : string) (args : Args) (st : store) :
  (TOOL_CALLABLES name = None →
   dispatch TOOL_CALLABLES ws name args st
   = (Return (failure ("Unknown tool: " +:+ name)), st))
  ∧ (∀ e st', dispatch TOOL_CALLABLES ws name args st = (Raise e, st') →
              exc_kind e ≠ TypeError)
  ∧ (∀ fn e st', TOOL_CALLABLES name = Some fn → fn args ws st = (Raise e, st') →
                 exc_kind e = TypeError →
                 ∃ result, dispatch TOOL_CALLABLES ws name args st = (Return result, st')
                           ∧ tr_success result = false).
Proof.
  unfold dispatch. split; [by intros ->|]. split.
  - intros e st' H. destruct (TOOL_CALLABLES name) as [fn|]; [|done].
    destruct (fn args ws st) as [[e0|result] st0]; [|done].
    case_bool_decide as Hk; [done|]. by injection H as <- <-.
  - intros fn e st' -> -> Hk. rewrite (bool_decide_eq_true_2 _ Hk). by eexists.
Qed.

(** The tool calls of one answer are executed in the order in which the
    model wrote them: the executed calls, with their ids and names, and
    the tool messages fed back follow that order, one for one. *)
Theorem tool_calls_in_order (agent : BaseAgent) (ws : path) (tcs : list tool_request) :
  ∀ r r' : run Args Backend,
    tool_calls' agent ws tcs r = Return r' →
    ∃ executed,
      r_all_tcs r' = r_all_tcs r ++ executed
      ∧ tc_tool_id <$> executed = tq_id <$> tcs
      ∧ tc_name <$> executed = tq_name <$> tcs
      ∧ r_msgs r' = r_msgs r ++ omap (tool_message json_dumps) executed
      ∧ length (omap (tool_message json_dumps) executed) = length tcs.
Proof.
  induction tcs as [|tc tcs IH]; intros r r' Hrun; cbn [tool_calls] in Hrun.
  - injection Hrun as <-. exists []. by rewrite !app_nil_r.
  - destruct (one_call' agent ws tc r) as [[e r1]|r1] eqn:Hone; [done|].
    unfold one_call in Hone.
    destruct (dispatch _ _ _ _ _) as [[e|result] st']; [done|].
    injection Hone as <-.
    destruct (IH _ _ Hrun) as (executed & Htcs & Hids & Hnames & Hmsgs & Hlen).
    cbn [r_all_tcs r_msgs push_msg yield push_tc with_store] in Htcs, Hmsgs.
    eexists (_ :: executed). split; [by rewrite Htcs, <- (assoc_L (++))|].
    split; [by rewrite fmap_cons, Hids|]. split; [by rewrite fmap_cons, Hnames|].
    split; [by rewrite Hmsgs, <- (assoc_L (++))|].
    cbn [omap list_omap tool_message tc_result]. simpl. by rewrite <- Hlen.
Qed.

Section LoopInvariant.

(** A relation between the states of a run that every step of the loop
    respects. *)
Variable R : run Args Backend → run Args Backend → Prop.
Hypothesis R_refl : ∀ r, R r r.
Hypothesis R_trans : ∀ r1 r2 r3, R r1 r2 → R r2 r3 → R r1 r3.
Hypothesis R_yield : ∀ c r, in_loop c = true → R r (yield c r).
Hypothesis R_dispatch : ∀ ws name args r,
  R r (with_store (dispatch TOOL_CALLABLES ws name args (r_store r)).2 r).
Hypothesis R_local : ∀ r r',
  r_chunks r' = r_chunks r → r_store r' = r_store r → R r r'.

Lemma one_call_respects (agent : BaseAgent) (ws : path) (tc : tool_request)
    (r : run Args Backend) :
  R r (state_of (one_call' agent ws tc r)).
Proof.
  unfold one_call.
  set (args := default empty_args (json_loads (tq_arguments tc))).
  set (r1 := yield _ r).
  pose proof (R_dispatch ws (tq_name tc) args r1) as Hd.
  assert (H1 : R r r1) by (by apply R_yield).
  destruct (dispatch _ _ _ _ (r_store r1)) as [[e|result] st']; cbn [state_of snd] in *.
  - by eapply R_trans.
  - set (r2 := with_store st' r1) in *.
    set (zen_tc := mkToolCall _ _ _ (Some result)).
    apply (R_trans _ (yield (CToolResult (ag_name agent) zen_tc) (push_tc zen_tc r2)));
      [|by apply R_local].
    apply (R_trans _ (push_tc zen_tc r2)); [|by apply R_yield].
    apply (R_trans _ r2); [|by apply R_local].
    by apply (R_trans _ r1).
Qed.

Lemma tool_calls_respect (agent : BaseAgent) (ws : path) (tcs : list tool_request) :
  ∀ r : run Args Backend, R r (state_of (tool_calls' agent ws tcs r)).
Proof.
  induction tcs as [|tc tcs IH]; intros r; cbn [tool_calls]; [apply R_refl|].
  pose proof (one_call_respects agent ws tc r) as H1.
  destruct (one_call' agent ws tc r) as [[e r1]|r1]; cbn [state_of] in *; [done|].
  by eapply R_trans.
Qed.

Lemma deltas_respect (name : string) (parts : list string) :
  ∀ r : run Args Backend, R r (foldl (λ acc d, yield (CDelta name d) acc) r parts).
Proof.
  induction parts as [|d parts IH]; intros r; simpl; [apply R_refl|].
  eapply R_trans; [|apply IH]. by apply R_yield.
Qed.

Lemma final_text_respects (agent : BaseAgent) (c : config) (ch : choice)
    (r : run Args Backend) :
  R r (final_text stream agent c ch r).
Proof.
  unfold final_text. destruct (stream _ _) as [[deltas broke] b'].
  set (parts := filter _ deltas).
  assert (H1 : R r (foldl (λ acc d, yield (CDelta (ag_name agent) d) acc)
                      (with_backend b' r) parts)).
  { eapply R_trans; [|apply deltas_respect]. by apply R_local. }
  destruct broke as [e|].
  - case_bool_decide.
    + eapply R_trans; [exact H1|]. by apply R_local.
    + eapply R_trans; [exact H1|].
      eapply R_trans; [|by apply R_yield]. by apply R_local.
  - eapply R_trans; [exact H1|]. by apply R_local.
Qed.

Lemma iteration_respects (agent : BaseAgent) (c : config) (r : run Args Backend) :
  R r match iteration' agent c r with
      | Raise (_, r') => r'
      | Return (_, r') => r'
      end.
Proof.
  unfold iteration. set (rq := mkRequest _ _ _ _).
  destruct (complete rq (r_backend r)) as [[e|resp] b']; [by apply R_local|].
  destruct (cp_choices resp) as [|ch rest]; [by apply R_local|].
  set (r1 := called rq (Return resp) b' _ _ r).
  assert (H1 : R r r1) by (by apply R_local).
  destruct (_ && _).
  - set (r2 := push_msg _ r1).
    pose proof (tool_calls_respect agent (cfg_workspace c) (ch_tool_calls ch) r2) as H2.
    assert (H12 : R r1 r2) by (by apply R_local).
    destruct (tool_calls' agent (cfg_workspace c) (ch_tool_calls ch) r2) as [[e r3]|r3];
      cbn [state_of] in H2; eapply R_trans; eauto.
  - eapply R_trans; [exact H1|]. apply final_text_respects.
Qed.

Lemma loop_respects (agent : BaseAgent) (c : config) (n : nat) :
  ∀ r : run Args Backend, R r (state_of (loop' n agent c r)).
Proof.
  induction n as [|n IH]; intros r; cbn [loop]; [apply R_refl|].
  pose proof (iteration_respects agent c r) as H1.
  destruct (iteration' agent c r) as [[e r1]|[[] r1]]; cbn [state_of] in *; [done| |done].
  by eapply R_trans.
Qed.

End LoopInvariant.

Lemma loop_yields_in_loop (agent : BaseAgent) (c : config) (n : nat) (r : run Args Backend) :
  yields_in_loop r (state_of (loop' n agent c r)).
Proof.
  apply loop_respects.
  - intros r0. exists []. by rewrite app_nil_r.
  - intros r1 r2 r3 (m1 & H1 & F1) (m2 & H2 & F2). exists (m1 ++ m2).
    split; [by rewrite H2, H1, (assoc_L (++))|by apply Forall_app].
  - intros ch r0 Hch. exists [ch]. split; [done|by repeat constructor].
  - intros ws name args r0. exists []. by rewrite app_nil_r.
  - intros r0 r' Hch _. exists []. by rewrite app_nil_r.
Qed.

Lemma dispatch_keeps_staging (ws : path) (name : string) (args : Args) (st : store) :
  (∀ fn, TOOL_CALLABLES name = Some fn → respects_staging fn) →
  is_Some (active_tracker st) →
  st_disk (dispatch TOOL_CALLABLES ws name args st).2 = st_disk st
  ∧ is_Some (active_tracker (dispatch TOOL_CALLABLES ws name args st).2).
Proof.
  intros Htool [t Ht]. unfold dispatch.
  destruct (TOOL_CALLABLES name) as [fn|] eqn:Hfn; [|cbn [snd]; by rewrite Ht].
  pose proof (Htool _ eq_refl args ws st t Ht) as Hres.
  destruct (fn args ws st) as [[e|result] st']; [|done].
  by case_bool_decide.
Qed.

Lemma keeps_staging_trans (d : disk) (r1 r2 r3 : run Args Backend) :
  keeps_staging d r1 r2 → keeps_staging d r2 r3 → keeps_staging d r1 r3.
Proof. intros H1 H2 H. by apply H2, H1. Qed.

Lemma keeps_staging_local (d : disk) (r r' : run Args Backend) :
  r_store r' = r_store r → keeps_staging d r r'.
Proof. intros Hst. unfold keeps_staging. by rewrite Hst. Qed.

Lemma one_call_keeps_staging (agent : BaseAgent) (ws : path) (tc : tool_request)
    (d : disk) (r : run Args Backend) :
  (∀ fn, TOOL_CALLABLES (tq_name tc) = Some fn → respects_staging fn) →
  keeps_staging d r (state_of (one_call' agent ws tc r)).
Proof.
  intros Htool [Hd Ha]. unfold one_call.
  set (args := default empty_args (json_loads (tq_arguments tc))).
  set (r1 := yield _ r).
  destruct (dispatch_keeps_staging ws (tq_name tc) args (r_store r1) Htool Ha) as [Hd' Ha'].
  destruct (dispatch _ _ _ _ (r_store r1)) as [[e|result] st']; cbn [state_of snd] in *;
    cbn [r_store with_store push_msg yield push_tc]; by rewrite Hd'.
Qed.

Lemma tool_calls_keep_staging (agent : BaseAgent) (ws : path) (d : disk)
    (tcs : list tool_request) : ∀ r : run Args Backend,
  (∀ tq fn, tq ∈ tcs → TOOL_CALLABLES (tq_name tq) = Some fn → respects_staging fn) →
  keeps_staging d r (state_of (tool_calls' agent ws tcs r)).
Proof.
  induction tcs as [|tc tcs IH]; intros r Htools; cbn [tool_calls]; [by intros H|].
  assert (H1 : keeps_staging d r (state_of (one_call' agent ws tc r))).
  { apply one_call_keeps_staging. intros fn. apply Htools, list_elem_of_here. }
  destruct (one_call' agent ws tc r) as [[e r1]|r1]; cbn [state_of] in *; [done|].
  eapply keeps_staging_trans; [exact H1|]. apply IH.
  intros tq fn Hin. by apply Htools, list_elem_of_further.
Qed.

Lemma iteration_keeps_staging (agent : BaseAgent) (c : config) (d : disk)
    (r : run Args Backend) :
  asks_only complete (λ name, ∀ fn, TOOL_CALLABLES name = Some fn → respects_staging fn) →
  keeps_staging d r match iteration' agent c r with
                    | Raise (_, r') => r'
                    | Return (_, r') => r'
                    end.
Proof.
  intros Hasks. unfold iteration. set (rq := mkRequest _ _ _ _).
  destruct (complete rq (r_backend r)) as [[e|resp] b'] eqn:Hcall;
    [by apply keeps_staging_local|].
  destruct (cp_choices resp) as [|ch rest] eqn:Hch; [by apply keeps_staging_local|].
  set (r1 := called rq (Return resp) b' _ _ r).
  assert (H1 : keeps_staging d r r1) by (by apply keeps_staging_local).
  destruct (_ && _).
  - set (r2 := push_msg _ r1).
    assert (H2 : keeps_staging d r2
                   (state_of (tool_calls' agent (cfg_workspace c) (ch_tool_calls ch) r2))).
    { apply tool_calls_keep_staging. intros tq fn Hin.
      exact (Hasks rq (r_backend r) resp b' ch rest tq Hcall Hch Hin fn). }
    assert (H12 : keeps_staging d r1 r2) by (by apply keeps_staging_local).
    destruct (tool_calls' agent (cfg_workspace c) (ch_tool_calls ch) r2) as [[e r3]|r3];
      cbn [state_of] in H2;
      (eapply keeps_staging_trans; [exact H1|]);
      (eapply keeps_staging_trans; [exact H12|exact H2]).
  - eapply keeps_staging_trans; [exact H1|].
    apply final_text_respects.
    + intros r0 H. exact H.
    + apply keeps_staging_trans.
    + intros ch0 r0 _. by apply keeps_staging_local.
    + intros r0 r' _ Hst. by apply keeps_staging_local.
Qed.

Lemma loop_keeps_staging (agent : BaseAgent) (c : config) (d : disk) (n : nat) :
  asks_only complete (λ name, ∀ fn, TOOL_CALLABLES name = Some fn → respects_staging fn) →
  ∀ r : run Args Backend, keeps_staging d r (state_of (loop' n agent c r)).
Proof.
  intros Hasks. induction n as [|n IH]; intros r; cbn [loop]; [by intros H|].
  pose proof (iteration_keeps_staging agent c d r Hasks) as H1.
  destruct (iteration' agent c r) as [[e r1]|[[] r1]]; cbn [state_of] in *; [done| |done].
  eapply keeps_staging_trans; [exact H1|apply IH].
Qed.

(** [_get_client] raises exactly when there is neither a client nor a
    key, and otherwise only notes that there is a client now. *)
Lemma get_client_spec (z : zen Backend) :
  match _get_client z with
  | Raise _ => ¬ client_ok z
  | Return z1 =>
      client_ok z ∧ z_client z1 = true ∧ z_cfg z1 = z_cfg z
      ∧ z_store z1 = z_store z ∧ z_backend z1 = z_backend z
      ∧ z_memory z1 = z_memory z ∧ z_pending_plan z1 = z_pending_plan z
      ∧ z_original_prompt z1 = z_original_prompt z
  end.
Proof.
  unfold _get_client, client_ok. destruct (z_client z) eqn:Hcl.
  - split; [by left|done].
  - case_bool_decide as Hkey; [by intros [?|?]|]. split; [by right|done].
Qed.

(** The chunks of an agent run obey a fixed order: first the chunks of
    the loop (tool invoked, tool completed, text fragments), then, only
    in a tracked run with staged changes, one "diffs ready" chunk with
    the diff set that the completion carries, and last the one
    completion chunk.  A tracked run leaves no tracker registered.  The
    only way out by an exception is a missing client with no API key,
    before anything has been yielded or requested. *)
Theorem run_agent_event_order (agent : BaseAgent) (prompt : string)
    (history : list message) (system_extra : string) (use_diff_tracker : bool)
    (tracker : option DiffTracker) (z : zen Backend) :
  let out := run_agent' agent prompt history system_extra use_diff_tracker tracker z in
  (ran_escaped out = None →
   client_ok z
   ∧ z_client (ran_zen out) = true
   ∧ (use_diff_tracker = true → st_tracker (z_store (ran_zen out)) = None)
   ∧ ∃ body tail response,
       ran_chunks out = body ++ tail ++ [CDone (ag_name agent) response]
       ∧ Forall (λ c, in_loop c = true) body
       ∧ (tail = []
          ∨ ∃ ds, tail = [CDiffReady (ag_name agent) ds]
                  ∧ use_diff_tracker = true
                  ∧ ds_diffs ds ≠ []
                  ∧ zr_diff_set response = Some ds))
  ∧ (∀ e, ran_escaped out = Some e →
          ¬ client_ok z ∧ ran_chunks out = [] ∧ ran_calls out = [] ∧ ran_zen out = z).
Proof.
  intros out. unfold out, _run_agent.
  pose proof (get_client_spec z) as Hclient.
  destruct (_get_client z) as [e0|z1].
  { split; [done|]. by intros e _. }
  destruct Hclient as (Hok & Hcl & _).
  set (r0 := mkRun _ _ _ _ _ _ _ _ _).
  pose proof (loop_yields_in_loop agent (z_cfg z) _MAX_ITERS r0) as (body & Hbody & Hloop).
  destruct (loop' _MAX_ITERS agent (z_cfg z) r0) as [[e r]|r];
    cbn [state_of] in Hbody; cbn [r_chunks r0 app] in Hbody;
    (split; [|done]); intros _;
    (split; [done|]); (split; [done|]).
  - split; [intros ->; reflexivity|].
    eexists body, [], _. rewrite Hbody. split; [done|]. split; [done|by left].
  - split.
    + intros ->. cbn. by destruct (st_tracker (r_store r)) eqn:E.
    + destruct use_diff_tracker; [|eexists body, [], _; rewrite Hbody; by eauto].
      destruct (st_tracker (r_store r)) as [t|];
        [|eexists body, [], _; rewrite Hbody; by eauto].
      case_bool_decide as Hd; [eexists body, [], _; rewrite Hbody; by eauto|].
      eexists body, [CDiffReady (ag_name agent) (dt_pending t)], _. rewrite Hbody.
      split; [done|]. split; [done|]. right. by exists (dt_pending t).
Qed.

(** With a client at hand an agent run does not raise, and it leaves
    the fields of [ZenCore] other than the client alone. *)
Lemma run_agent_client (agent : BaseAgent) (prompt : string) (history : list message)
    (system_extra : string) (use_diff_tracker : bool) (tracker : option DiffTracker)
    (z : zen Backend) :
  client_ok z →
  let out := run_agent' agent prompt history system_extra use_diff_tracker tracker z in
  ran_escaped out = None
  ∧ z_client (ran_zen out) = true
  ∧ z_memory (ran_zen out) = z_memory z
  ∧ z_pending_plan (ran_zen out) = z_pending_plan z
  ∧ z_original_prompt (ran_zen out) = z_original_prompt z
  ∧ ∃ before response,
      ran_chunks out = before ++ [CDone (ag_name agent) response] ∧ quiet before.
Proof.
  intros Hok out. unfold out, _run_agent.
  pose proof (get_client_spec z) as Hclient.
  destruct (_get_client z) as [e0|z1]; [done|].
  destruct Hclient as (_ & Hcl & _ & _ & _ & Hmem & Hplan & Hprompt).
  set (r0 := mkRun _ _ _ _ _ _ _ _ _).
  destruct (loop_spec empty_args json_loads json_dumps complete stream TOOL_CALLABLES
              agent (z_cfg z) _MAX_ITERS r0)
    as (calls & more & _ & _ & Hchunks & Hquiet & _).
  cbn [r_chunks r0 app] in Hchunks.
  destruct (loop' _MAX_ITERS agent (z_cfg z) r0) as [[e r]|r]; cbn [state_of] in Hchunks;
    (split; [done|]); (split; [done|]); (split; [done|]); (split; [done|]);
    (split; [done|]); cbn [ran_chunks]; rewrite Hchunks.
  - by eexists more, _.
  - eexists (more ++ _), _. rewrite <- (assoc_L (++)). split; [reflexivity|].
    apply Forall_app. split; [done|].
    destruct use_diff_tracker; [|constructor].
    destruct (st_tracker (r_store r)) as [t|]; [|constructor].
    case_bool_decide; by repeat constructor.
Qed.

(** While a tracker intercepts, an agent run in which the model asks
    only for tools that go by the tracker (as [file_write] does, and
    [file_delete] does not) leaves the disk exactly as it was, however
    many calls are made and however the run ends.  Tools of the table
    that the model does not ask for are under no condition. *)
Theorem tracked_run_keeps_disk (agent : BaseAgent) (prompt : string)
    (history : list message) (system_extra : string) (tracker : option DiffTracker)
    (z : zen Backend) :
  asks_only complete (λ name, ∀ fn, TOOL_CALLABLES name = Some fn → respects_staging fn) →
  (∀ t, tracker = Some t → dt_active t = true) →
  st_disk (z_store (ran_zen (run_agent' agent prompt history system_extra true tracker z)))
  = st_disk (z_store z).
Proof.
  intros Hasks Hactive. unfold _run_agent.
  pose proof (get_client_spec z) as Hclient.
  destruct (_get_client z) as [e0|z1]; [done|].
  destruct Hclient as (_ & _ & _ & Hst & _).
  set (r0 := mkRun _ _ _ _ _ _ _ _ _).
  pose proof (loop_keeps_staging agent (z_cfg z) (st_disk (z_store z)) _MAX_ITERS Hasks r0)
    as Hkeep.
  assert (Hstart : st_disk (r_store r0) = st_disk (z_store z)
                   ∧ is_Some (active_tracker (r_store r0))).
  { unfold r0. cbn [r_store]. destruct tracker as [t|].
    - cbn. rewrite Hst. split; [done|]. unfold active_tracker. cbn.
      rewrite (Hactive t eq_refl). by eexists.
    - cbn. rewrite Hst. split; [done|]. by eexists. }
  destruct (Hkeep Hstart) as [Hdisk _].
  destruct (loop' _MAX_ITERS agent (z_cfg z) r0) as [[e r]|r]; cbn [state_of] in Hdisk; cbn.
  - done.
  - by destruct (st_tracker (r_store r)).
Qed.

(** ** Plans are run to the end *)

Lemma run_task_started (plan : BuildPlan) (auto_accept : bool) (task : BuildTask)
    (b : building Args Backend) :
  client_ok (b_zen b) →
  ∃ b', run_task' plan auto_accept task b = Return b'
        ∧ client_ok (b_zen b')
        ∧ z_cfg (b_zen b') = z_cfg (b_zen b)
        ∧ z_pending_plan (b_zen b') = z_pending_plan (b_zen b)
        ∧ b_roots b' = b_roots b ++ [(bt_label task, cfg_workspace (z_cfg (b_zen b)))].
Proof.
  intros Hok. unfold run_task.
  lazymatch goal with
  | |- context [_run_agent _ _ _ _ _ _ ?a ?p ?h ?x ?u ?t ?zz] =>
      destruct (run_agent_client a p h x u t zz Hok) as (Hesc & Hcl & _ & Hplan & _);
      pose proof (run_agent_cfg empty_args json_loads json_dumps complete stream
                    TOOL_CALLABLES a p h x u t zz) as Hcfg;
      set (out := _run_agent _ _ _ _ _ _ a p h x u t zz) in *
  end.
  rewrite Hesc. eexists. split; [reflexivity|].
  cbn [b_zen b_roots]. split; [by left|]. by repeat split.
Qed.

Lemma run_tasks_started (plan : BuildPlan) (auto_accept : bool) (tasks : list BuildTask) :
  ∀ b : building Args Backend,
    client_ok (b_zen b) →
    ∃ b', run_tasks' plan auto_accept tasks b = Return b'
          ∧ z_cfg (b_zen b') = z_cfg (b_zen b)
          ∧ z_pending_plan (b_zen b') = z_pending_plan (b_zen b)
          ∧ b_roots b'
            = b_roots b ++ ((λ task, (bt_label task, cfg_workspace (z_cfg (b_zen b)))) <$> tasks).
Proof.
  induction tasks as [|task tasks IH]; intros b Hok; cbn [run_tasks].
  - exists b. by rewrite app_nil_r.
  - destruct (run_task_started plan auto_accept task b Hok)
      as (b1 & -> & Hok1 & Hcfg1 & Hplan1 & Hroots1).
    destruct (IH b1 Hok1) as (b' & -> & Hcfg & Hplan & Hroots).
    exists b'. split; [done|]. split; [congruence|]. split; [congruence|].
    rewrite Hroots, Hroots1, Hcfg1, fmap_cons, <- (assoc_L (++)). done.
Qed.

Lemma build_body_completes (plan : BuildPlan) (auto_accept : bool) (original_ws : path)
    (z : zen Backend) :
  client_ok z →
  let out := build_body' plan auto_accept original_ws z in
  bu_escaped out = None
  ∧ bu_roots out = (λ task, (bt_label task, cfg_workspace (z_cfg z))) <$> bp_tasks plan
  ∧ z_pending_plan (bu_zen out) = None
  ∧ last (bu_chunks out) = Some (CStatus ("✅ BUILD COMPLETE — " +:+ bp_name plan) "ok" "chat").
Proof.
  intros Hok. unfold build_body.
  set (b0 := mkBuilding _ _ _ _).
  destruct (run_tasks_started plan auto_accept (bp_tasks plan) b0 Hok)
    as (b' & -> & _ & _ & Hroots).
  cbn. split; [done|]. split; [done|]. split; [done|]. apply last_snoc.
Qed.


(** ** A chat turn and the memory *)

Lemma quiet_chat_chunks (user_input : string) (chunks : list (chunk Args)) :
  quiet chunks →
  ∀ z : zen Backend, foldl (on_chat_chunk user_input) z chunks = z.
Proof.
  induction 1 as [|c chunks Hc _ IH]; intros z; simpl; [done|].
  rewrite <- (IH z) at 2. f_equal. by destruct c.
Qed.

(** A chat turn always records what the user typed, and records the
    answer only when the turn ends without error; the memory is within
    its limit afterwards; and a turn that ends in an error leaves the
    pending plan as it was. *)
Theorem chat_stream_memory (user_input : string) (z : zen Backend) :
  client_ok z →
  1 ≤ cfg_chat_history_limit (z_cfg z) →
  let out := chat_stream' user_input z in
  let asked := Memory_add (z_cfg z) "user" user_input (z_memory z) in
  ∃ before response,
    ran_chunks out = before ++ [CDone (ag_name ChatAgent) response]
    ∧ quiet before
    ∧ z_memory (ran_zen out)
      = (if zr_ok response then Memory_add (z_cfg z) "assistant" (zr_text response) asked
         else asked)
    ∧ Z.of_nat (length (z_memory (ran_zen out))) ≤ cfg_chat_history_limit (z_cfg z)
    ∧ (zr_ok response = false → z_pending_plan (ran_zen out) = z_pending_plan z).
Proof.
  intros Hok Hlim out asked. unfold out, chat_stream.
  set (z1 := with_memory _ z).
  assert (Hok1 : client_ok z1) by done.
  set (run := _run_agent _ _ _ _ _ _ _ _ _ _ _ _ _).
  destruct (run_agent_client ChatAgent user_input (but_last (z_memory z1))
              (ws_context (cfg_workspace (z_cfg z1)) (st_disk (z_store z1))) false None z1 Hok1)
    as (_ & _ & Hmem & Hplan & _ & before & response & Hchunks & Hquiet).
  fold run in Hmem, Hplan, Hchunks.
  pose proof (run_agent_cfg empty_args json_loads json_dumps complete stream TOOL_CALLABLES
                ChatAgent user_input (but_last (z_memory z1))
                (ws_context (cfg_workspace (z_cfg z1)) (st_disk (z_store z1))) false None z1)
    as Hcfg.
  fold run in Hcfg.
  exists before, response. cbn [ran_chunks ran_zen]. split; [done|]. split; [done|].
  rewrite Hchunks, foldl_app, (quiet_chat_chunks _ _ Hquiet). cbn [foldl on_chat_chunk].
  assert (Hasked : z_memory (ran_zen run) = asked) by (by rewrite Hmem).
  assert (Hc : z_cfg (ran_zen run) = z_cfg z) by (by rewrite Hcfg).
  assert (Hbound : Z.of_nat (length asked) ≤ cfg_chat_history_limit (z_cfg z)).
  { apply (Memory_add_restores_bound_aux (z_cfg z) "user" user_input (z_memory z) Hlim). }
  destruct (zr_ok response).
  - rewrite Hasked, Hc.
    assert (Hb2 : Z.of_nat (length (Memory_add (z_cfg z) "assistant" (zr_text response) asked))
                  ≤ cfg_chat_history_limit (z_cfg z)).
    { apply (Memory_add_restores_bound_aux (z_cfg z) "assistant" _ asked Hlim). }
    destruct (Plan.parse_build_plan (zr_text response)); cbn; by repeat split.
  - rewrite Hasked. split; [done|]. split; [done|]. intros _. by rewrite Hplan.
Qed.

End OrchestratorMore.

(** ** Deleting, patching and creating directly *)

Lemma replace1_same (old s : string) : Py.replace1 old old s = s.
Proof.
  assert (Hpre : ∀ p t, Py.startswith p t = true → p +:+ Py.drop (String.length p) t = t).
  { induction p as [|a p IH]; intros t H; [done|].
    destruct t as [|b t]; [done|]. simpl in H. destruct (decide (a = b)) as [->|]; [|done].
    change (String b (p +:+ Py.drop (String.length p) t) = String b t).
    f_equal. by apply IH. }
  induction s as [|a s IH].
  - cbn. destruct (Py.startswith old "") eqn:E; [by apply Hpre|done].
  - cbn [Py.replace1]. destruct (Py.startswith old (String a s)) eqn:E; [by apply Hpre|].
    by rewrite IH.
Qed.

Lemma size_line_set (l : list string) : (size (list_to_set l : gset string) ≤ length l)%nat.
Proof.
  induction l as [|x l IH]; [by rewrite list_to_set_nil, size_empty|].
  rewrite list_to_set_cons, size_union_alt, size_singleton. simpl.
  pose proof (subseteq_size (list_to_set l ∖ {[x]}) (list_to_set l : gset string)) as H.
  assert (list_to_set l ∖ {[x]} ⊆ (list_to_set l : gset string)) by set_solver.
  specialize (H ltac:(done)). lia.
Qed.

(** The line counts of a diff are counts of distinct lines: a diff that
    changes nothing counts zero both ways, a new line is counted once
    however often it occurs, so the count of added lines is at most the
    number of lines of the new content (and likewise for removed lines
    and the old content), and the two counts differ by the difference of
    the numbers of distinct lines. *)
Theorem line_counts_are_of_distinct_lines (diff : FileDiff) :
  (fd_old_content diff = fd_new_content diff → lines_added diff = 0%nat ∧ lines_removed diff = 0%nat)
  ∧ (lines_added diff ≤ length (splitlines (fd_new_content diff)))%nat
  ∧ (lines_removed diff ≤ length (splitlines (fd_old_content diff)))%nat
  ∧ (lines_added diff + size (line_set (fd_old_content diff))
     = lines_removed diff + size (line_set (fd_new_content diff)))%nat.
Proof.
  unfold lines_added, lines_removed.
  set (new := line_set (fd_new_content diff)). set (old := line_set (fd_old_content diff)).
  split; [|split; [|split]].
  - intros E. unfold new, old. rewrite E, difference_diag_L. by rewrite size_empty.
  - etrans; [apply (subseteq_size (new ∖ old) new); set_solver|]. apply size_line_set.
  - etrans; [apply (subseteq_size (old ∖ new) old); set_solver|]. apply size_line_set.
  - rewrite (Nat.add_comm _ (size old)), (Nat.add_comm _ (size new)).
    rewrite <- !size_union_alt. f_equal. set_solver.
Qed.

Section DirectTools.

Variable locate : path → string → path.
Variable join : path → string → path.
Variable repr : string → string.

(** [file_delete] acts on the disk at once and never on the tracker: a
    missing path is a failure that changes nothing, a file is removed
    alone, and a directory goes with everything below it and nothing
    else. *)
Theorem file_delete_effect (ws : path) (path_ : string) (st : store) :
  let d := st_disk st in
  let p := locate ws path_ in
  let out := file_delete locate ws path_ st in
  st_tracker out.2 = st_tracker st
  ∧ (Fs.exists_ d p = false → out = (failure ("Not found: " +:+ path_), st))
  ∧ (p ≠ [] → ∀ content, d !! p = Some (File content) →
     tr_success out.1 = true ∧ st_disk out.2 = delete p d)
  ∧ (p ≠ [] → d !! p = Some Dir →
     tr_success out.1 = true
     ∧ ∀ q, st_disk out.2 !! q = if decide (p `prefix_of` q) then None else d !! q).
Proof.
  intros d p out. unfold out, file_delete. fold p d. split; [|split; [|split]].
  - destruct (Fs.exists_ d p); [|done]. cbn [negb].
    destruct (Fs.is_dir d p).
    + by destruct (Fs.rmtree p d).
    + by destruct (Fs.unlink p d).
  - by intros ->.
  - intros Hne content Hfile. unfold Fs.exists_, Fs.is_dir, Fs.unlink. rewrite Hfile.
    rewrite (bool_decide_eq_false_2 (p = [])) by done.
    rewrite (bool_decide_eq_true_2 (is_Some _)) by done.
    by rewrite (bool_decide_eq_false_2 (Some (File content) = Some Dir)).
  - intros Hne Hdir. unfold Fs.exists_, Fs.is_dir, Fs.rmtree. rewrite Hdir.
    rewrite (bool_decide_eq_false_2 (p = [])) by done.
    rewrite (bool_decide_eq_true_2 (is_Some _)) by done.
    rewrite (bool_decide_eq_true_2 (Some Dir = Some Dir)) by done.
    cbn. split; [done|]. intros q. destruct (decide (p `prefix_of` q)) as [Hpre|Hpre].
    + apply map_lookup_filter_None. right. intros x _ Hnot. by apply Hnot.
    + destruct (d !! q) as [x|] eqn:E.
      * by apply map_lookup_filter_Some.
      * apply map_lookup_filter_None. by left.
Qed.

(** With no tracker intercepting, [file_patch] of a file whose text
    holds [old_str] rewrites that file alone, and rewrites all of it:
    the file then holds the text that was read from it, that is its
    bytes decoded, with the first occurrence replaced.  A patch that
    replaces a text by itself therefore leaves the decoded text behind,
    which is the file as it was only where decoding changes nothing
    (well-formed UTF-8 with LF line ends). *)
Theorem file_patch_direct (ws : path) (path_ old_str new_str content : string)
    (st : store) :
  let d := st_disk st in
  let p := locate ws path_ in
  let out := file_patch locate join repr ws path_ old_str new_str st in
  active_tracker st = None →
  d !! p = Some (File content) →
  Fs.is_dir d (Fs.parent p) = true →
  Py.contains old_str (Py.decode content) = true →
  p ≠ [] →
  out = (success ("✔ patched " +:+ path_),
         set_disk (<[p := File (Py.replace1 old_str new_str (Py.decode content))]> d) st)
  ∧ (new_str = old_str → st_disk out.2 = <[p := File (Py.decode content)]> d)
  ∧ (new_str = old_str → Py.decode content = content → st_disk out.2 = d).
Proof.
  intros d p out Hnone Hfile Hparent Hin Hne.
  assert (Hout : out = (success ("✔ patched " +:+ path_),
                        set_disk (<[p := File (Py.replace1 old_str new_str
                                                 (Py.decode content))]> d) st)).
  { unfold out, file_patch, Fs.exists_, Fs.read_text. fold p d. rewrite Hfile.
    rewrite (bool_decide_eq_true_2 (is_Some _)) by done.
    rewrite orb_true_r. cbn [negb]. rewrite Hin. cbn [negb]. rewrite Hnone.
    unfold Fs.write_text, Fs.writable, Fs.is_dir at 1. rewrite Hfile.
    rewrite (bool_decide_eq_false_2 (p = [])) by done.
    rewrite (bool_decide_eq_false_2 (Some (File content) = Some Dir)) by done.
    cbn [orb]. by rewrite Hparent. }
  split; [done|].
  assert (Hself : new_str = old_str → st_disk out.2 = <[p := File (Py.decode content)]> d).
  { intros ->. rewrite Hout. cbn. by rewrite replace1_same. }
  split; [done|]. intros Hnew Hdec. rewrite (Hself Hnew), Hdec. by apply insert_id.
Qed.

(** Creating a directory twice is creating it once: after a call that
    succeeded the location is a directory, and a second call succeeds,
    reports that it exists and leaves the disk as it is. *)
Theorem create_directory_idempotent (ws : path) (path_ : string) (st : store) :
  let out := create_directory locate ws path_ st in
  tr_success out.1 = true →
  Fs.is_dir (st_disk out.2) (locate ws path_) = true
  ∧ ∃ rel, create_directory locate ws path_ out.2 = (success ("✔ exists " +:+ rel), out.2).
Proof.
  intros out Hok. unfold out, create_directory in *.
  set (p := locate ws path_) in *. unfold Fs.mkdir_parents in *.
  destruct (Fs.mkdir_from [] p (st_disk st)) as [e|d'] eqn:Hmk; [done|].
  destruct (rel_path p ws) as [e|rel] eqn:Hrel; [by cbn in Hok|].
  destruct (mkdir_from_inv _ _ _ _ Hmk) as [Hdirs _].
  assert (Hdir : Fs.is_dir d' p = true).
  { unfold Fs.is_dir. destruct (decide (p = [])) as [->|Hne]; [done|].
    rewrite (bool_decide_eq_true_2 (d' !! p = Some Dir)); [apply orb_true_r|].
    by apply Hdirs, on_the_way_root. }
  assert (Hex : Fs.exists_ d' p = true).
  { unfold Fs.is_dir in Hdir. unfold Fs.exists_.
    apply orb_true_iff in Hdir as [->|Hd]; [done|].
    apply bool_decide_eq_true in Hd. rewrite (bool_decide_eq_true_2 (is_Some _)) by (by rewrite Hd).
    apply orb_true_r. }
  assert (Hagain : Fs.mkdir_from [] p d' = Return d').
  { destruct (mkdir_from_spec p [] d') as (d'' & Hrun & Hdirs' & Hsame').
    { intros q content Hq. by rewrite (Hdirs q Hq). }
    rewrite Hrun. f_equal. apply map_eq. intros q.
    destruct (decide (q `prefix_of` [] ++ p ∧ (length (@nil string) < length q)%nat))
      as [Hq|Hq].
    - by rewrite (Hdirs' q Hq), (Hdirs q Hq).
    - by apply Hsame'. }
  destruct (Fs.exists_ (st_disk st) p); cbn [fst snd st_disk set_disk];
    (split; [done|]); rewrite Hagain, Hex; exists rel; by destruct st.
Qed.

End DirectTools.

(** ** The further properties at concrete inputs *)

Lemma file_write_direct_witness :
  st_disk (file_write sample_locate sample_join ["ws"] "src/b.txt" "B" "write" plain_store).2
    !! ["ws"; "src"; "b.txt"] = Some (File "B")
  ∧ tr_success (file_write sample_locate sample_join ["ws"] "src/b.txt" "B" "write"
                  plain_store).1 = true.
Proof.
  destruct (file_write_direct sample_locate sample_join ["ws"] "src/b.txt" "B" "write"
              plain_store
              eq_refl eq_refl) as (H1 & _ & _ & _ & H5).
  - intros q content _ Hq H. unfold plain_store in H. cbn [st_disk] in H.
    apply lookup_singleton_Some in H as [<- _].
    destruct Hq as [k Hk]. inversion Hk.
  - split; [exact H1|]. apply H5. by exists ["src"; "b.txt"].
Defined.

Lemma review_applies_accepted_witness :
  ∃ r, review sample_join false sample_diffset ["ws"] ∅ [Some "y"; Some "n"] = Return r
       ∧ _apply_all sample_join (rv_accepted r) ["ws"] ∅ = Return (rv_disk r)
       ∧ rv_accepted r ++ rv_rejected r ≡ₚ ds_diffs sample_diffset
       ∧ rv_accepted r `sublist_of` ds_diffs sample_diffset.
Proof.
  destruct (review sample_join false sample_diffset ["ws"] ∅ [Some "y"; Some "n"])
    as [e|r] eqn:E; [vm_compute in E; discriminate|].
  exists r. split; [reflexivity|].
  exact (review_applies_accepted sample_join false sample_diffset ["ws"] ∅
           [Some "y"; Some "n"] r E).
Defined.

Lemma cli_accept_all_witness :
  run_diff_review sample_join sample_diffset false ["ws"] ∅ [Some " ALL "; Some "n"]
  = match _apply_all sample_join (ds_diffs sample_diffset) ["ws"] ∅ with
    | Raise e => Raise e
    | Return d' => Return (mkCliReview true (length (ds_diffs sample_diffset)) d' [Some "n"])
    end.
Proof.
  apply (cli_accept_all sample_join sample_diffset ["ws"] ∅ " ALL " [Some "n"]).
  - vm_compute. apply list_elem_of_further, list_elem_of_here.
  - discriminate.
Defined.

Lemma Memory_add_restores_bound_witness :
  let stored := Memory_add sample_config "user" "d"
                  [Msg "user" "a"; Msg "assistant" "b"; Msg "user" "c"; Msg "assistant" "x"] in
  Z.of_nat (length stored) ≤ cfg_chat_history_limit sample_config
  ∧ last stored = Some (Msg "user" "d")
  ∧ stored `suffix_of` [Msg "user" "a"; Msg "assistant" "b"; Msg "user" "c"; Msg "assistant" "x"]
                        ++ [Msg "user" "d"].
Proof.
  apply (Memory_add_restores_bound sample_config "user" "d"). vm_compute. discriminate.
Defined.

Lemma parsed_tasks_registered_witness :
  Py.contains "BUILD PLAN:" sample_plan_text = true
  ∧ [mkBuildTask "coder" "C1" "do X"; mkBuildTask "debug" "D1" "fix"] ≠ []
  ∧ Forall (λ task, bt_agent task ∈ AGENT_NAMES ∧ Py.lower (bt_agent task) = bt_agent task)
      [mkBuildTask "coder" "C1" "do X"; mkBuildTask "debug" "D1" "fix"].
Proof.
  apply (parsed_tasks_registered sample_plan_text
           (mkBuildPlan "Foo" "." "Go"
              [mkBuildTask "coder" "C1" "do X"; mkBuildTask "debug" "D1" "fix"])).
  vm_compute. reflexivity.
Defined.

Lemma line_counts_are_of_distinct_lines_witness :
  lines_added (mkFileDiff "a.txt" "x" "x" false false) = 0%nat
  ∧ lines_removed (mkFileDiff "a.txt" "x" "x" false false) = 0%nat.
Proof.
  apply (proj1 (line_counts_are_of_distinct_lines (mkFileDiff "a.txt" "x" "x" false false))).
  reflexivity.
Defined.

Lemma file_delete_effect_witness :
  tr_success (file_delete sample_locate ["ws"] "a.txt" plain_store).1 = true
  ∧ st_disk (file_delete sample_locate ["ws"] "a.txt" plain_store).2
    = delete ["ws"; "a.txt"] (st_disk plain_store).
Proof.
  apply (proj1 (proj2 (proj2 (file_delete_effect sample_locate ["ws"] "a.txt" plain_store)))
           ltac:(discriminate) "hello world").
  reflexivity.
Defined.

(** A patch that replaces a word by itself in a file whose lines end
    with CR LF rewrites the file with LF line ends. *)
Lemma file_patch_direct_witness :
  file_patch sample_locate sample_join sample_repr ["ws"] "a.txt" "two" "two" dos_rooted_store
  = (success "✔ patched a.txt",
     set_disk (<[ ["ws"; "a.txt"] := File ("one" +:+ nl +:+ "two" +:+ nl) ]>
                 (st_disk dos_rooted_store)) dos_rooted_store)
  ∧ st_disk (file_patch sample_locate sample_join sample_repr ["ws"] "a.txt" "two" "two"
               dos_rooted_store).2
    = <[ ["ws"; "a.txt"] := File ("one" +:+ nl +:+ "two" +:+ nl) ]> (st_disk dos_rooted_store).
Proof.
  destruct (file_patch_direct sample_locate sample_join sample_repr ["ws"] "a.txt" "two" "two"
              ("one" +:+ cr +:+ nl +:+ "two" +:+ cr +:+ nl) dos_rooted_store)
    as (H1 & H2 & _); [reflexivity|reflexivity|reflexivity|reflexivity|discriminate|].
  split; [exact H1|]. apply H2. reflexivity.
Defined.

(** [file_write] goes by the tracker whatever its arguments. *)
Lemma file_write_goes_by_tracker {Args : Type} (locate join : path → string → path)
    (path_ content mode : Args → string) :
  respects_staging (λ args ws st,
    let out := file_write locate join ws (path_ args) (content args) (mode args) st in
    (Return out.1, out.2)).
Proof.
  intros args ws st t Hactive. cbn [snd].
  destruct (active_tracker_inv _ _ Hactive) as [_ Hact].
  unfold file_write. rewrite Hactive. unfold staged, intercept_write, active_tracker.
  cbn. rewrite Hact. split; [done|]. by eexists.
Qed.

(** [insistent] asks for [file_write] alone, which goes by the tracker
    in [file_tools]; the [file_delete] of that table does not. *)
Lemma insistent_asks_for_staged_tools :
  asks_only insistent (λ name, ∀ fn, file_tools name = Some fn → respects_staging fn).
Proof.
  intros rq b resp b' ch rest tq Hcall Hch Hin fn Hfn.
  unfold insistent in Hcall. injection Hcall as <- _. cbn [cp_choices] in Hch.
  injection Hch as <- _. cbn [ch_tool_calls] in Hin.
  apply list_elem_of_singleton in Hin as ->. cbn [tq_name] in Hfn.
  unfold file_tools in Hfn. rewrite bool_decide_eq_true_2 in Hfn by done.
  injection Hfn as <-.
  apply (file_write_goes_by_tracker sample_locate sample_join
           (λ _, "notes.txt") (λ _, "x") (λ _, "write")).
Qed.

Lemma create_directory_idempotent_witness :
  Fs.is_dir (st_disk (create_directory sample_locate ["ws"] "src" plain_store).2)
    (sample_locate ["ws"] "src") = true
  ∧ ∃ rel,
      create_directory sample_locate ["ws"] "src"
        (create_directory sample_locate ["ws"] "src" plain_store).2
      = (success ("✔ exists " +:+ rel),
         (create_directory sample_locate ["ws"] "src" plain_store).2).
Proof.
  apply (create_directory_idempotent sample_locate ["ws"] "src" plain_store). reflexivity.
Defined.

(** An output of five code points in six bytes is echoed whole. *)
Lemma api_payload_bounded_witness :
  ("output", JStr "héllo") ∈ api_payload (success "héllo")
  ∧ Py.len "héllo" = 5%nat
  ∧ String.length "héllo" = 6%nat
  ∧ Z.of_nat (Py.len "héllo") ≤ 16000.
Proof.
  assert (Hin : ("output", JStr "héllo") ∈ api_payload (success "héllo")).
  { apply list_elem_of_further, list_elem_of_here. }
  destruct (proj2 (proj2 (api_payload_bounded (success "héllo"))) "héllo" Hin)
    as (_ & Hlen & _ & _).
  split; [exact Hin|]. split; [reflexivity|]. split; [reflexivity|exact Hlen].
Defined.

Lemma dispatch_structured_failure_witness :
  dispatch sample_tools ["ws"] "nope" tt plain_store
  = (Return (failure ("Unknown tool: " +:+ "nope")), plain_store).
Proof.
  apply (proj1 (dispatch_structured_failure sample_tools ["ws"] "nope" tt plain_store)).
  reflexivity.
Defined.

Lemma tool_calls_in_order_witness :
  ∃ r' executed,
    tool_calls tt (λ _, Some tt) (λ _, "{}") sample_tools sample_agent ["ws"]
      two_requests fresh_run = Return r'
    ∧ r_all_tcs r' = r_all_tcs fresh_run ++ executed
    ∧ tc_tool_id <$> executed = tq_id <$> two_requests
    ∧ tc_name <$> executed = tq_name <$> two_requests
    ∧ r_msgs r' = r_msgs fresh_run ++ omap (tool_message (λ _, "{}")) executed
    ∧ length (omap (tool_message (λ _, "{}")) executed) = length two_requests.
Proof.
  destruct (tool_calls tt (λ _, Some tt) (λ _, "{}") sample_tools sample_agent ["ws"]
              two_requests fresh_run) as [er|r'] eqn:E; [vm_compute in E; discriminate|].
  destruct (tool_calls_in_order tt (λ _, Some tt) (λ _, "{}") sample_tools sample_agent
              ["ws"] two_requests fresh_run r' E) as (executed & H).
  by exists r', executed.
Defined.

Lemma run_agent_event_order_witness :
  client_ok (sample_zen "key" None)
  ∧ z_client (ran_zen tracked_sample_run) = true
  ∧ (true = true → st_tracker (z_store (ran_zen tracked_sample_run)) = None)
  ∧ ∃ body tail response,
      ran_chunks tracked_sample_run = body ++ tail ++ [CDone (ag_name sample_agent) response]
      ∧ Forall (λ c, in_loop c = true) body
      ∧ (tail = []
         ∨ ∃ ds, tail = [CDiffReady (ag_name sample_agent) ds]
                 ∧ true = true
                 ∧ ds_diffs ds ≠ []
                 ∧ zr_diff_set response = Some ds).
Proof.
  apply (proj1 (run_agent_event_order tt (λ _, Some tt) (λ _, "{}") insistent silent
                  sample_tools sample_agent "do X" [] "" true None (sample_zen "key" None))).
  vm_compute. reflexivity.
Defined.

Lemma tracked_run_keeps_disk_witness :
  st_disk (z_store (ran_zen (tracked_file_run insistent))) = st_disk rooted_store.
Proof.
  apply (tracked_run_keeps_disk tt (λ _, Some tt) (λ _, "{}") insistent silent file_tools
           file_agent "do X" [] "" None rooted_zen).
  - exact insistent_asks_for_staged_tools.
  - intros t Ht. discriminate.
Defined.

(** The condition on what the model asks for is needed: in the same
    tracked run a model that asks for [file_delete] removes the file from
    the disk at once. *)
Example tracked_run_delete_acts_at_once :
  st_disk rooted_store !! ["ws"; "a.txt"] = Some (File "hello world")
  ∧ st_disk (z_store (ran_zen (tracked_file_run destructive))) !! ["ws"; "a.txt"] = None.
Proof. vm_compute. split; reflexivity. Qed.


Lemma chat_stream_memory_witness :
  ∃ before response,
    ran_chunks sample_chat = before ++ [CDone (ag_name sample_agent) response]
    ∧ quiet before
    ∧ z_memory (ran_zen sample_chat)
      = (if zr_ok response
         then Memory_add (z_cfg chatty_zen) "assistant" (zr_text response)
                (Memory_add (z_cfg chatty_zen) "user" "hi" (z_memory chatty_zen))
         else Memory_add (z_cfg chatty_zen) "user" "hi" (z_memory chatty_zen))
    ∧ Z.of_nat (length (z_memory (ran_zen sample_chat))) ≤ cfg_chat_history_limit (z_cfg chatty_zen)
    ∧ (zr_ok response = false → z_pending_plan (ran_zen sample_chat) = z_pending_plan chatty_zen).
Proof.
  apply (chat_stream_memory tt (λ _, Some tt) (λ _, "{}") talkative two_parts sample_tools
           (λ _ _, "") sample_agent "hi" chatty_zen).
  - right. vm_compute. discriminate.
  - vm_compute. discriminate.
Defined.

(** The chat turn of [sample_chat]: the memory is limited to two
    messages, so the earlier message is gone and the turn is what is
    left. *)
Example sample_chat_memory :
  z_memory (ran_zen sample_chat) = [Msg "user" "hi"; Msg "assistant" "Hello"].
Proof. vm_compute. reflexivity. Qed.

(** ** Planning and building in one go *)

Section DirectBuild.

Variable locate : path → string → path.
Context {Args : Type}.
Variable empty_args : Args.
Variable json_loads : string → option Args.
Variable json_dumps : list (string * jval) → string.
Variable arg_path : Args → string.
Context {Backend : Type}.
Variable complete : request → Backend → (exc + completion) * Backend.
Variable stream : request → Backend → (list string * option exc) * Backend.
Variable TOOL_CALLABLES :
  string → option (Args → path → store → (exc + ToolResult) * store).
Variable agent_of : string → option BaseAgent.
Variable CoderAgent : BaseAgent.
Variable ws_context : path → disk → string.
Variable ChatAgent : BaseAgent.

Local Abbreviation direct_build' :=
  (direct_build locate empty_args json_loads json_dumps arg_path complete stream
     TOOL_CALLABLES agent_of CoderAgent ws_context ChatAgent).

(** [direct_build] first yields the chunks of the planning turn.  When
    the text streamed in them is not a plan, it falls back to its own
    plan and runs it to the end: the tasks A1 (architect), C1 (coder)
    and D1 (debug) are started in this order in the workspace root, no
    exception leaves the generator, and no plan is left pending. *)
Theorem direct_build_fallback (prompt : string) (auto_accept : option bool)
    (z : zen Backend) :
  client_ok z →
  let out := direct_build' prompt auto_accept z in
  ∃ planned rest,
    bu_chunks out = CStatus "◈ Planning..." "info" "chat" :: planned ++ [CNewline] ++ rest
    ∧ (Plan.parse_build_plan (delta_text planned) = None →
       bu_escaped out = None
       ∧ bu_roots out = [("A1", cfg_workspace (z_cfg z)); ("C1", cfg_workspace (z_cfg z));
                         ("D1", cfg_workspace (z_cfg z))]
       ∧ z_pending_plan (bu_zen out) = None
       ∧ cfg_workspace (z_cfg (bu_zen out)) = cfg_workspace (z_cfg z)).
Proof.
  intros Hok out. unfold out, direct_build.
  lazymatch goal with
  | |- context [_run_agent _ _ _ _ _ _ ?a ?p ?h ?x ?u ?t ?zz] =>
      destruct (run_agent_client empty_args json_loads json_dumps complete stream
                  TOOL_CALLABLES a p h x u t zz Hok) as (Hesc & Hcl & _ & _ & _ & _);
      pose proof (run_agent_cfg empty_args json_loads json_dumps complete stream
                    TOOL_CALLABLES a p h x u t zz) as Hcfg;
      set (planned := _run_agent _ _ _ _ _ _ a p h x u t zz) in *
  end.
  rewrite Hesc. eexists (ran_chunks planned), _. split; [reflexivity|].
  intros Hnoplan. rewrite Hnoplan.
  cbn [default]. unfold execute_build.
  cbn [z_pending_plan with_original_prompt with_plan].
  change (names_subdir (default_plan prompt)) with false. cbn iota.
  lazymatch goal with
  | |- context [build_body _ _ _ _ _ _ _ _ _ _ ?pl ?au ?ws ?zz] =>
      assert (Hok' : client_ok zz) by (case_bool_decide; by left);
      destruct (build_body_completes empty_args json_loads json_dumps arg_path complete
                  stream TOOL_CALLABLES agent_of CoderAgent ws_context pl au ws zz Hok')
        as (H1 & H2 & H3 & _);
      pose proof (build_body_workspace empty_args json_loads json_dumps arg_path complete
                    stream TOOL_CALLABLES agent_of CoderAgent ws_context pl au ws zz)
        as [H4 _];
      assert (Hws : cfg_workspace (z_cfg zz) = cfg_workspace (z_cfg z))
        by (case_bool_decide; cbn; by rewrite Hcfg);
      assert (Hws' : ws = cfg_workspace (z_cfg z))
        by (case_bool_decide; cbn; by rewrite Hcfg)
  end.
  cbn [bu_escaped bu_roots bu_zen].
  split; [done|]. split; [by rewrite H2, Hws|]. split; [done|]. by rewrite H4.
Qed.

End DirectBuild.

Lemma direct_build_fallback_witness :
  ∃ planned rest,
    bu_chunks sample_direct_build
    = CStatus "◈ Planning..." "info" "chat" :: planned ++ [CNewline] ++ rest
    ∧ (Plan.parse_build_plan (delta_text planned) = None →
       bu_escaped sample_direct_build = None
       ∧ bu_roots sample_direct_build
         = [("A1", ["home"; "ws"]); ("C1", ["home"; "ws"]); ("D1", ["home"; "ws"])]
       ∧ z_pending_plan (bu_zen sample_direct_build) = None
       ∧ cfg_workspace (z_cfg (bu_zen sample_direct_build)) = ["home"; "ws"]).
Proof.
  apply (direct_build_fallback sample_locate tt (λ _, Some tt) (λ _, "{}") (λ _, "notes.txt")
           talkative two_parts sample_tools (λ _, Some sample_agent) sample_agent (λ _ _, "")
           sample_agent "a tool" None (sample_zen "key" None)).
  right. vm_compute. discriminate.
Defined.

(** Against that backend the fallback is what runs. *)
Example sample_direct_build_roots :
  bu_roots sample_direct_build
  = [("A1", ["home"; "ws"]); ("C1", ["home"; "ws"]); ("D1", ["home"; "ws"])].
Proof. vm_compute. reflexivity. Qed.
